(** * SpaceLink: streaming core, shallow embedding and verified properties

    The development follows the Python sources of the streaming core:

    - [network_optimizer.py]: [JitterBuffer], [AdaptiveBitrate];
    - [audio_capture.py]: [AudioCaptureTrack];
    - [src/modules/hw_encoder.py]: [HardwareEncoderManager];
    - [src/core/webrtc_server.py] and the signalling endpoints of
      [src/core/server.py];
    - [stream_capture.py]: [ScreenCapture].

    Conventions.  Python floats are modelled by exact rationals ([Q]); wall
    clock readings ([time.time()]) are explicit arguments, one per call in
    the source.  Mutable objects become records threaded through the
    operations; an operation that can raise returns a sum or an option. *)

From Stdlib Require Import ZArith QArith Lqa Lia.
From stdpp Require Import base option list strings pretty gmap.

Local Open Scope Z_scope.
Local Open Scope Q_scope.

(** ** Python helpers *)

Module Py.

(** [collections.deque(maxlen=n)]: [append] pushes on the right and, when
    the bound is exceeded, drops one element on the left. *)
Record deque (A : Type) := Deque { maxlen : nat; items : list A }.
Arguments Deque {A} _ _.
Arguments maxlen {A} _.
Arguments items {A} _.

Definition deque_new {A} (n : nat) : deque A := Deque n [].

Definition len {A} (d : deque A) : nat := length (items d).

Definition append {A} (x : A) (d : deque A) : deque A :=
    let l := items d ++ [x] in
    Deque (maxlen d) (if (maxlen d <? length l)%nat then tail l else l).

(** [d[-k]] for [k >= 1]; [None] stands for [IndexError]. *)
Definition index_from_end {A} (d : deque A) (k : nat) : option A :=
    if (length (items d) <? k)%nat then None
    else items d !! (length (items d) - k)%nat.

(** The [n] most recent elements of a history, oldest first. *)
Definition lastn {A} (n : nat) (l : list A) : list A :=
    drop (length l - n) l.

(** Comparisons on numbers, as booleans. *)
Definition gt (a b : Q) : bool := negb (Qle_bool a b).
Definition lt (a b : Q) : bool := negb (Qle_bool b a).

(** [int(x)]: truncation toward zero. *)
Definition int (x : Q) : Z := Z.quot (Qnum x) (Zpos (Qden x)).

Definition Qsum (l : list Q) : Q := foldr Qplus 0 l.

(** [statistics.mean]; [None] stands for [StatisticsError] (no data). *)
Definition mean (l : list Q) : option Q :=
    match l with
    | [] => None
    | _ => Some (Qsum l / inject_Z (Z.of_nat (length l)))
    end.

(** [statistics.variance]: sample variance, at least two data points. *)
Definition variance (l : list Q) : option Q :=
    match l with
    | [] | [_] => None
    | _ =>
        m ← mean l;
        Some (Qsum (map (fun x => (x - m) * (x - m)) l)
              / inject_Z (Z.of_nat (length l - 1)))
    end.

Section Stdev.
(** The square root of the floating-point unit is not part of the
    repository: it is a parameter of the development. *)
Variable sqrt : Q -> Q.

Definition stdev (l : list Q) : option Q := sqrt <$> variance l.
End Stdev.

End Py.

(** ** [network_optimizer.py] *)

Module JitterBuffer.
Import Py.

Record t := Make {
    min_delay : Z;
    max_delay : Z;
    target_delay : Z;
    current_delay : Z;
    arrival_times : deque Q;
    jitter_history : deque Q
  }.

Definition init (min_delay max_delay target_delay : Z) : t :=
    Make min_delay max_delay target_delay target_delay
         (deque_new 100) (deque_new 50).

(** Default arguments of [__init__]. *)
Definition default : t := init 20 200 50.

(** [add_packet(timestamp)]; [time_time] is the reading of [time.time()].
    The [timestamp] argument is ignored by the source. *)
Definition add_packet (timestamp : Q) (time_time : Q) (jb : t) : option t :=
    let now := time_time * 1000 in
    let arrivals := append now (arrival_times jb) in
    if (2 <=? len arrivals)%nat then
      a ← index_from_end arrivals 1;
      b ← index_from_end arrivals 2;
      let inter_arrival := a - b in
      Some (Make (min_delay jb) (max_delay jb) (target_delay jb)
                 (current_delay jb) arrivals
                 (append inter_arrival (jitter_history jb)))
    else
      Some (Make (min_delay jb) (max_delay jb) (target_delay jb)
                 (current_delay jb) arrivals (jitter_history jb)).

Section Delay.
Variable sqrt : Q -> Q.

(** [calculate_optimal_delay()]: the returned delay and the new state. *)
Definition calculate_optimal_delay (jb : t) : option (Z * t) :=
      if (len (jitter_history jb) <? 5)%nat then
        Some (target_delay jb, jb)
      else
        jitter ← stdev sqrt (items (jitter_history jb));
        mean_delay ← mean (items (jitter_history jb));
        let optimal := int (mean_delay + 2 * jitter) in
        let d := Z.max (min_delay jb) (Z.min (max_delay jb) optimal) in
        Some (d, Make (min_delay jb) (max_delay jb) (target_delay jb) d
                      (arrival_times jb) (jitter_history jb)).
End Delay.

(** A run of packet arrivals, given by the successive clock readings. *)
Fixpoint add_packets (clock : list Q) (jb : t) : option t :=
    match clock with
    | [] => Some jb
    | c :: clock' => jb' ← add_packet c c jb; add_packets clock' jb'
    end.

End JitterBuffer.

Module AdaptiveBitrate.
Import Py.

Record t := Make {
    current_preset : string;
    latency_history : deque Q;
    bandwidth_history : deque Q;
    last_adjustment : Q;
    adjustment_cooldown : Q
  }.

(** [__init__]; [time_time] is the reading of [time.time()]. *)
Definition init (time_time : Q) : t :=
    Make "1080p" (deque_new 30) (deque_new 20) time_time 3.

Definition update_metrics (latency bandwidth : Q) (ab : t) : t :=
    Make (current_preset ab)
         (append latency (latency_history ab))
         (append bandwidth (bandwidth_history ab))
         (last_adjustment ab) (adjustment_cooldown ab).

(** [calculate_quality()].  [now_check] is the clock reading of the
    cooldown test, [now_adjust] the later one stored on a tier change.
    [None] stands for an uncaught [StatisticsError]. *)
Definition calculate_quality (now_check now_adjust : Q) (ab : t)
    : option (string * t) :=
    if (len (latency_history ab) <? 3)%nat then Some (current_preset ab, ab)
    else if lt (now_check - last_adjustment ab) (adjustment_cooldown ab)
    then Some (current_preset ab, ab)
    else
      avg_latency ← mean (items (latency_history ab));
      avg_bandwidth ←
        match items (bandwidth_history ab) with
        | [] => Some 5000
        | l => mean l
        end;
      let target :=
        if gt avg_latency 150 || lt avg_bandwidth 1000 then "480p"
        else if gt avg_latency 100 || lt avg_bandwidth 2000 then "720p"
        else if gt avg_latency 50 || lt avg_bandwidth 5000 then "1080p"
        else if gt avg_latency 20 || lt avg_bandwidth 10000 then "1440p"
        else "4k" in
      if negb (String.eqb target (current_preset ab)) then
        Some (target,
              Make target (latency_history ab) (bandwidth_history ab)
                   now_adjust (adjustment_cooldown ab))
      else Some (current_preset ab, ab).

End AdaptiveBitrate.

(** ** numpy arrays, as used by the audio track *)

Module Np.

(** A two-dimensional array: its shape (rows, columns) and its elements
    in row-major order. *)
Record ndarray (A : Type) := Array { shape : nat * nat; data : list A }.
Arguments Array {A} _ _.
Arguments shape {A} _.
Arguments data {A} _.

Definition zeros (sh : nat * nat) : ndarray Q :=
    Array sh (replicate (fst sh * snd sh) 0).

Definition zeros_like (a : ndarray Q) : ndarray Q := zeros (shape a).

(** [a * k] for a scalar [k]. *)
Definition scale (a : ndarray Q) (k : Q) : ndarray Q :=
    Array (shape a) (map (fun x => x * k) (data a)).

(** Two's complement reduction to 16 bits. *)
Definition wrap16 (z : Z) : Z := ((z + 32768) mod 65536 - 32768)%Z.

(** [astype(np.int16)] on one element: the C conversion, which truncates
    toward zero and keeps the low 16 bits of the integer obtained (for
    magnitudes below 2^31, the range of the intermediate conversion). *)
Definition int16 (x : Q) : Z := wrap16 (Py.int x).

Definition astype_int16 (a : ndarray Q) : ndarray Z :=
    Array (shape a) (map int16 (data a)).

End Np.

(** ** [audio_capture.py] *)

Module AudioCaptureTrack.
Import Np.

Inductive Backend := sounddevice | pyaudio.

(** [queue.Queue(maxsize=n)], used without blocking. *)
Record Queue (A : Type) := MkQueue { maxsize : nat; queue : list A }.
Arguments MkQueue {A} _ _.
Arguments maxsize {A} _.
Arguments queue {A} _.

Definition full {A} (q : Queue A) : bool :=
    (0 <? maxsize q)%nat && (maxsize q <=? length (queue q))%nat.

Definition put {A} (x : A) (q : Queue A) : Queue A :=
    MkQueue (maxsize q) (queue q ++ [x]).

(** [get_nowait()]; [None] stands for [queue.Empty]. *)
Definition get_nowait {A} (q : Queue A) : option (A * Queue A) :=
    match queue q with
    | [] => None
    | x :: rest => Some (x, MkQueue (maxsize q) rest)
    end.

Record t := Make {
    sample_rate : Z;
    channels : nat;
    _timestamp : Z;
    _samples_per_frame : nat;
    _audio_queue : Queue (ndarray Q);
    _running : bool;
    _muted : bool;
    _volume : Q
  }.

(** The frame handed to the transport. *)
Record AudioFrame := MkFrame {
    format : string;
    layout : string;
    samples : nat;
    frame_sample_rate : Z;
    pts : Z;
    plane : ndarray Z
  }.

(** [__init__], with the module-level [AUDIO_BACKEND]. *)
Definition init (AUDIO_BACKEND : option Backend)
      (sample_rate : Z) (channels : nat) : t :=
    Make sample_rate channels 0 960 (MkQueue 50 []) 
         (match AUDIO_BACKEND with None => false | Some _ => true end)
         false 1.

Definition set_muted (muted : bool) (tr : t) : t :=
    Make (sample_rate tr) (channels tr) (_timestamp tr)
         (_samples_per_frame tr) (_audio_queue tr) (_running tr)
         muted (_volume tr).

(** [max(0.0, min(1.0, volume))]. *)
Definition set_volume (volume : Q) (tr : t) : t :=
    let m := if Py.lt volume 1 then volume else 1 in
    let v := if Py.gt m 0 then m else 0 in
    Make (sample_rate tr) (channels tr) (_timestamp tr)
         (_samples_per_frame tr) (_audio_queue tr) (_running tr)
         (_muted tr) v.

(** The capture thread delivers a block: [audio_callback] of the
    sounddevice stream, or one successful read of the pyaudio loop.  A
    full queue drops the block. *)
Definition audio_callback (indata : ndarray Q) (tr : t) : t :=
    if negb (full (_audio_queue tr)) then
      Make (sample_rate tr) (channels tr) (_timestamp tr)
           (_samples_per_frame tr) (put indata (_audio_queue tr))
           (_running tr) (_muted tr) (_volume tr)
    else tr.

(** The capture thread dies on an exception of the backend. *)
Definition capture_error (tr : t) : t :=
    Make (sample_rate tr) (channels tr) (_timestamp tr)
         (_samples_per_frame tr) (_audio_queue tr) false
         (_muted tr) (_volume tr).

(** The blocks the backends deliver have the shape the stream was opened
    with: [blocksize] rows of [channels] samples. *)
Definition captured_block (tr : t) (b : ndarray Q) : Prop :=
    shape b = (_samples_per_frame tr, channels tr)
    /\ length (data b) = (_samples_per_frame tr * channels tr)%nat.

(** [recv()]: the frame and the new state.  The final [asyncio.sleep]
    only paces the caller. *)
Definition recv (tr : t) : AudioFrame * t :=
    let '(audio_data, q) :=
      match get_nowait (_audio_queue tr) with
      | Some (block, q') => (block, q')
      | None => (zeros (_samples_per_frame tr, channels tr), _audio_queue tr)
      end in
    let audio_data :=
      if _muted tr then zeros_like audio_data
      else scale audio_data (_volume tr) in
    let audio_data := astype_int16 (scale audio_data 32767) in
    let frame :=
      MkFrame "s16"
              (if (channels tr =? 2)%nat then "stereo" else "mono")
              (_samples_per_frame tr) (sample_rate tr) (_timestamp tr)
              audio_data in
    (frame,
     Make (sample_rate tr) (channels tr)
          (_timestamp tr + Z.of_nat (_samples_per_frame tr))%Z
          (_samples_per_frame tr) q (_running tr) (_muted tr) (_volume tr)).

(** What can happen to a track between and including pulls. *)
Inductive event :=
  | Captured (indata : ndarray Q)     (* the backend delivered a block *)
  | ReadError                         (* one read failed, the loop goes on *)
  | CaptureError                      (* the capture thread stopped *)
  | SetMuted (muted : bool)
  | SetVolume (volume : Q)
  | Pull.                             (* [recv()] *)

Definition step (e : event) (tr : t) : list AudioFrame * t :=
    match e with
    | Captured indata => ([], audio_callback indata tr)
    | ReadError => ([], tr)
    | CaptureError => ([], capture_error tr)
    | SetMuted m => ([], set_muted m tr)
    | SetVolume v => ([], set_volume v tr)
    | Pull => let '(f, tr') := recv tr in ([f], tr')
    end.

(** The frames emitted along a run, in order, and the final state. *)
Fixpoint run (evs : list event) (tr : t) : list AudioFrame * t :=
    match evs with
    | [] => ([], tr)
    | e :: evs' =>
        let '(fs, tr') := step e tr in
        let '(fs', tr'') := run evs' tr' in
        (fs ++ fs', tr'')
    end.

(** Saturating quantization, in the words of the specification: the value
    is clamped to the range of a signed 16-bit sample. *)
Definition quantize_clamped (x : Q) : Z :=
    Z.max (-32768) (Z.min 32767 (Py.int (x * 32767))).

End AudioCaptureTrack.


(** ** Python strings *)

Module PyStr.

Definition lower_ascii (c : Ascii.ascii) : Ascii.ascii :=
  let n := Ascii.nat_of_ascii c in
  if (65 <=? n)%nat && (n <=? 90)%nat then Ascii.ascii_of_nat (n + 32) else c.

(** [s.lower()], on the ASCII letters. *)
Fixpoint lower (s : string) : string :=
  match s with
  | EmptyString => EmptyString
  | String c s' => String (lower_ascii c) (lower s')
  end.

(** [needle in hay]. *)
Fixpoint contains (needle hay : string) : bool :=
  match hay with
  | EmptyString => String.prefix needle EmptyString
  | String _ hay' => String.prefix needle hay || contains needle hay'
  end.

End PyStr.

(** ** [src/modules/hw_encoder.py] *)

Module HardwareEncoderManager.

Inductive EncoderType := SOFTWARE | NVENC | QUICKSYNC | AMF | VIDEOTOOLBOX.

Definition EncoderType_eqb (a b : EncoderType) : bool :=
  match a, b with
  | SOFTWARE, SOFTWARE | NVENC, NVENC | QUICKSYNC, QUICKSYNC
  | AMF, AMF | VIDEOTOOLBOX, VIDEOTOOLBOX => true
  | _, _ => false
  end.

Record EncoderInfo := MkInfo {
  encoder_type : EncoderType;
  name : string;
  codec : string;
  available : bool;
  description : string
}.

Record t := Make {
  _available_encoders : list EncoderInfo;
  _selected_encoder : option EncoderInfo;
  _ffmpeg_path : option string
}.

(** The host the manager probes: the result of [shutil.which("ffmpeg")],
    the standard output of [ffmpeg -encoders] ([None] when the subprocess
    raises) and, per encoder name, the return code of the smoke test
    ([None] when that subprocess raises or times out). *)
Record Host := MkHost {
  which_ffmpeg : option string;
  encoders_stdout : option string;
  smoke_test : string -> option Z
}.

(** The dict returned by [select_encoder]. *)
Inductive Response :=
| Ok (encoder message : string)          (* "status": "ok" *)
| Error (message : string).              (* "status": "error" *)

Definition _test_encoder (h : Host) (ffmpeg_path : option string)
    (encoder_name : string) : bool :=
  match ffmpeg_path with
  | None | Some EmptyString => false
  | Some _ =>
      match smoke_test h encoder_name with
      | Some returncode => (returncode =? 0)%Z
      | None => false
      end
  end.

Definition _select_by_priority (encoders : list EncoderInfo)
  : list EncoderType -> option EncoderInfo :=
  fix go (priority : list EncoderType) :=
    match priority with
    | [] => None
    | encoder_type0 :: rest =>
        match List.find (fun encoder =>
                 EncoderType_eqb (encoder_type encoder) encoder_type0
                 && available encoder) encoders with
        | Some encoder => Some encoder
        | None => go rest
        end
    end.

Definition _select_best_encoder (m : t) : t :=
  let priority := [NVENC; QUICKSYNC; AMF; VIDEOTOOLBOX; SOFTWARE] in
  match _select_by_priority (_available_encoders m) priority with
  | Some encoder =>
      Make (_available_encoders m) (Some encoder) (_ffmpeg_path m)
  | None =>
      (* fallback to software *)
      match List.find (fun encoder =>
               EncoderType_eqb (encoder_type encoder) SOFTWARE)
              (_available_encoders m) with
      | Some encoder =>
          Make (_available_encoders m) (Some encoder) (_ffmpeg_path m)
      | None => m
      end
  end.

(** One probe of [_detect_encoders]: the encoder is appended when its name
    occurs in the listing. *)
Definition probe (h : Host) (path : option string) (listing : string)
    (ty : EncoderType) (nm cdc descr : string)
    (encoders : list EncoderInfo) : list EncoderInfo :=
  if PyStr.contains nm listing
  then encoders ++ [MkInfo ty nm cdc (_test_encoder h path nm) descr]
  else encoders.

Definition _detect_encoders (h : Host) (m : t) : t :=
  let software :=
    MkInfo SOFTWARE "libx264" "h264" true "Software H.264 encoder (CPU)" in
  let encoders := [software] in
  match which_ffmpeg h with
  | None | Some EmptyString =>
      Make encoders (encoders !! 0%nat) (which_ffmpeg h)
  | Some path =>
      let encoders :=
        match encoders_stdout h with
        | None => encoders       (* the exception is caught and printed *)
        | Some stdout =>
            let encoder_output := PyStr.lower stdout in
            let p := probe h (Some path) encoder_output in
            p VIDEOTOOLBOX "h264_videotoolbox" "h264"
              "Apple VideoToolbox H.264 encoder"
              (p AMF "h264_amf" "h264" "AMD AMF H.264 encoder"
                 (p QUICKSYNC "h264_qsv" "h264" "Intel QuickSync H.264 encoder"
                    (p NVENC "hevc_nvenc" "hevc" "NVIDIA NVENC HEVC encoder"
                       (p NVENC "h264_nvenc" "h264"
                          "NVIDIA NVENC H.264 encoder" encoders))))
        end in
      _select_best_encoder (Make encoders (_selected_encoder m) (Some path))
  end.

(** [__init__]. *)
Definition init (h : Host) : t := _detect_encoders h (Make [] None None).

Definition select_encoder (encoder_name : string) (m : t) : Response * t :=
  match List.find (fun encoder =>
           String.eqb (name encoder) encoder_name && available encoder)
          (_available_encoders m) with
  | Some encoder =>
      (Ok (name encoder) ("Selected encoder: " +:+ description encoder),
       Make (_available_encoders m) (Some encoder) (_ffmpeg_path m))
  | None => (Error ("Encoder not available: " +:+ encoder_name), m)
  end.

(** Successive selection requests, as issued by the settings endpoint. *)
Fixpoint select_encoders (requests : list string) (m : t) : t :=
  match requests with
  | [] => m
  | r :: rest => select_encoders rest (snd (select_encoder r m))
  end.

End HardwareEncoderManager.


(** ** The peer connection of the transport library

    [RTCPeerConnection] belongs to the WebRTC library the server is built
    on, not to the repository.  Only what signalling observes is kept: the
    signalling state and the remote description. *)

Module Aiortc.

Inductive SignalingState :=
| stable | have_local_offer | have_remote_offer | closed.

Record RTCSessionDescription := MkDesc { sdp : string; type : string }.

Record RTCPeerConnection := MkPC {
  signalingState : SignalingState;
  remoteDescription : option RTCSessionDescription
}.

Inductive Exception :=
| InvalidStateError (msg : string)
| KeyError (key : string)
| TypeError (msg : string)
| ValueError (msg : string).

(** [str(e)]. *)
Definition str (e : Exception) : string :=
  match e with
  | InvalidStateError msg | TypeError msg | ValueError msg => msg
  | KeyError key => "'" +:+ key +:+ "'"
  end.

(** A reference behaviour of [setRemoteDescription], used to run the
    signalling code on examples: the description is accepted exactly in the
    signalling states the WebRTC state graph allows for its type. *)
Definition reference_setRemoteDescription
    (pc : RTCPeerConnection) (d : RTCSessionDescription)
  : Exception + RTCPeerConnection :=
  if String.eqb (type d) "answer" then
    match signalingState pc with
    | have_local_offer => inr (MkPC stable (Some d))
    | _ => inl (InvalidStateError "Cannot handle answer in this signaling state")
    end
  else if String.eqb (type d) "offer" then
    match signalingState pc with
    | stable | have_remote_offer => inr (MkPC have_remote_offer (Some d))
    | _ => inl (InvalidStateError "Cannot handle offer in this signaling state")
    end
  else inl (ValueError "Unexpected description type").

End Aiortc.

(** ** [src/core/webrtc_server.py] and the answer endpoint of
    [src/core/server.py] *)

Module WebRTC.
Import Aiortc.

(** Peer connections are shared objects: the store maps the identity of an
    object ([id(pc)]) to its state.  The manager keeps a set of them, the
    server a dict from [str(id(pc))] to them. *)
Record Server := MkServer {
  heap : gmap N RTCPeerConnection;
  peer_connections : gset N;           (* [WebRTCManager.peer_connections] *)
  active_pcs : gmap string N           (* [active_pcs] of the server *)
}.

(** The JSON body of [POST /webrtc/answer]. *)
Record AnswerRequest := MkRequest {
  pc_id : option string;
  answer : option (gmap string string)
}.

Inductive Response :=
| Connected                         (* {"status": "connected"} *)
| ErrorResponse (error : string).   (* {"error": ...} *)

Section Signalling.
(** The library call, a parameter of the development. *)
Variable setRemoteDescription :
  RTCPeerConnection -> RTCSessionDescription -> Exception + RTCPeerConnection.

(** [WebRTCManager.handle_answer(pc, answer_sdp)]: the exception raised, if
    any, and the store afterwards. *)
Definition handle_answer (pc : N) (answer_sdp : option (gmap string string))
    (st : Server) : (Exception + unit) * Server :=
  match answer_sdp with
  | None => (inl (TypeError "'NoneType' object is not subscriptable"), st)
  | Some d =>
      match d !! "sdp" with
      | None => (inl (KeyError "sdp"), st)
      | Some s =>
          match d !! "type" with
          | None => (inl (KeyError "type"), st)
          | Some ty =>
              (* [RTCSessionDescription(sdp=..., type=...)] *)
              let answer := MkDesc s ty in
              match heap st !! pc with
              | None => (inl (ValueError "no such object"), st)
              | Some o =>
                  match setRemoteDescription o answer with
                  | inl e => (inl e, st)
                  | inr o' =>
                      (inr tt,
                       MkServer (<[pc := o']> (heap st))
                                (peer_connections st) (active_pcs st))
                  end
              end
          end
      end
  end.

(** The connection named by a request, if the server knows it. *)
Definition lookup_pc (data : AnswerRequest) (st : Server) : option N :=
  k ← pc_id data; active_pcs st !! k.

(** The [try] block of [receive_webrtc_answer]. *)
Definition receive_webrtc_answer_try (data : AnswerRequest) (st : Server)
  : (Exception + Response) * Server :=
  match lookup_pc data st with
  | None => (inr (ErrorResponse "Invalid pc_id"), st)
  | Some pc =>
      match handle_answer pc (answer data) st with
      | (inl e, st') => (inl e, st')
      | (inr _, st') => (inr Connected, st')
      end
  end.

(** [receive_webrtc_answer]: exceptions become error responses. *)
Definition receive_webrtc_answer (data : AnswerRequest) (st : Server)
  : Response * Server :=
  match receive_webrtc_answer_try data st with
  | (inl e, st') => (ErrorResponse (str e), st')
  | (inr r, st') => (r, st')
  end.

End Signalling.

End WebRTC.

(** ** [stream_capture.py] *)

Module ScreenCapture.

(** A monitor as [mss] reports it. *)
Record Rect := MkRect { left : Z; top : Z; width : Z; height : Z }.

Record MonitorInfo := MkMon {
  index : nat;
  mon_left : Z;
  mon_top : Z;
  mon_width : Z;
  mon_height : Z;
  is_all : bool;
  name : string
}.

(** [monitor], [width] and [height] are attributes created by the first
    successful selection: [None] before. *)
Record t := Make {
  _monitor_index : Z;
  _monitors_info : list MonitorInfo;
  monitor : option Rect;
  sc_width : option Z;
  sc_height : option Z
}.

Inductive Response :=
| Ok (monitor_index : Z) (name : string) (width height : Z)
| Error (message : string).

(** [_refresh_monitors()]; [sct_monitors] is what [mss] enumerates. *)
Definition _refresh_monitors (sct_monitors : list Rect) (sc : t) : t :=
  Make (_monitor_index sc)
       (imap (fun i mon =>
                MkMon i (left mon) (top mon) (width mon) (height mon)
                      (i =? 0)%nat
                      (if (i =? 0)%nat then "All Monitors"
                       else "Monitor " +:+ pretty i))
             sct_monitors)
       (monitor sc) (sc_width sc) (sc_height sc).

(** [select_monitor(monitor_index)]; [None] stands for [IndexError]. *)
Definition select_monitor (sct_monitors : list Rect) (monitor_index : Z)
    (sc : t) : option (Response * t) :=
  let sc := _refresh_monitors sct_monitors sc in
  if (monitor_index <? 0)%Z
     || (Z.of_nat (length (_monitors_info sc)) <=? monitor_index)%Z
  then
    Some (Error ("Invalid monitor index: " +:+ pretty monitor_index), sc)
  else
    mon ← _monitors_info sc !! Z.to_nat monitor_index;
    Some (Ok monitor_index (name mon) (mon_width mon) (mon_height mon),
          Make monitor_index (_monitors_info sc)
               (Some (MkRect (mon_left mon) (mon_top mon)
                             (mon_width mon) (mon_height mon)))
               (Some (mon_width mon)) (Some (mon_height mon))).

End ScreenCapture.


(** ** Reference definitions, in the words of the specification *)

Module Reference.

(** Inter-arrival deltas of a sequence of arrival times. *)
Fixpoint deltas (ts : list Q) : list Q :=
  match ts with
  | a :: (b :: _) as rest => (b - a) :: deltas rest
  | _ => []
  end.

(** The threshold table of tier selection: latency bound, bandwidth bound,
    tier.  Rows are tried in order, the first matching row wins. *)
Definition tier_table : list (Q * Q * string) :=
  [ (150, 1000, "480p"); (100, 2000, "720p");
    (50, 5000, "1080p"); (20, 10000, "1440p") ].

Fixpoint select_tier (rows : list (Q * Q * string)) (latency bandwidth : Q)
  : string :=
  match rows with
  | [] => "4k"
  | (lat, bw, tier) :: rows' =>
      if Py.gt latency lat || Py.lt bandwidth bw then tier
      else select_tier rows' latency bandwidth
  end.

(** Clamping into [[lo, hi]]. *)
Definition clamp (lo hi x : Z) : Z :=
  if (x <? lo)%Z then lo else if (hi <? x)%Z then hi else x.

(** Any two tier changes of a log of change times, oldest first, are at
    least one cooldown apart. *)
Fixpoint spaced (cooldown : Q) (changes : list Q) : Prop :=
  match changes with
  | [] => True
  | c :: later => Forall (fun c' => c + cooldown <= c') later
                  /\ spaced cooldown later
  end.

End Reference.

(** ** Runs of the bitrate controller *)

Module BitrateRun.
Import AdaptiveBitrate.

(** What happens to a controller: new metrics, or a tier selection with its
    two clock readings. *)
Inductive event :=
| Update (latency bandwidth : Q)
| Select (now_check now_adjust : Q).

(** The clock never goes back along a run that starts at time [t]. *)
Fixpoint monotone (t : Q) (evs : list event) : Prop :=
  match evs with
  | [] => True
  | Update _ _ :: evs' => monotone t evs'
  | Select c a :: evs' => t <= c /\ c <= a /\ monotone a evs'
  end.

(** The times of the tier changes along a run, oldest first, and the final
    state; [None] when a call raises. *)
Fixpoint run (evs : list event) (ab : t) : option (list Q * t) :=
  match evs with
  | [] => Some ([], ab)
  | Update l b :: evs' => run evs' (update_metrics l b ab)
  | Select c a :: evs' =>
      r ← calculate_quality c a ab;
      r' ← run evs' (snd r);
      Some ((if String.eqb (fst r) (current_preset ab) then [] else [a])
              ++ fst r', snd r')
  end.

End BitrateRun.

(** ** Invariants of the histories *)

Module Invariants.

(** The jitter buffer [jb] has seen exactly the arrival times [h], oldest
    first: its two windows hold the most recent arrivals and deltas. *)
Definition jitter_history_of (h : list Q) (jb : JitterBuffer.t) : Prop :=
  Py.maxlen (JitterBuffer.arrival_times jb) = 100%nat
  /\ Py.maxlen (JitterBuffer.jitter_history jb) = 50%nat
  /\ Py.items (JitterBuffer.arrival_times jb) = Py.lastn 100 h
  /\ Py.items (JitterBuffer.jitter_history jb)
     = Py.lastn 50 (Reference.deltas h).

(** The bitrate controller [ab] has seen exactly the samples [h]. *)
Definition metrics_history_of (h : list (Q * Q)) (ab : AdaptiveBitrate.t)
  : Prop :=
  Py.maxlen (AdaptiveBitrate.latency_history ab) = 30%nat
  /\ Py.maxlen (AdaptiveBitrate.bandwidth_history ab) = 20%nat
  /\ Py.items (AdaptiveBitrate.latency_history ab) = Py.lastn 30 (map fst h)
  /\ Py.items (AdaptiveBitrate.bandwidth_history ab)
     = Py.lastn 20 (map snd h).

(** Successive [update_metrics] calls. *)
Definition update_all (samples : list (Q * Q)) (ab : AdaptiveBitrate.t)
  : AdaptiveBitrate.t :=
  foldl (fun ab s => AdaptiveBitrate.update_metrics (fst s) (snd s) ab)
        ab samples.

End Invariants.

Module EncoderInvariant.
Import HardwareEncoderManager.

(** The selected encoder is listed and passed its smoke test. *)
Definition selected_available (m : t) : Prop :=
  exists e, _selected_encoder m = Some e
            /\ available e = true
            /\ In e (_available_encoders m).

End EncoderInvariant.

(** ** Concrete inputs used by the examples *)

Module Examples.

(** A captured mono block at half scale, on a track at half volume. *)
Definition half_block : Np.ndarray Q :=
  Np.Array (960%nat, 1%nat) (replicate 960 (1 # 2)).

Definition half_events : list AudioCaptureTrack.event :=
  [AudioCaptureTrack.SetVolume (1 # 2); AudioCaptureTrack.Captured half_block].

Definition half_track : AudioCaptureTrack.t :=
  snd (AudioCaptureTrack.run half_events
         (AudioCaptureTrack.init (Some AudioCaptureTrack.sounddevice) 48000 1)).

(** A captured mono block whose samples are 1.5, at full volume. *)
Definition loud_block : Np.ndarray Q :=
  Np.Array (960%nat, 1%nat) (replicate 960 (3 # 2)).

Definition loud_track : AudioCaptureTrack.t :=
  snd (AudioCaptureTrack.run [AudioCaptureTrack.Captured loud_block]
         (AudioCaptureTrack.init (Some AudioCaptureTrack.sounddevice) 48000 1)).

(** Pulls around a failed read and a stopped capture thread. *)
Definition interrupted_pulls : list AudioCaptureTrack.event :=
  [AudioCaptureTrack.Pull; AudioCaptureTrack.CaptureError;
   AudioCaptureTrack.Pull; AudioCaptureTrack.ReadError;
   AudioCaptureTrack.Pull].

(** A host whose ffmpeg lists NVENC but where every smoke test fails. *)
Definition nvenc_broken : HardwareEncoderManager.Host :=
  HardwareEncoderManager.MkHost
    (Some "/usr/bin/ffmpeg")
    (Some " V....D h264_nvenc           NVIDIA NVENC H.264 encoder")
    (fun _ => Some 1%Z).

(** A server holding one connection, already closed and cleaned up by the
    manager, and two requests: one for it, one for an id never issued. *)
Definition answer_dict : gmap string string :=
  <["sdp" := "v=0"]> (<["type" := "answer"]> ∅).

Definition closed_server : WebRTC.Server :=
  WebRTC.MkServer (<[1%N := Aiortc.MkPC Aiortc.closed None]> ∅) ∅
                  (<["1" := 1%N]> ∅).

Definition closed_request : WebRTC.AnswerRequest :=
  WebRTC.MkRequest (Some "1") (Some answer_dict).

Definition unknown_request : WebRTC.AnswerRequest :=
  WebRTC.MkRequest (Some "42") (Some answer_dict).

(** Two monitors behind the virtual desktop. *)
Definition two_monitors : list ScreenCapture.Rect :=
  [ScreenCapture.MkRect 0 0 4480 1440;
   ScreenCapture.MkRect 0 0 2560 1440;
   ScreenCapture.MkRect 2560 0 1920 1080].

Definition on_primary : ScreenCapture.t :=
  ScreenCapture.Make 1 [] (Some (ScreenCapture.MkRect 0 0 2560 1440))
                     (Some 2560%Z) (Some 1440%Z).

End Examples.

(** ** [network_optimizer.py]: presets, status and the optimizer facade *)

Module NetworkOptimizer.
Import Py.

(** One row of [AdaptiveBitrate.QUALITY_PRESETS]. *)
Record Preset := MkPreset { width : Z; height : Z; bitrate : Z; fps : Z }.

Definition QUALITY_PRESETS : gmap string Preset :=
  list_to_map
    [ ("4k", MkPreset 3840 2160 15000 60);
      ("1440p", MkPreset 2560 1440 8000 60);
      ("1080p", MkPreset 1920 1080 5000 60);
      ("720p", MkPreset 1280 720 2500 30);
      ("480p", MkPreset 854 480 1000 30);
      ("360p", MkPreset 640 360 500 24) ].

(** The dict returned by [get_settings]: the preset name and its row. *)
Record Settings := MkSettings { preset : string; row : Preset }.

(** [AdaptiveBitrate.get_settings()]; [None] stands for an exception
    ([StatisticsError] or [KeyError]). *)
Definition get_settings (now_check now_adjust : Q) (ab : AdaptiveBitrate.t)
  : option (Settings * AdaptiveBitrate.t) :=
  r ← AdaptiveBitrate.calculate_quality now_check now_adjust ab;
  p ← QUALITY_PRESETS !! fst r;
  Some (MkSettings (fst r) p, snd r).

(** The dict returned by [JitterBuffer.get_status]. *)
Record JitterStatus := MkJitterStatus {
  status_current_delay : Z;
  status_jitter : Q;
  buffer_size : nat
}.

Record NetworkMetrics := MkMetrics {
  latency : Q;
  jitter : Q;
  packet_loss : Q;
  bandwidth : Q;
  quality_score : Z
}.

(** An entry of [measurement_history]. *)
Record Measurement := MkMeasurement {
  m_timestamp : Q;
  m_latency : Q;
  m_quality : Z
}.

Record t := Make {
  jitter_buffer : JitterBuffer.t;
  adaptive_bitrate : AdaptiveBitrate.t;
  metrics : NetworkMetrics;
  measurement_history : deque Measurement
}.

(** [NetworkOptimizer()]; [time_time] is read by [AdaptiveBitrate()]. *)
Definition init (time_time : Q) : t :=
  Make JitterBuffer.default (AdaptiveBitrate.init time_time)
       (MkMetrics 0 0 0 0 100) (deque_new 100).




Section WithSqrt.
Variable sqrt : Q -> Q.

(** [JitterBuffer.get_status()]. *)
Definition jitter_get_status (jb : JitterBuffer.t) : option JitterStatus :=
  j ← (if (1 <? len (JitterBuffer.jitter_history jb))%nat
       then stdev sqrt (items (JitterBuffer.jitter_history jb))
       else Some 0);
  Some (MkJitterStatus (JitterBuffer.current_delay jb) j
                       (len (JitterBuffer.arrival_times jb))).





End WithSqrt.

End NetworkOptimizer.

Module OptimizerInvariant.

(** The tiers tier selection can produce. *)
Definition selectable_tiers : list string :=
  ["4k"; "1440p"; "1080p"; "720p"; "480p"].

(** The controller's tier is one of them. *)
Definition selectable (ab : AdaptiveBitrate.t) : Prop :=
  In (AdaptiveBitrate.current_preset ab) selectable_tiers.


End OptimizerInvariant.

(** ** [audio_capture.py]: the audio manager *)

Module AudioManager.

(** [active_tracks] holds the track objects themselves: an operation on a
    track is an update of its entry. *)
Record t := Make {
  muted : bool;
  volume : Q;
  active_tracks : list AudioCaptureTrack.t
}.

Definition init : t := Make false 1 [].

(** [create_track()], with the module-level [AUDIO_BACKEND]; the track is
    built with the default sample rate and channel count. *)
Definition create_track (AUDIO_BACKEND : option AudioCaptureTrack.Backend)
    (m : t) : AudioCaptureTrack.t * t :=
  let track := AudioCaptureTrack.init AUDIO_BACKEND 48000 2 in
  let track := AudioCaptureTrack.set_muted (muted m) track in
  let track := AudioCaptureTrack.set_volume (volume m) track in
  (track, Make (muted m) (volume m) (active_tracks m ++ [track])).

Definition set_muted (b : bool) (m : t) : t :=
  Make b (volume m) (map (AudioCaptureTrack.set_muted b) (active_tracks m)).

Definition set_volume (v : Q) (m : t) : t :=
  Make (muted m) v (map (AudioCaptureTrack.set_volume v) (active_tracks m)).

(** The body of [POST /settings/audio] in [server.py]: the keys present in
    the request are applied, and the manager's values are reported. *)
Definition update_audio_settings (req_muted : option bool)
    (req_volume : option Q) (m : t) : (bool * Q) * t :=
  let m := match req_muted with Some b => set_muted b m | None => m end in
  let m := match req_volume with Some v => set_volume v m | None => m end in
  ((muted m, volume m), m).

(** What happens to a manager and its tracks: calls of the manager, and
    the life of the [i]-th track (capture thread and pulls). *)
Inductive op :=
| CreateTrack (backend : option AudioCaptureTrack.Backend)
| UpdateSettings (req_muted : option bool) (req_volume : option Q)
| Captured (i : nat) (indata : Np.ndarray Q)
| CaptureError (i : nat)
| Pull (i : nat).

Definition on_track (i : nat) (e : AudioCaptureTrack.event) (m : t) : t :=
  Make (muted m) (volume m)
       (alter (fun tr => snd (AudioCaptureTrack.step e tr)) i
              (active_tracks m)).

Definition apply (o : op) (m : t) : t :=
  match o with
  | CreateTrack backend => snd (create_track backend m)
  | UpdateSettings b v => snd (update_audio_settings b v m)
  | Captured i indata => on_track i (AudioCaptureTrack.Captured indata) m
  | CaptureError i => on_track i AudioCaptureTrack.CaptureError m
  | Pull i => on_track i AudioCaptureTrack.Pull m
  end.

Definition apply_all (ops : list op) (m : t) : t :=
  foldl (fun m o => apply o m) m ops.

(** [max(0.0, min(1.0, v))], the volume a track stores for [v]. *)
Definition clamped (v : Q) : Q :=
  AudioCaptureTrack._volume
    (AudioCaptureTrack.set_volume v (AudioCaptureTrack.init None 48000 2)).

End AudioManager.

(** ** [stream_capture.py]: construction and queries *)

Module ScreenCaptureQueries.
Import ScreenCapture.

(** [l[i]] with Python's negative indices; [None] stands for
    [IndexError]. *)
Definition py_index {A} (l : list A) (i : Z) : option A :=
  if (0 <=? i)%Z then l !! Z.to_nat i
  else if (- Z.of_nat (length l) <=? i)%Z
       then l !! Z.to_nat (Z.of_nat (length l) + i)
       else None.

(** [ScreenCapture(monitor_index)]: the index is stored, the monitors are
    enumerated ([enumerated]) and the monitor is selected, with a second
    enumeration ([sct_monitors]); the status of the selection is
    dropped. *)
Definition init (enumerated sct_monitors : list Rect) (monitor_index : Z)
  : option t :=
  r ← select_monitor sct_monitors monitor_index
        (_refresh_monitors enumerated (Make monitor_index [] None None None));
  Some (snd r).

(** The dict returned by [get_current_monitor]. *)
Record Current := MkCurrent {
  c_index : Z;
  c_name : string;
  c_width : Z;
  c_height : Z
}.

Definition get_current_monitor (sc : t) : option Current :=
  if (_monitor_index sc <? Z.of_nat (length (_monitors_info sc)))%Z then
    mon ← py_index (_monitors_info sc) (_monitor_index sc);
    Some (MkCurrent (Z.of_nat (index mon)) (name mon)
                    (mon_width mon) (mon_height mon))
  else Some (MkCurrent 1 "Primary" 1920 1080).

(** An entry of the list returned by [enumerate_monitors]. *)
Record Entry := MkEntry {
  e_index : nat;
  e_name : string;
  e_width : Z;
  e_height : Z;
  e_position : Z * Z;
  is_primary : bool;
  is_virtual_desktop : bool;
  selected : bool
}.

Definition enumerate_monitors (sct_monitors : list Rect) (sc : t)
  : list Entry * t :=
  let sc := _refresh_monitors sct_monitors sc in
  (map (fun m =>
          MkEntry (index m) (name m) (mon_width m) (mon_height m)
                  (mon_left m, mon_top m)
                  (index m =? 1)%nat (is_all m)
                  (Z.of_nat (index m) =? _monitor_index sc)%Z)
       (_monitors_info sc),
   sc).

(** The [monitor_count] property. *)
Definition monitor_count (sc : t) : Z :=
  Z.max 0 (Z.of_nat (length (_monitors_info sc)) - 1).

(** [get_virtual_desktop()]. *)
Definition get_virtual_desktop (sct_monitors : list Rect) (sc : t)
  : Rect * t :=
  let sc := _refresh_monitors sct_monitors sc in
  (match _monitors_info sc with
   | all_mon :: _ =>
       MkRect (mon_left all_mon) (mon_top all_mon)
              (mon_width all_mon) (mon_height all_mon)
   | [] => MkRect 0 0 1920 1080
   end, sc).

(** The region [get_frame] hands to [mss]; [None] stands for the
    [AttributeError] of a capture whose [monitor] was never set. *)
Definition get_frame_region (sc : t) : option Rect := monitor sc.

(** Successive selection requests, each with the monitors enumerated at
    that time; [None] when a call raises. *)
Fixpoint select_all (requests : list (list Rect * Z)) (sc : t) : option t :=
  match requests with
  | [] => Some sc
  | (mons, i) :: rest =>
      r ← select_monitor mons i sc; select_all rest (snd r)
  end.

(** The recorded width and height are those of the capture region. *)
Definition region_recorded (sc : t) : Prop :=
  exists r, monitor sc = Some r
            /\ sc_width sc = Some (width r)
            /\ sc_height sc = Some (height r).

End ScreenCaptureQueries.

(** ** [src/modules/hw_encoder.py]: queries and encoder arguments *)

Module EncoderQueries.
Import HardwareEncoderManager.

(** [EncoderType.value]. *)
Definition value (ty : EncoderType) : string :=
  match ty with
  | SOFTWARE => "software"
  | NVENC => "nvenc"
  | QUICKSYNC => "quicksync"
  | AMF => "amf"
  | VIDEOTOOLBOX => "videotoolbox"
  end.

(** Position in the priority list of [_select_best_encoder]. *)
Definition rank (ty : EncoderType) : nat :=
  match ty with
  | NVENC => 0 | QUICKSYNC => 1 | AMF => 2 | VIDEOTOOLBOX => 3 | SOFTWARE => 4
  end.

(** Equality of the dataclass: field by field. *)
Definition EncoderInfo_eqb (a b : EncoderInfo) : bool :=
  EncoderType_eqb (encoder_type a) (encoder_type b)
  && String.eqb (name a) (name b)
  && String.eqb (codec a) (codec b)
  && Bool.eqb (available a) (available b)
  && String.eqb (description a) (description b).

(** The dict returned by [get_selected_encoder]. *)
Record Selected := MkSelected {
  s_type : string;
  s_name : string;
  s_codec : string;
  s_description : string
}.

Definition get_selected_encoder (m : t) : option Selected :=
  match _selected_encoder m with
  | Some e =>
      Some (MkSelected (value (encoder_type e)) (name e) (codec e)
                       (description e))
  | None => None
  end.

(** An entry of the list returned by [get_available_encoders]. *)
Record Listed := MkListed {
  l_type : string;
  l_name : string;
  l_codec : string;
  l_available : bool;
  l_description : string;
  l_selected : bool
}.

Definition get_available_encoders (m : t) : list Listed :=
  map (fun e =>
         MkListed (value (encoder_type e)) (name e) (codec e) (available e)
                  (description e)
                  (match _selected_encoder m with
                   | Some s => EncoderInfo_eqb e s
                   | None => false
                   end))
      (_available_encoders m).

(** The quality presets of [get_ffmpeg_encoder_args]: bitrate, preset. *)
Definition quality_map : gmap string (string * string) :=
  list_to_map
    [ ("low", ("1000k", "ultrafast"));
      ("medium", ("3000k", "fast"));
      ("high", ("6000k", "medium"));
      ("ultra", ("10000k", "slow")) ].

Definition get_ffmpeg_encoder_args (quality : string) (m : t)
  : list string :=
  match _selected_encoder m with
  | None => ["-c:v"; "libx264"; "-preset"; "ultrafast"]
  | Some selected =>
      let encoder_name := name selected in
      let settings :=
        default ("3000k", "fast") (quality_map !! quality) in
      match encoder_type selected with
      | SOFTWARE =>
          ["-c:v"; "libx264"; "-preset"; snd settings;
           "-tune"; "zerolatency"; "-b:v"; fst settings]
      | NVENC =>
          ["-c:v"; encoder_name; "-preset"; "p4"; "-tune"; "ll";
           "-b:v"; fst settings; "-rc"; "cbr"]
      | QUICKSYNC =>
          ["-c:v"; encoder_name; "-preset"; "faster"; "-b:v"; fst settings]
      | AMF =>
          ["-c:v"; encoder_name; "-quality"; "speed"; "-b:v"; fst settings]
      | VIDEOTOOLBOX => ["-c:v"; encoder_name; "-b:v"; fst settings]
      end
  end.

(** [POST /settings/encoder] in [server.py]; [encoder] is the value of the
    "encoder" key of the request, if any. *)
Definition set_encoder (encoder : option string) (m : t) : Response * t :=
  match encoder with
  | None | Some EmptyString => (Error "No encoder specified", m)
  | Some encoder_name => select_encoder encoder_name m
  end.

(** The software entry every detection starts with. *)
Definition software : EncoderInfo :=
  MkInfo SOFTWARE "libx264" "h264" true "Software H.264 encoder (CPU)".

(** What the listing and the smoke test say about a hardware entry. *)
Definition probed (h : Host) (e : EncoderInfo) : Prop :=
  exists path stdout,
    which_ffmpeg h = Some path
    /\ encoders_stdout h = Some stdout
    /\ PyStr.contains (name e) (PyStr.lower stdout) = true
    /\ available e = _test_encoder h (Some path) (name e).

End EncoderQueries.

(** ** [src/core/webrtc_server.py]: video settings, resizing, cleanup *)

Module VideoSettings.

(** The settings of a [ScreenVideoTrack]; its capture source and its
    timestamps play no part in what follows. *)
Record ScreenVideoTrack := MkTrack { fps : Z; max_width : Z }.

(** [ScreenVideoTrack.update_settings]: a value is taken when it is
    truthy, so [None] and [0] are both ignored. *)
Definition track_update_settings (new_fps new_max_width : option Z)
    (tr : ScreenVideoTrack) : ScreenVideoTrack :=
  MkTrack
    (match new_fps with
     | Some f => if (f =? 0)%Z then fps tr else f
     | None => fps tr
     end)
    (match new_max_width with
     | Some w => if (w =? 0)%Z then max_width tr else w
     | None => max_width tr
     end).

(** The manager's settings and the video tracks of its live connections
    (what the loop over the transceivers of [peer_connections] visits). *)
Record Manager := MkManager {
  m_fps : Z;
  m_max_width : Z;
  audio_enabled : bool;
  video_tracks : list ScreenVideoTrack
}.

(** [WebRTCManager()], with the module-level [AUDIO_AVAILABLE]. *)
Definition init (AUDIO_AVAILABLE : bool) : Manager :=
  MkManager 15 1280 AUDIO_AVAILABLE [].

(** [WebRTCManager.update_settings]. *)
Definition update_settings (AUDIO_AVAILABLE : bool)
    (new_fps new_max_width : option Z) (new_audio : option bool)
    (m : Manager) : Manager :=
  let f := match new_fps with Some f => f | None => m_fps m end in
  let w := match new_max_width with
           | Some w => w | None => m_max_width m end in
  let a := match new_audio with
           | Some a => if AUDIO_AVAILABLE then a else audio_enabled m
           | None => audio_enabled m
           end in
  MkManager f w a
            (map (track_update_settings (Some f) (Some w)) (video_tracks m)).

(** The video track [create_offer] and [handle_offer] attach to a new
    connection. *)
Definition add_connection (m : Manager) : Manager :=
  MkManager (m_fps m) (m_max_width m) (audio_enabled m)
            (video_tracks m ++ [MkTrack (m_fps m) (m_max_width m)]).

(** [video_settings] of [server.py]. *)
Record Stored := MkStored { s_fps : Z; s_quality : Z; s_max_width : Z }.

(** [POST /settings/video]. *)
Definition update_video_settings (AUDIO_AVAILABLE : bool)
    (req_fps req_quality req_max_width : Z) (m : Manager)
  : Stored * Manager :=
  let f := Z.max 5 (Z.min 60 req_fps) in
  let q := Z.max 10 (Z.min 100 req_quality) in
  let w := Z.max 640 (Z.min 3840 req_max_width) in
  (MkStored f q w, update_settings AUDIO_AVAILABLE (Some f) (Some w) None m).

(** A "config" message on the control channel of an offered connection:
    the values of "fps" and "max_width" in its data, if present. *)
Definition on_config_message (AUDIO_AVAILABLE : bool)
    (data_fps data_max_width : option Z) (m : Manager) : Manager :=
  update_settings AUDIO_AVAILABLE data_fps data_max_width None m.

(** What reaches the manager: a settings request, a config message, a new
    connection. *)
Inductive request :=
| PostSettings (req_fps req_quality req_max_width : Z)
| ConfigMessage (data_fps data_max_width : option Z)
| NewConnection.

Definition serve (AUDIO_AVAILABLE : bool) (r : request) (m : Manager)
  : Manager :=
  match r with
  | PostSettings f q w => snd (update_video_settings AUDIO_AVAILABLE f q w m)
  | ConfigMessage f w => on_config_message AUDIO_AVAILABLE f w m
  | NewConnection => add_connection m
  end.

Definition serve_all (AUDIO_AVAILABLE : bool) (rs : list request)
    (m : Manager) : Manager :=
  foldl (fun m r => serve AUDIO_AVAILABLE r m) m rs.

(** The size [ScreenVideoTrack.recv] resizes a captured frame to. *)
Definition resized (max_width width height : Z) : Z * Z :=
  let new_width := Z.min max_width width in
  let new_height :=
    Py.int (inject_Z height * (inject_Z new_width / inject_Z width)) in
  (new_width, new_height).

End VideoSettings.

Module VideoInvariant.
Import VideoSettings.

(** A config message that carries the value 0 for the fps or the width. *)
Definition carries_zero (r : request) : bool :=
  match r with
  | ConfigMessage f w =>
      bool_decide (f = Some 0%Z) || bool_decide (w = Some 0%Z)
  | _ => false
  end.

(** Every live video track runs with the manager's fps and width. *)
Definition in_sync (m : Manager) : Prop :=
  Forall (fun tr => fps tr = m_fps m /\ max_width tr = m_max_width m)
         (video_tracks m).

(** The number of connections opened by a list of requests. *)
Definition opened (rs : list request) : nat :=
  length (List.filter
            (fun r => match r with NewConnection => true | _ => false end)
            rs).

End VideoInvariant.

Module VideoExamples.
Import VideoSettings.

(** A session: a viewer connects, asks for 30 fps over the control channel,
    a second viewer connects, and the settings endpoint is asked for
    500 fps at width 100. *)
Definition session : list request :=
  [NewConnection; ConfigMessage (Some 30%Z) None; NewConnection;
   PostSettings 500 50 100].

(** A manager with one viewer. *)
Definition one_viewer : Manager := add_connection (init true).

End VideoExamples.

Module Cleanup.
Import WebRTC.

Section WithClose.
(** [RTCPeerConnection.close] of the library, a parameter. *)
Variable close : Aiortc.RTCPeerConnection -> Aiortc.RTCPeerConnection.

(** [cleanup_peer_connection(pc)]. *)
Definition cleanup_peer_connection (pc : N) (st : Server) : Server :=
  if decide (pc ∈ peer_connections st) then
    MkServer (alter close pc (heap st))
             (peer_connections st ∖ {[pc]})
             (active_pcs st)
  else st.

End WithClose.

(** A reference behaviour of [close], used to run the code on examples:
    the connection ends in the signalling state "closed". *)
Definition reference_close (pc : Aiortc.RTCPeerConnection)
  : Aiortc.RTCPeerConnection :=
  Aiortc.MkPC Aiortc.closed (Aiortc.remoteDescription pc).

End Cleanup.

Module CleanupExamples.

(** A server with two offered connections, both live. *)
Definition two_live : WebRTC.Server :=
  WebRTC.MkServer
    (<[1%N := Aiortc.MkPC Aiortc.have_local_offer None]>
       (<[2%N := Aiortc.MkPC Aiortc.have_local_offer None]> ∅))
    {[1%N; 2%N]}
    (<["1" := 1%N]> (<["2" := 2%N]> ∅)).

End CleanupExamples.
(** ** Bounded histories *)

Section DequeFacts.
Context {A : Type}.
Implicit Types (d : Py.deque A) (l : list A).

Lemma lastn_length n l : length (Py.lastn n l) = Nat.min n (length l).
Proof. unfold Py.lastn. rewrite length_drop. lia. Qed.

Lemma lastn_snoc n l x :
  Py.lastn n (l ++ [x]) =
  if (n <? length (Py.lastn n l ++ [x]))%nat
  then tail (Py.lastn n l ++ [x]) else Py.lastn n l ++ [x].
Proof.
  unfold Py.lastn. rewrite !length_app, length_drop. simpl.
  destruct (Nat.ltb_spec n (length l - (length l - n) + 1)) as [H|H].
  - assert (Hn : (n <= length l)%nat) by lia.
    replace (length l + 1 - n)%nat with (S (length l - n)) by lia.
    rewrite <- (drop_app_le l [x]) by lia.
    generalize (length l - n)%nat as k. intro k.
    generalize (l ++ [x]) as m. clear. intro m.
    revert m. induction k as [|k IH]; intros [|y m]; simpl; auto.
  - replace (length l + 1 - n)%nat with 0%nat by lia.
    replace (length l - n)%nat with 0%nat by lia. reflexivity.
Qed.

Lemma append_lastn x d l :
  Py.items d = Py.lastn (Py.maxlen d) l ->
  Py.items (Py.append x d) = Py.lastn (Py.maxlen d) (l ++ [x]).
Proof.
  intros H. unfold Py.append. simpl. rewrite lastn_snoc, H. reflexivity.
Qed.

Lemma append_maxlen x d : Py.maxlen (Py.append x d) = Py.maxlen d.
Proof. reflexivity. Qed.

Lemma append_bounded x d :
  (Py.len d <= Py.maxlen d)%nat ->
  (Py.len (Py.append x d) <= Py.maxlen (Py.append x d))%nat.
Proof.
  unfold Py.len, Py.append. simpl. rewrite length_app. simpl.
  destruct (Nat.ltb_spec (Py.maxlen d) (length (Py.items d) + 1)) as [H|H].
  - intros Hb. destruct (Py.items d) as [|a l]; simpl in *.
    + lia.
    + rewrite length_app. simpl. lia.
  - rewrite length_app. simpl. lia.
Qed.

Lemma index_from_end_snoc2 d pre a b :
  Py.items d = pre ++ [a; b] ->
  Py.index_from_end d 1 = Some b /\ Py.index_from_end d 2 = Some a.
Proof.
  intros H. unfold Py.index_from_end. rewrite H, length_app. simpl.
  destruct (Nat.ltb_spec (length pre + 2) 1); [lia|].
  destruct (Nat.ltb_spec (length pre + 2) 2); [lia|].
  split.
  - rewrite lookup_app_r by lia.
    replace (length pre + 2 - 1 - length pre)%nat with 1%nat by lia.
    reflexivity.
  - rewrite lookup_app_r by lia.
    replace (length pre + 2 - 2 - length pre)%nat with 0%nat by lia.
    reflexivity.
Qed.

Lemma lastn_snoc2 n l a b :
  (2 <= n)%nat -> exists pre, Py.lastn n (l ++ [a; b]) = pre ++ [a; b].
Proof.
  intros Hn. unfold Py.lastn. rewrite length_app. simpl.
  exists (drop (length l + 2 - n) l).
  apply drop_app_le. lia.
Qed.

End DequeFacts.

Section JitterFacts.
Import Reference Invariants.

Lemma deltas_snoc h x :
  deltas (h ++ [x]) =
  deltas h ++ match last h with Some a => [x - a] | None => [] end.
Proof.
  induction h as [|a [|b h] IH]; try reflexivity.
  change (deltas ((a :: b :: h) ++ [x]))
    with ((b - a) :: deltas ((b :: h) ++ [x])).
  rewrite IH. reflexivity.
Qed.

Lemma deltas_length h : length (deltas h) = (length h - 1)%nat.
Proof.
  induction h as [|a [|b h] IH]; try reflexivity.
  change (deltas (a :: b :: h)) with ((b - a) :: deltas (b :: h)).
  simpl length in *. rewrite IH. lia.
Qed.

Lemma add_packet_history h ts c jb :
  jitter_history_of h jb ->
  exists jb', JitterBuffer.add_packet ts c jb = Some jb'
    /\ jitter_history_of (h ++ [c * 1000]) jb'.
Proof.
  intros (Ha & Hj & Hia & Hij).
  unfold JitterBuffer.add_packet.
  set (now := c * 1000).
  assert (Harr : Py.items (Py.append now (JitterBuffer.arrival_times jb))
                 = Py.lastn 100 (h ++ [now])).
  { rewrite <- Ha. apply append_lastn. rewrite Ha. exact Hia. }
  unfold Py.len. rewrite Harr, lastn_length, length_app. simpl length.
  destruct (Nat.leb_spec 2 (Nat.min 100 (length h + 1))) as [H2|H2].
  - destruct h as [|a0 h0] using rev_ind; [simpl length in H2; lia|].
    clear IHh0.
    destruct (lastn_snoc2 100 h0 a0 now ltac:(lia)) as [pre Hpre].
    rewrite <- app_assoc in Harr.
    change ([a0] ++ [now]) with [a0; now] in Harr. rewrite Hpre in Harr.
    destruct (index_from_end_snoc2 _ _ _ _ Harr) as [-> ->]. simpl.
    eexists. split; [reflexivity|].
    repeat split; simpl; auto.
    + rewrite <- Ha.
      apply (append_lastn now (JitterBuffer.arrival_times jb)).
      rewrite Ha. exact Hia.
    + rewrite deltas_snoc, last_snoc. rewrite <- Hj.
      apply (append_lastn (now - a0) (JitterBuffer.jitter_history jb)).
      rewrite Hj. exact Hij.
  - destruct h as [|a0 h0]; [|simpl length in H2; lia].
    eexists. split; [reflexivity|].
    repeat split; simpl; auto.
Qed.

Lemma add_packets_history clock : forall h jb,
  jitter_history_of h jb ->
  exists jb', JitterBuffer.add_packets clock jb = Some jb'
    /\ jitter_history_of (h ++ map (fun c => c * 1000) clock) jb'.
Proof.
  induction clock as [|c clock IH]; intros h jb Hinv; simpl.
  - exists jb. rewrite app_nil_r. auto.
  - destruct (add_packet_history h c c jb Hinv) as (jb1 & -> & H1). simpl.
    destruct (IH _ _ H1) as (jb2 & -> & H2).
    exists jb2. split; [reflexivity|].
    rewrite <- app_assoc in H2. exact H2.
Qed.

Lemma update_metrics_history h l b ab :
  metrics_history_of h ab ->
  metrics_history_of (h ++ [(l, b)]) (AdaptiveBitrate.update_metrics l b ab).
Proof.
  intros (Hl & Hb & Hil & Hib).
  repeat split; simpl; auto; rewrite map_app; simpl.
  - rewrite <- Hl. apply append_lastn. rewrite Hl. exact Hil.
  - rewrite <- Hb. apply append_lastn. rewrite Hb. exact Hib.
Qed.

Lemma update_all_history samples : forall h ab,
  metrics_history_of h ab ->
  metrics_history_of (h ++ samples) (update_all samples ab).
Proof.
  induction samples as [|[l b] samples IH]; intros h ab Hinv; simpl.
  - rewrite app_nil_r. exact Hinv.
  - replace (h ++ (l, b) :: samples) with ((h ++ [(l, b)]) ++ samples)
      by (rewrite <- app_assoc; reflexivity).
    apply IH, update_metrics_history, Hinv.
Qed.

End JitterFacts.

(** C5.  Whatever the sequence of insertions into freshly constructed
    components, each history holds exactly the most recent samples, oldest
    first, up to its bound: 100 arrival times and 50 inter-arrival deltas in
    the jitter buffer, 30 latencies and 20 bandwidths in the bitrate
    controller.  In particular no window exceeds its bound, and once full a
    window keeps exactly the newest elements (the 50 newest deltas). *)
Theorem history_windows_bounded :
  forall (mn mx tg : Z) (clock : list Q) (t0 : Q) (samples : list (Q * Q)),
    (exists jb,
        JitterBuffer.add_packets clock (JitterBuffer.init mn mx tg) = Some jb
        /\ Py.items (JitterBuffer.arrival_times jb)
           = Py.lastn 100 (map (fun c => c * 1000) clock)
        /\ Py.items (JitterBuffer.jitter_history jb)
           = Py.lastn 50 (Reference.deltas (map (fun c => c * 1000) clock))
        /\ Py.len (JitterBuffer.arrival_times jb)
           = Nat.min 100 (length clock)
        /\ Py.len (JitterBuffer.jitter_history jb)
           = Nat.min 50 (length clock - 1))
    /\ (let ab := Invariants.update_all samples (AdaptiveBitrate.init t0) in
        Py.items (AdaptiveBitrate.latency_history ab)
        = Py.lastn 30 (map fst samples)
        /\ Py.items (AdaptiveBitrate.bandwidth_history ab)
           = Py.lastn 20 (map snd samples)
        /\ Py.len (AdaptiveBitrate.latency_history ab)
           = Nat.min 30 (length samples)
        /\ Py.len (AdaptiveBitrate.bandwidth_history ab)
           = Nat.min 20 (length samples)).
Proof.
  intros mn mx tg clock t0 samples. split.
  - destruct (add_packets_history clock [] (JitterBuffer.init mn mx tg))
      as (jb & Hrun & _ & _ & Ha & Hj).
    { repeat split. }
    exists jb. simpl in Ha, Hj. unfold Py.len. rewrite Ha, Hj.
    rewrite !lastn_length, deltas_length, !length_map. auto.
  - destruct (update_all_history samples [] (AdaptiveBitrate.init t0))
      as (_ & _ & Hl & Hb).
    { repeat split. }
    simpl in Hl, Hb. cbv zeta. unfold Py.len. rewrite Hl, Hb.
    rewrite !lastn_length, !length_map. auto.
Qed.

(** ** Tier selection *)

Section BitrateFacts.
Import Py AdaptiveBitrate Reference.

Lemma lt_false a b : lt a b = false <-> b <= a.
Proof.
  unfold lt. rewrite negb_false_iff. apply Qle_bool_iff.
Qed.

Lemma lt_true a b : lt a b = true <-> a < b.
Proof.
  unfold lt. rewrite negb_true_iff. split; intros H.
  - apply Qnot_le_lt. intros Hle. apply Qle_bool_iff in Hle. congruence.
  - destruct (Qle_bool b a) eqn:E; [|reflexivity].
    apply Qle_bool_iff in E. apply Qle_not_lt in E. contradiction.
Qed.

Lemma mean_nonempty l : l <> [] -> exists m, mean l = Some m.
Proof. destruct l; [congruence|]. intros _. eexists. reflexivity. Qed.

(** The chain of comparisons of the source is a first-match lookup in the
    threshold table. *)
Lemma target_is_table_lookup avg_latency avg_bandwidth :
  (if gt avg_latency 150 || lt avg_bandwidth 1000 then "480p"
   else if gt avg_latency 100 || lt avg_bandwidth 2000 then "720p"
   else if gt avg_latency 50 || lt avg_bandwidth 5000 then "1080p"
   else if gt avg_latency 20 || lt avg_bandwidth 10000 then "1440p"
   else "4k")
  = select_tier tier_table avg_latency avg_bandwidth.
Proof. reflexivity. Qed.

(** The two ways a selection ends: nothing changes, or the cooldown has
    elapsed and the tier becomes a different one at time [now_adjust]. *)
Lemma calculate_quality_cases now_check now_adjust ab :
  calculate_quality now_check now_adjust ab = Some (current_preset ab, ab)
  \/ exists target,
       target <> current_preset ab
       /\ adjustment_cooldown ab <= now_check - last_adjustment ab
       /\ calculate_quality now_check now_adjust ab
          = Some (target,
                  Make target (latency_history ab) (bandwidth_history ab)
                       now_adjust (adjustment_cooldown ab)).
Proof.
  unfold calculate_quality, len.
  destruct (Nat.ltb_spec (length (items (latency_history ab))) 3) as [Hn|Hn];
    [left; reflexivity|].
  destruct (lt (now_check - last_adjustment ab) (adjustment_cooldown ab))
    eqn:Hc; [left; reflexivity|].
  apply lt_false in Hc.
  destruct (mean_nonempty (items (latency_history ab))) as [ml ->].
  { intros E. rewrite E in Hn. simpl in Hn. lia. }
  assert (exists mb, match items (bandwidth_history ab) with
                     | [] => Some 5000
                     | _ :: _ => mean (items (bandwidth_history ab))
                     end = Some mb) as [mb Hmb].
  { destruct (items (bandwidth_history ab)); eexists; reflexivity. }
  cbn [mbind option_bind].
  replace (match items (bandwidth_history ab) with
           | [] => Some 5000
           | q :: l => mean (q :: l)
           end) with (Some mb).
  2:{ rewrite <- Hmb. destruct (items (bandwidth_history ab)); reflexivity. }
  cbn [mbind option_bind]. rewrite target_is_table_lookup.
  destruct (String.eqb (select_tier tier_table ml mb) (current_preset ab))
    eqn:E; cbn [negb].
  - left. reflexivity.
  - right. eexists. split; [|split; [exact Hc|reflexivity]].
    apply String.eqb_neq. exact E.
Qed.

End BitrateFacts.

(** C1.  With fewer than three latency samples the current tier is kept.
    With at least three, a bandwidth sample on record and the cooldown
    elapsed, the selected tier is the first matching row of the threshold
    table applied to the mean latency and the mean bandwidth, and it is the
    controller's tier afterwards. *)
Theorem tier_selection_matches_table :
  forall (ab : AdaptiveBitrate.t) (now_check now_adjust : Q),
    ((Py.len (AdaptiveBitrate.latency_history ab) < 3)%nat ->
     AdaptiveBitrate.calculate_quality now_check now_adjust ab
     = Some (AdaptiveBitrate.current_preset ab, ab))
    /\ ((3 <= Py.len (AdaptiveBitrate.latency_history ab))%nat ->
        Py.items (AdaptiveBitrate.bandwidth_history ab) <> [] ->
        AdaptiveBitrate.adjustment_cooldown ab
        <= now_check - AdaptiveBitrate.last_adjustment ab ->
        exists avg_latency avg_bandwidth ab',
          Py.mean (Py.items (AdaptiveBitrate.latency_history ab))
          = Some avg_latency
          /\ Py.mean (Py.items (AdaptiveBitrate.bandwidth_history ab))
             = Some avg_bandwidth
          /\ AdaptiveBitrate.calculate_quality now_check now_adjust ab
             = Some (Reference.select_tier Reference.tier_table
                       avg_latency avg_bandwidth, ab')
          /\ AdaptiveBitrate.current_preset ab'
             = Reference.select_tier Reference.tier_table
                 avg_latency avg_bandwidth).
Proof.
  intros ab now_check now_adjust. split.
  - intros Hn. unfold AdaptiveBitrate.calculate_quality.
    destruct (Nat.ltb_spec (Py.len (AdaptiveBitrate.latency_history ab)) 3);
      [reflexivity|lia].
  - intros Hn Hbw Hcool. unfold AdaptiveBitrate.calculate_quality.
    destruct (Nat.ltb_spec (Py.len (AdaptiveBitrate.latency_history ab)) 3)
      as [Hlt|_]; [lia|].
    apply lt_false in Hcool. rewrite Hcool.
    destruct (mean_nonempty (Py.items (AdaptiveBitrate.latency_history ab)))
      as [ml Hml].
    { intros E. unfold Py.len in Hn. rewrite E in Hn. simpl in Hn. lia. }
    destruct (mean_nonempty _ Hbw) as [mb Hmb].
    exists ml, mb. rewrite Hml. cbn [mbind option_bind].
    replace (match Py.items (AdaptiveBitrate.bandwidth_history ab) with
             | [] => Some 5000
             | q :: l => Py.mean (q :: l)
             end) with (Some mb).
    2:{ rewrite <- Hmb.
        destruct (Py.items (AdaptiveBitrate.bandwidth_history ab));
          [congruence|reflexivity]. }
    cbn [mbind option_bind]. rewrite target_is_table_lookup.
    destruct (String.eqb (Reference.select_tier Reference.tier_table ml mb)
                (AdaptiveBitrate.current_preset ab)) eqn:E; cbn [negb].
    + apply String.eqb_eq in E. exists ab. rewrite <- E. auto.
    + eexists. repeat split; try reflexivity. exact Hmb.
Qed.

(** ** Cooldown *)

Section CooldownFacts.
Import Py AdaptiveBitrate Reference BitrateRun.

Lemma run_spaced evs : forall ab t0,
  last_adjustment ab <= t0 ->
  monotone t0 evs ->
  exists changes ab',
    run evs ab = Some (changes, ab')
    /\ spaced (adjustment_cooldown ab) changes
    /\ Forall (fun c => last_adjustment ab + adjustment_cooldown ab <= c)
              changes.
Proof.
  induction evs as [|[l b|c a] evs IH]; intros ab t0 Hlast Hmono.
  - exists [], ab. simpl. auto.
  - simpl in *. apply (IH (update_metrics l b ab) t0); assumption.
  - destruct Hmono as (Htc & Hca & Hmono). cbn [run].
    destruct (calculate_quality_cases c a ab)
      as [-> | (target & Hne & Hcool & ->)]; cbn [mbind option_bind fst snd].
    + destruct (IH ab a) as (changes & ab' & -> & Hsp & Hall);
        [lra | assumption |].
      rewrite String.eqb_refl. cbn [mbind option_bind fst snd app].
      exists changes, ab'. auto.
    + set (ab1 := Make target (latency_history ab) (bandwidth_history ab)
                       a (adjustment_cooldown ab)).
      destruct (IH ab1 a) as (changes & ab' & -> & Hsp & Hall);
        [simpl; lra | assumption |].
      apply String.eqb_neq in Hne. rewrite Hne.
      cbn [mbind option_bind fst snd app].
      exists (a :: changes), ab'. simpl in Hsp, Hall.
      split; [reflexivity|]. split.
      * simpl. split; assumption.
      * constructor; [lra|].
        eapply Forall_impl; [exact Hall|]. simpl. intros x Hx. lra.
Qed.

End CooldownFacts.

(** C2.  A tier selection made before the cooldown has elapsed returns the
    current tier and leaves the controller untouched: nothing is recorded
    for later.  Along any run of metric updates and tier selections under a
    clock that does not go back, the run completes and any two tier changes
    are at least one cooldown apart, the first one at least one cooldown
    after the controller's last adjustment.  The cooldown of a new
    controller is 3 seconds. *)
Theorem tier_changes_respect_cooldown :
  forall (ab : AdaptiveBitrate.t) (t0 : Q) (evs : list BitrateRun.event),
    (forall now_check now_adjust,
        now_check - AdaptiveBitrate.last_adjustment ab
        < AdaptiveBitrate.adjustment_cooldown ab ->
        AdaptiveBitrate.calculate_quality now_check now_adjust ab
        = Some (AdaptiveBitrate.current_preset ab, ab))
    /\ (AdaptiveBitrate.last_adjustment ab <= t0 ->
        BitrateRun.monotone t0 evs ->
        exists changes ab',
          BitrateRun.run evs ab = Some (changes, ab')
          /\ Reference.spaced (AdaptiveBitrate.adjustment_cooldown ab) changes
          /\ Forall (fun c => AdaptiveBitrate.last_adjustment ab
                              + AdaptiveBitrate.adjustment_cooldown ab <= c)
                    changes)
    /\ AdaptiveBitrate.adjustment_cooldown (AdaptiveBitrate.init t0) = 3.
Proof.
  intros ab t0 evs. split; [|split; [|reflexivity]].
  - intros now_check now_adjust Hc. apply lt_true in Hc.
    unfold AdaptiveBitrate.calculate_quality. rewrite Hc.
    destruct (_ <? _)%nat; reflexivity.
  - apply run_spaced.
Qed.

(** ** Jitter buffer delay *)

Section DelayFacts.
Import Py JitterBuffer Reference.

Lemma clamp_max_min lo hi x :
  (lo <= hi)%Z -> Z.max lo (Z.min hi x) = clamp lo hi x.
Proof.
  intros H. unfold clamp.
  destruct (Z.ltb_spec x lo); destruct (Z.ltb_spec hi x); lia.
Qed.

Lemma variance_enough l :
  (2 <= length l)%nat -> exists m v, mean l = Some m /\ variance l = Some v.
Proof.
  destruct l as [|a [|b l]]; simpl; try lia. intros _.
  eexists. eexists. split; reflexivity.
Qed.

End DelayFacts.

(** C3.  With fewer than five deltas on record the configured target delay
    is returned and the buffer is unchanged.  With five or more the result
    is mean + 2 * stdev of the deltas, truncated toward zero and clamped
    into [[min_delay, max_delay]], and it becomes the current delay.  The
    defaults are 20, 200 and a target of 50. *)
Theorem optimal_delay_spec :
  forall (sqrt : Q -> Q) (jb : JitterBuffer.t),
    ((Py.len (JitterBuffer.jitter_history jb) < 5)%nat ->
     JitterBuffer.calculate_optimal_delay sqrt jb
     = Some (JitterBuffer.target_delay jb, jb))
    /\ ((5 <= Py.len (JitterBuffer.jitter_history jb))%nat ->
        exists m v jb',
          Py.mean (Py.items (JitterBuffer.jitter_history jb)) = Some m
          /\ Py.variance (Py.items (JitterBuffer.jitter_history jb)) = Some v
          /\ let optimal := Py.int (m + 2 * sqrt v) in
             let d := Z.max (JitterBuffer.min_delay jb)
                            (Z.min (JitterBuffer.max_delay jb) optimal) in
             JitterBuffer.calculate_optimal_delay sqrt jb = Some (d, jb')
             /\ JitterBuffer.current_delay jb' = d
             /\ JitterBuffer.jitter_history jb'
                = JitterBuffer.jitter_history jb
             /\ ((JitterBuffer.min_delay jb <= JitterBuffer.max_delay jb)%Z ->
                 d = Reference.clamp (JitterBuffer.min_delay jb)
                       (JitterBuffer.max_delay jb) optimal
                 /\ (JitterBuffer.min_delay jb <= d
                     <= JitterBuffer.max_delay jb)%Z))
    /\ JitterBuffer.min_delay JitterBuffer.default = 20%Z
    /\ JitterBuffer.max_delay JitterBuffer.default = 200%Z
    /\ JitterBuffer.target_delay JitterBuffer.default = 50%Z.
Proof.
  intros sqrt jb. split; [|split; [|repeat split]].
  - intros Hn. unfold JitterBuffer.calculate_optimal_delay.
    destruct (Nat.ltb_spec (Py.len (JitterBuffer.jitter_history jb)) 5);
      [reflexivity|lia].
  - intros Hn. unfold JitterBuffer.calculate_optimal_delay.
    destruct (Nat.ltb_spec (Py.len (JitterBuffer.jitter_history jb)) 5)
      as [Hlt|_]; [lia|].
    destruct (variance_enough (Py.items (JitterBuffer.jitter_history jb)))
      as (m & v & Hm & Hv); [unfold Py.len in Hn; lia|].
    exists m, v. unfold Py.stdev. rewrite Hm, Hv.
    cbn [fmap option_fmap option_map mbind option_bind].
    eexists. repeat split; try reflexivity.
    + apply clamp_max_min. assumption.
    + lia.
    + lia.
Qed.

(** Three samples at 200 ms and 5000 kbps, three seconds after
    construction: the tier drops to 480p. *)
Lemma tier_selection_matches_table_witness :
  AdaptiveBitrate.calculate_quality 0 0 (AdaptiveBitrate.init 0)
  = Some ("1080p", AdaptiveBitrate.init 0)
  /\ exists avg_latency avg_bandwidth ab',
      let ab := Invariants.update_all
                  [(200, 5000); (200, 5000); (200, 5000)]
                  (AdaptiveBitrate.init 0) in
      Py.mean (Py.items (AdaptiveBitrate.latency_history ab))
      = Some avg_latency
      /\ Py.mean (Py.items (AdaptiveBitrate.bandwidth_history ab))
         = Some avg_bandwidth
      /\ AdaptiveBitrate.calculate_quality 3 3 ab
         = Some (Reference.select_tier Reference.tier_table
                   avg_latency avg_bandwidth, ab')
      /\ AdaptiveBitrate.current_preset ab'
         = Reference.select_tier Reference.tier_table
             avg_latency avg_bandwidth.
Proof.
  split.
  - apply (proj1 (tier_selection_matches_table (AdaptiveBitrate.init 0) 0 0)).
    unfold Py.len; simpl; lia.
  - apply (proj2 (tier_selection_matches_table
                    (Invariants.update_all
                       [(200, 5000); (200, 5000); (200, 5000)]
                       (AdaptiveBitrate.init 0)) 3 3)).
    + unfold Py.len; simpl; lia.
    + simpl. discriminate.
    + unfold Qle. simpl. lia.
Defined.

(** One second after construction nothing moves; the run below changes
    tier at times 3 and 7, four seconds apart. *)
Lemma tier_changes_respect_cooldown_witness :
  AdaptiveBitrate.calculate_quality 1 1 (AdaptiveBitrate.init 0)
  = Some ("1080p", AdaptiveBitrate.init 0)
  /\ exists changes ab',
      BitrateRun.run
        [BitrateRun.Update 200 5000; BitrateRun.Update 200 5000;
         BitrateRun.Update 200 5000; BitrateRun.Select 3 3;
         BitrateRun.Select 4 4; BitrateRun.Update 0 90000;
         BitrateRun.Select 7 7]
        (AdaptiveBitrate.init 0) = Some (changes, ab')
      /\ Reference.spaced 3 changes
      /\ Forall (fun c => 0 + 3 <= c) changes.
Proof.
  pose proof (tier_changes_respect_cooldown (AdaptiveBitrate.init 0) 0
    [BitrateRun.Update 200 5000; BitrateRun.Update 200 5000;
     BitrateRun.Update 200 5000; BitrateRun.Select 3 3;
     BitrateRun.Select 4 4; BitrateRun.Update 0 90000;
     BitrateRun.Select 7 7]) as (Hkeep & Hrun & _).
  split.
  - apply Hkeep. unfold Qlt. simpl. lia.
  - apply Hrun.
    + unfold Qle. simpl. lia.
    + simpl. unfold Qle. simpl. repeat split; lia.
Defined.

(** An empty buffer answers its target; five deltas of 10 ms answer the
    lower bound 20 (here with the identity in place of the square root). *)
Lemma optimal_delay_spec_witness :
  JitterBuffer.calculate_optimal_delay (fun q => q) JitterBuffer.default
  = Some (50%Z, JitterBuffer.default)
  /\ exists jb',
      JitterBuffer.calculate_optimal_delay (fun q => q)
        (JitterBuffer.Make 20 200 50 50 (Py.deque_new 100)
           (Py.Deque 50 [10; 10; 10; 10; 10]))
      = Some (20%Z, jb').
Proof.
  split.
  - apply (proj1 (optimal_delay_spec (fun q => q) JitterBuffer.default)).
    unfold Py.len; simpl; lia.
  - destruct (proj1 (proj2 (optimal_delay_spec (fun q => q)
        (JitterBuffer.Make 20 200 50 50 (Py.deque_new 100)
           (Py.Deque 50 [10; 10; 10; 10; 10])))))
      as (m & v & jb' & Hm & Hv & Hd & _).
    + unfold Py.len; simpl; lia.
    + exists jb'. injection Hm as <-. injection Hv as <-. exact Hd.
Defined.

(** ** Audio track *)

Section AudioFacts.
Import Np AudioCaptureTrack.

Lemma step_samples_per_frame e tr :
  _samples_per_frame (snd (step e tr)) = _samples_per_frame tr
  /\ channels (snd (step e tr)) = channels tr.
Proof.
  destruct e; simpl; auto.
  - unfold audio_callback. destruct (negb _); auto.
  - unfold recv. destruct (get_nowait _) as [[? ?]|]; auto.
Qed.

Lemma step_frames e tr :
  (e = Pull /\ fst (step e tr) = [fst (recv tr)]
   /\ snd (step e tr) = snd (recv tr))
  \/ (fst (step e tr) = [] /\ _timestamp (snd (step e tr)) = _timestamp tr).
Proof.
  destruct e; simpl; auto.
  - right. unfold audio_callback. destruct (negb _); auto.
  - left. destruct (recv tr). auto.
Qed.

Lemma recv_pts tr :
  pts (fst (recv tr)) = _timestamp tr
  /\ _timestamp (snd (recv tr))
     = (_timestamp tr + Z.of_nat (_samples_per_frame tr))%Z
  /\ _samples_per_frame (snd (recv tr)) = _samples_per_frame tr.
Proof. unfold recv. destruct (get_nowait _) as [[? ?]|]; auto. Qed.

Lemma run_cons e evs tr :
  run (e :: evs) tr
  = (fst (step e tr) ++ fst (run evs (snd (step e tr))),
     snd (run evs (snd (step e tr)))).
Proof.
  simpl. destruct (step e tr) as [fs tr']. simpl.
  destruct (run evs tr') as [fs' tr'']. reflexivity.
Qed.

Lemma run_invariants evs : forall tr,
  _samples_per_frame (snd (run evs tr)) = _samples_per_frame tr
  /\ channels (snd (run evs tr)) = channels tr.
Proof.
  induction evs as [|e evs IH]; intros tr; [auto|].
  rewrite run_cons. simpl.
  destruct (IH (snd (step e tr))) as [-> ->]. apply step_samples_per_frame.
Qed.

(** The [k]-th frame of a run carries the initial timestamp plus [k]
    blocks. *)
Lemma run_pts evs : forall tr k f,
  fst (run evs tr) !! k = Some f ->
  pts f = (_timestamp tr + Z.of_nat (_samples_per_frame tr) * Z.of_nat k)%Z.
Proof.
  induction evs as [|e evs IH]; intros tr k f Hk.
  - simpl in Hk. rewrite lookup_nil in Hk. discriminate.
  - rewrite run_cons in Hk. simpl in Hk.
    destruct (step_frames e tr) as [(_ & Hf & Hs) | (Hf & Hs)];
      rewrite Hf in Hk.
    + destruct k as [|k]; simpl in Hk.
      * injection Hk as <-. destruct (recv_pts tr) as (-> & _). lia.
      * apply IH in Hk. rewrite Hk, Hs.
        destruct (recv_pts tr) as (_ & -> & ->). lia.
    + simpl in Hk. apply IH in Hk. rewrite Hk, Hs.
      destruct (step_samples_per_frame e tr) as [-> _]. reflexivity.
Qed.

End AudioFacts.

(** C4.  Along any run of a freshly constructed track, with pulls on an
    empty queue, failed reads and a stopped capture thread anywhere in
    between, the [k]-th emitted frame is stamped [960 * k]: timestamps are
    strictly increasing, and each pull advances the track's timestamp by
    960. *)
Theorem pts_strictly_increasing :
  forall (backend : option AudioCaptureTrack.Backend) (sr : Z) (ch : nat)
         (evs : list AudioCaptureTrack.event),
    let frames :=
      fst (AudioCaptureTrack.run evs (AudioCaptureTrack.init backend sr ch)) in
    let tr :=
      snd (AudioCaptureTrack.run evs (AudioCaptureTrack.init backend sr ch)) in
    (forall k f, frames !! k = Some f ->
                 AudioCaptureTrack.pts f = (960 * Z.of_nat k)%Z)
    /\ (forall i j fi fj,
           (i < j)%nat -> frames !! i = Some fi -> frames !! j = Some fj ->
           (AudioCaptureTrack.pts fi < AudioCaptureTrack.pts fj)%Z)
    /\ AudioCaptureTrack._timestamp (snd (AudioCaptureTrack.recv tr))
       = (AudioCaptureTrack._timestamp tr + 960)%Z.
Proof.
  intros backend sr ch evs frames tr.
  assert (Hk : forall k f, frames !! k = Some f ->
                 AudioCaptureTrack.pts f = (960 * Z.of_nat k)%Z).
  { intros k f H. apply run_pts in H. rewrite H. simpl. lia. }
  split; [exact Hk|]. split.
  - intros i j fi fj Hij Hi Hj. rewrite (Hk _ _ Hi), (Hk _ _ Hj). lia.
  - destruct (recv_pts tr) as (_ & -> & _). subst tr.
    destruct (run_invariants evs (AudioCaptureTrack.init backend sr ch))
      as [-> _].
    reflexivity.
Qed.

(** Three pulls around a stopped capture thread: the second and third
    frames are stamped in increasing order. *)
Lemma pts_strictly_increasing_witness :
  exists fi fj,
    fst (AudioCaptureTrack.run Examples.interrupted_pulls
           (AudioCaptureTrack.init (Some AudioCaptureTrack.pyaudio) 48000 2))
      !! 1%nat = Some fi
    /\ fst (AudioCaptureTrack.run Examples.interrupted_pulls
              (AudioCaptureTrack.init (Some AudioCaptureTrack.pyaudio)
                 48000 2))
         !! 2%nat = Some fj
    /\ (AudioCaptureTrack.pts fi < AudioCaptureTrack.pts fj)%Z.
Proof.
  eexists. eexists. split; [reflexivity|]. split; [reflexivity|].
  apply (proj1 (proj2 (pts_strictly_increasing
                         (Some AudioCaptureTrack.pyaudio) 48000 2
                         Examples.interrupted_pulls)) 1%nat 2%nat).
  - lia.
  - reflexivity.
  - reflexivity.
Defined.

Section QuantizationFacts.
Import Np AudioCaptureTrack.

Lemma map_replicate {A B} (f : A -> B) n x :
  map f (replicate n x) = replicate n (f x).
Proof. induction n; simpl; congruence. Qed.

Lemma int_bounds (q : Q) (a b : Z) :
  inject_Z a <= q -> q <= inject_Z b -> (a <= Py.int q <= b)%Z.
Proof.
  unfold Qle, Py.int. destruct q as [n d]. simpl. intros Ha Hb.
  rewrite Z.mul_1_r in Ha, Hb. split.
  - rewrite <- (Z.quot_mul a (Z.pos d)) by lia.
    apply Z.quot_le_mono; lia.
  - rewrite <- (Z.quot_mul b (Z.pos d)) by lia.
    apply Z.quot_le_mono; lia.
Qed.

Lemma wrap16_small z : (-32768 <= z <= 32767)%Z -> wrap16 z = z.
Proof. intros H. unfold wrap16. rewrite Z.mod_small; lia. Qed.

Lemma int16_zero (q : Q) : Qnum q = 0%Z -> int16 q = 0%Z.
Proof. intros H. unfold int16, Py.int. rewrite H. reflexivity. Qed.

(** In the nominal range the conversion neither wraps nor needs a clamp. *)
Lemma int16_in_range (y : Q) :
  -1 <= y -> y <= 1 ->
  int16 (y * 32767) = Py.int (y * 32767)
  /\ int16 (y * 32767) = quantize_clamped y
  /\ (-32767 <= int16 (y * 32767) <= 32767)%Z.
Proof.
  intros Hlo Hhi.
  assert (Hb : (-32767 <= Py.int (y * 32767) <= 32767)%Z).
  { apply int_bounds.
    - change (inject_Z (-32767)) with (-32767). lra.
    - change (inject_Z 32767) with 32767. lra. }
  unfold int16, quantize_clamped. rewrite wrap16_small by lia.
  repeat split; lia.
Qed.

Lemma set_volume_range v tr :
  0 <= _volume (set_volume v tr) /\ _volume (set_volume v tr) <= 1.
Proof.
  unfold set_volume. simpl.
  destruct (Py.lt v 1) eqn:E1.
  - apply lt_true in E1. unfold Py.gt.
    destruct (Qle_bool v 0) eqn:E2; simpl.
    + lra.
    + assert (~ v <= 0) by (rewrite <- Qle_bool_iff; congruence). lra.
  - unfold Py.gt. simpl. lra.
Qed.

Lemma step_volume e tr :
  0 <= _volume tr /\ _volume tr <= 1 ->
  0 <= _volume (snd (step e tr)) /\ _volume (snd (step e tr)) <= 1.
Proof.
  intros H. destruct e as [b| | |m|v|]; try exact H.
  - simpl. unfold audio_callback. destruct (negb _); auto.
  - exact (set_volume_range v tr).
  - simpl. unfold recv. destruct (get_nowait _) as [[? ?]|]; auto.
Qed.

Lemma run_volume evs : forall tr,
  0 <= _volume tr /\ _volume tr <= 1 ->
  0 <= _volume (snd (run evs tr)) /\ _volume (snd (run evs tr)) <= 1.
Proof.
  induction evs as [|e evs IH]; intros tr H; [exact H|].
  rewrite run_cons. simpl. apply IH, step_volume, H.
Qed.

Lemma recv_empty tr :
  queue (_audio_queue tr) = [] ->
  plane (fst (recv tr))
  = Array (_samples_per_frame tr, channels tr)
          (replicate (_samples_per_frame tr * channels tr) 0%Z)
  /\ samples (fst (recv tr)) = _samples_per_frame tr.
Proof.
  intros Hq. unfold recv, get_nowait. rewrite Hq.
  destruct (_muted tr); split; try reflexivity;
    unfold astype_int16, scale, zeros_like, zeros; simpl;
    rewrite !map_replicate; reflexivity.
Qed.

Lemma recv_block tr b rest :
  queue (_audio_queue tr) = b :: rest ->
  plane (fst (recv tr))
  = (if _muted tr
     then Array (shape b)
                (replicate (fst (shape b) * snd (shape b)) 0%Z)
     else Array (shape b)
                (map (fun x => int16 (x * _volume tr * 32767)) (data b)))
  /\ samples (fst (recv tr)) = _samples_per_frame tr
  /\ layout (fst (recv tr))
     = (if (channels tr =? 2)%nat then "stereo" else "mono")
  /\ format (fst (recv tr)) = "s16".
Proof.
  intros Hq. unfold recv, get_nowait. rewrite Hq.
  destruct (_muted tr); repeat split;
    unfold astype_int16, scale, zeros_like, zeros; simpl; f_equal.
  - rewrite !map_replicate. reflexivity.
  - rewrite !map_map. reflexivity.
Qed.

End QuantizationFacts.

(** C6.  A pull on an empty queue yields a block of zeros with 960 rows and
    as many columns as the track has channels; a pull that finds a captured
    block yields a frame of the same shape, sample count, layout and
    format. *)
Theorem silence_on_empty_queue :
  forall (backend : option AudioCaptureTrack.Backend) (sr : Z) (ch : nat)
         (evs : list AudioCaptureTrack.event),
    let tr :=
      snd (AudioCaptureTrack.run evs (AudioCaptureTrack.init backend sr ch)) in
    AudioCaptureTrack.queue (AudioCaptureTrack._audio_queue tr) = [] ->
    let f := fst (AudioCaptureTrack.recv tr) in
    Np.shape (AudioCaptureTrack.plane f) = (960%nat, ch)
    /\ Np.data (AudioCaptureTrack.plane f) = replicate (960 * ch) 0%Z
    /\ AudioCaptureTrack.samples f = 960%nat
    /\ forall (evs2 : list AudioCaptureTrack.event) b rest,
        let tr2 :=
          snd (AudioCaptureTrack.run evs2
                 (AudioCaptureTrack.init backend sr ch)) in
        AudioCaptureTrack.queue (AudioCaptureTrack._audio_queue tr2)
        = b :: rest ->
        AudioCaptureTrack.captured_block tr2 b ->
        let g := fst (AudioCaptureTrack.recv tr2) in
        Np.shape (AudioCaptureTrack.plane g)
        = Np.shape (AudioCaptureTrack.plane f)
        /\ length (Np.data (AudioCaptureTrack.plane g))
           = length (Np.data (AudioCaptureTrack.plane f))
        /\ AudioCaptureTrack.samples g = AudioCaptureTrack.samples f
        /\ AudioCaptureTrack.layout g = AudioCaptureTrack.layout f
        /\ AudioCaptureTrack.format g = AudioCaptureTrack.format f.
Proof.
  intros backend sr ch evs tr Hq f.
  destruct (run_invariants evs (AudioCaptureTrack.init backend sr ch))
    as [Hspf Hch].
  fold tr in Hspf, Hch.
  change (AudioCaptureTrack._samples_per_frame tr = 960%nat) in Hspf.
  change (AudioCaptureTrack.channels tr = ch) in Hch.
  destruct (recv_empty tr Hq) as [Hplane Hsamples]. fold f in Hplane, Hsamples.
  rewrite Hplane, Hsamples, Hspf, Hch. cbn [Np.shape Np.data].
  do 3 (split; [reflexivity|]).
  intros evs2 b rest.
  set (tr2 := snd (AudioCaptureTrack.run evs2
                     (AudioCaptureTrack.init backend sr ch))).
  set (g := fst (AudioCaptureTrack.recv tr2)).
  intros Hq2 [Hshape Hlen].
  destruct (run_invariants evs2 (AudioCaptureTrack.init backend sr ch))
    as [Hspf2 Hch2].
  fold tr2 in Hspf2, Hch2.
  change (AudioCaptureTrack._samples_per_frame tr2 = 960%nat) in Hspf2.
  change (AudioCaptureTrack.channels tr2 = ch) in Hch2.
  rewrite Hspf2, Hch2 in Hshape, Hlen.
  destruct (recv_block tr2 b rest Hq2) as (Hp & Hs & Hl & Hf).
  fold g in Hp, Hs, Hl, Hf. rewrite Hp, Hs, Hl, Hf, Hspf2, Hch2.
  assert (Hlay : AudioCaptureTrack.layout f
                 = if (ch =? 2)%nat then "stereo" else "mono").
  { unfold f, AudioCaptureTrack.recv. rewrite Hch.
    destruct (AudioCaptureTrack.get_nowait _) as [[? ?]|]; reflexivity. }
  assert (Hfmt : AudioCaptureTrack.format f = "s16").
  { unfold f, AudioCaptureTrack.recv.
    destruct (AudioCaptureTrack.get_nowait _) as [[? ?]|]; reflexivity. }
  rewrite Hlay, Hfmt, length_replicate.
  destruct (AudioCaptureTrack._muted tr2); cbn [Np.shape Np.data];
    rewrite ?Hshape, ?length_replicate, ?length_map, ?Hlen;
    cbn [fst snd]; repeat split; reflexivity.
Qed.

(** With no audio backend at all the first pull is a stereo block of 960
    rows of zeros. *)
Lemma silence_on_empty_queue_witness :
  Np.shape (AudioCaptureTrack.plane
              (fst (AudioCaptureTrack.recv
                      (AudioCaptureTrack.init None 48000 2))))
  = (960%nat, 2%nat)
  /\ Np.data (AudioCaptureTrack.plane
                (fst (AudioCaptureTrack.recv
                        (AudioCaptureTrack.init None 48000 2))))
     = replicate (960 * 2) 0%Z.
Proof.
  destruct (silence_on_empty_queue None 48000 2 [] eq_refl)
    as (Hshape & Hdata & _).
  split; [exact Hshape | exact Hdata].
Defined.

(** C7, as the code has it.  On a track reached from its constructor, a
    pulled block comes out as zeros when the track is muted; otherwise
    every sample is multiplied by the volume, which lies in [[0, 1]], then
    by 32767, and converted.  For samples in [[-1, 1]] the conversion is the
    truncation toward zero, agrees with the clamped quantization and stays
    within [[-32767, 32767]]. *)
Theorem mute_volume_quantization :
  forall (backend : option AudioCaptureTrack.Backend) (sr : Z) (ch : nat)
         (evs : list AudioCaptureTrack.event) (b : Np.ndarray Q)
         (rest : list (Np.ndarray Q)),
    let tr :=
      snd (AudioCaptureTrack.run evs (AudioCaptureTrack.init backend sr ch)) in
    AudioCaptureTrack.queue (AudioCaptureTrack._audio_queue tr) = b :: rest ->
    let out := Np.data (AudioCaptureTrack.plane
                          (fst (AudioCaptureTrack.recv tr))) in
    (AudioCaptureTrack._muted tr = true ->
     out = replicate (fst (Np.shape b) * snd (Np.shape b)) 0%Z)
    /\ (AudioCaptureTrack._muted tr = false ->
        out = map (fun x => Np.int16 (x * AudioCaptureTrack._volume tr * 32767))
                  (Np.data b)
        /\ 0 <= AudioCaptureTrack._volume tr
        /\ AudioCaptureTrack._volume tr <= 1
        /\ forall x, In x (Np.data b) -> -1 <= x -> x <= 1 ->
             let y := x * AudioCaptureTrack._volume tr in
             Np.int16 (y * 32767) = Py.int (y * 32767)
             /\ Np.int16 (y * 32767) = AudioCaptureTrack.quantize_clamped y
             /\ (-32767 <= Np.int16 (y * 32767) <= 32767)%Z).
Proof.
  intros backend sr ch evs b rest tr Hq out.
  destruct (recv_block tr b rest Hq) as (Hp & _).
  assert (Hv : 0 <= AudioCaptureTrack._volume tr
               /\ AudioCaptureTrack._volume tr <= 1).
  { apply run_volume. simpl. lra. }
  split; intros Hm; subst out; rewrite Hp, Hm; cbn [Np.data].
  - reflexivity.
  - split; [reflexivity|]. split; [tauto|]. split; [tauto|].
    intros x _ Hlo Hhi. cbv zeta. apply int16_in_range; nra.
Qed.

(** A captured block of 960 mono samples at half scale, volume one half:
    every sample comes out as 8191. *)
Lemma mute_volume_quantization_witness :
  Np.data (AudioCaptureTrack.plane
             (fst (AudioCaptureTrack.recv Examples.half_track)))
  = replicate 960 8191%Z.
Proof.
  destruct (mute_volume_quantization
              (Some AudioCaptureTrack.sounddevice) 48000 1
              Examples.half_events Examples.half_block [] eq_refl)
    as [_ H].
  destruct (H eq_refl) as (Hout & _).
  change (snd (AudioCaptureTrack.run Examples.half_events
                 (AudioCaptureTrack.init
                    (Some AudioCaptureTrack.sounddevice) 48000 1)))
    with Examples.half_track in Hout.
  rewrite Hout. vm_compute. reflexivity.
Defined.

(** No clamp on the way to 16 bits: a captured sample of 1.5 at full
    volume does not come out as 32767, the value a saturating quantization
    gives; the conversion keeps the low 16 bits of 49150, that is -16386. *)
Lemma quantization_does_not_clamp :
  AudioCaptureTrack._muted Examples.loud_track = false
  /\ Np.data (AudioCaptureTrack.plane
                (fst (AudioCaptureTrack.recv Examples.loud_track)))
     = replicate 960 (-16386)%Z
  /\ map (fun x => AudioCaptureTrack.quantize_clamped
                     (x * AudioCaptureTrack._volume Examples.loud_track))
         (Np.data Examples.loud_block)
     = replicate 960 32767%Z
  /\ Np.data (AudioCaptureTrack.plane
                (fst (AudioCaptureTrack.recv Examples.loud_track)))
     <> map (fun x => AudioCaptureTrack.quantize_clamped
                        (x * AudioCaptureTrack._volume Examples.loud_track))
            (Np.data Examples.loud_block).
Proof.
  vm_compute. repeat split; try reflexivity. discriminate.
Qed.

(** ** Encoder selection *)

Section EncoderFacts.
Import HardwareEncoderManager EncoderInvariant.

Lemma find_all_false {A} (f : A -> bool) l :
  (forall x, In x l -> f x = false) -> List.find f l = None.
Proof.
  induction l as [|a l IH]; intros H; [reflexivity|]. simpl.
  rewrite (H a) by (left; reflexivity).
  apply IH. intros x Hx. apply H. right. exact Hx.
Qed.

Lemma EncoderType_eqb_refl ty : EncoderType_eqb ty ty = true.
Proof. destruct ty; reflexivity. Qed.

Lemma by_priority_sound encoders priority e :
  _select_by_priority encoders priority = Some e ->
  In e encoders /\ available e = true.
Proof.
  induction priority as [|ty rest IH]; simpl; [discriminate|].
  destruct (List.find _ encoders) as [e'|] eqn:E.
  - intros [= <-]. apply List.find_some in E as [Hin Hp].
    apply andb_true_iff in Hp as [_ Hav]. auto.
  - exact IH.
Qed.

Lemma by_priority_complete encoders priority e :
  In e encoders -> available e = true -> In (encoder_type e) priority ->
  exists e', _select_by_priority encoders priority = Some e'.
Proof.
  intros Hin Hav. induction priority as [|ty rest IH]; simpl; [tauto|].
  intros Hty. destruct (List.find _ encoders) as [e'|] eqn:E; [eauto|].
  destruct Hty as [->|Hty]; [|auto].
  apply (List.find_none _ _ E) in Hin.
  rewrite EncoderType_eqb_refl, Hav in Hin. discriminate.
Qed.

Lemma probe_keeps h path listing ty nm cdc descr encoders e :
  In e encoders -> In e (probe h path listing ty nm cdc descr encoders).
Proof.
  unfold probe. destruct (PyStr.contains nm listing); [|auto].
  intros H. apply in_or_app. auto.
Qed.

Lemma select_best_available m e :
  In e (_available_encoders m) -> available e = true ->
  encoder_type e = SOFTWARE ->
  selected_available (_select_best_encoder m).
Proof.
  intros Hin Hav Hty. unfold _select_best_encoder.
  destruct (by_priority_complete (_available_encoders m)
              [NVENC; QUICKSYNC; AMF; VIDEOTOOLBOX; SOFTWARE] e Hin Hav)
    as [e' He'].
  { rewrite Hty. simpl. tauto. }
  rewrite He'. apply by_priority_sound in He' as [Hin' Hav'].
  exists e'. simpl. auto.
Qed.

Lemma init_selected_available h : selected_available (init h).
Proof.
  unfold init, _detect_encoders.
  set (software := MkInfo SOFTWARE "libx264" "h264" true
                          "Software H.264 encoder (CPU)").
  destruct (which_ffmpeg h) as [[|c path]|].
  - exists software. simpl. auto.
  - apply (select_best_available _ software); try reflexivity. simpl.
    destruct (encoders_stdout h); [|left; reflexivity].
    repeat apply probe_keeps. left. reflexivity.
  - exists software. simpl. auto.
Qed.

Lemma select_encoder_keeps nm m :
  selected_available m -> selected_available (snd (select_encoder nm m)).
Proof.
  intros H. unfold select_encoder.
  destruct (List.find _ (_available_encoders m)) as [e|] eqn:E; [|exact H].
  apply List.find_some in E as [Hin Hp].
  apply andb_true_iff in Hp as [_ Hav].
  exists e. simpl. auto.
Qed.

Lemma select_encoders_keep requests : forall m,
  selected_available m -> selected_available (select_encoders requests m).
Proof.
  induction requests as [|r rest IH]; intros m H; [exact H|].
  simpl. apply IH, select_encoder_keeps, H.
Qed.

End EncoderFacts.

(** C8.  A request that names no listed encoder with a passed smoke test
    is answered by the error "Encoder not available" and the manager,
    hence its selected encoder, is unchanged.  On any host, after the
    automatic selection and any sequence of selection requests, the
    selected encoder is a listed one that passed its smoke test. *)
Theorem select_encoder_unavailable :
  forall (m : HardwareEncoderManager.t) (encoder_name : string)
         (h : HardwareEncoderManager.Host) (requests : list string),
    ((forall e, In e (HardwareEncoderManager._available_encoders m) ->
                HardwareEncoderManager.name e = encoder_name ->
                HardwareEncoderManager.available e = false) ->
     HardwareEncoderManager.select_encoder encoder_name m
     = (HardwareEncoderManager.Error
          ("Encoder not available: " +:+ encoder_name), m))
    /\ (exists e,
           HardwareEncoderManager._selected_encoder
             (HardwareEncoderManager.init h) = Some e
           /\ HardwareEncoderManager.available e = true)
    /\ (exists e,
           HardwareEncoderManager._selected_encoder
             (HardwareEncoderManager.select_encoders requests
                (HardwareEncoderManager.init h)) = Some e
           /\ HardwareEncoderManager.available e = true
           /\ In e (HardwareEncoderManager._available_encoders
                      (HardwareEncoderManager.select_encoders requests
                         (HardwareEncoderManager.init h)))).
Proof.
  intros m encoder_name h requests. split; [|split].
  - intros Hnone. unfold HardwareEncoderManager.select_encoder.
    rewrite find_all_false; [reflexivity|].
    intros e Hin.
    destruct (String.eqb_spec (HardwareEncoderManager.name e) encoder_name)
      as [Heq|Hne]; [|reflexivity].
    rewrite (Hnone e Hin Heq). reflexivity.
  - destruct (init_selected_available h) as (e & He & Hav & _). eauto.
  - apply select_encoders_keep, init_selected_available.
Qed.

(** ** Answer handling *)

Section SignallingFacts.
Import Aiortc WebRTC.

(** [handle_answer] never consults the manager's set of live connections:
    replacing the set changes neither the outcome nor the store. *)
Lemma handle_answer_ignores_live_set setRD pc ans st live :
  handle_answer setRD pc ans
    (MkServer (heap st) live (active_pcs st))
  = (fst (handle_answer setRD pc ans st),
     MkServer (heap (snd (handle_answer setRD pc ans st))) live
              (active_pcs (snd (handle_answer setRD pc ans st)))).
Proof.
  unfold handle_answer. cbn [heap active_pcs peer_connections].
  destruct ans as [d|]; [|reflexivity].
  destruct (d !! "sdp") as [s|]; [|reflexivity].
  destruct (d !! "type") as [ty|]; [|reflexivity].
  destruct (heap st !! pc) as [o|]; [|reflexivity].
  destruct (setRD o (MkDesc s ty)); reflexivity.
Qed.

End SignallingFacts.

(** C9, as the code has it.  Let the library reject, with
    [InvalidStateError], every well-formed answer applied to a connection
    whose signalling state is not have-local-offer (the closed state
    included).  Then for a connection the server knows and that is not in
    have-local-offer, [handle_answer] raises that error, the endpoint turns
    it into an error response, and the store is unchanged.  A connection id
    the server does not know is answered by the endpoint itself with the
    error response "Invalid pc_id", the store unchanged. *)
Theorem answer_rejected_without_state_change :
  forall (setRD : Aiortc.RTCPeerConnection -> Aiortc.RTCSessionDescription ->
                  Aiortc.Exception + Aiortc.RTCPeerConnection)
         (well_formed : Aiortc.RTCSessionDescription -> Prop),
    (forall o d,
        well_formed d -> Aiortc.type d = "answer" ->
        Aiortc.signalingState o <> Aiortc.have_local_offer ->
        exists msg, setRD o d = inl (Aiortc.InvalidStateError msg)) ->
    forall (st : WebRTC.Server) (data : WebRTC.AnswerRequest),
      (WebRTC.lookup_pc data st = None ->
       WebRTC.receive_webrtc_answer setRD data st
       = (WebRTC.ErrorResponse "Invalid pc_id", st))
      /\ (forall pc o d s,
             WebRTC.lookup_pc data st = Some pc ->
             WebRTC.heap st !! pc = Some o ->
             Aiortc.signalingState o <> Aiortc.have_local_offer ->
             WebRTC.answer data = Some d ->
             d !! "sdp" = Some s -> d !! "type" = Some "answer" ->
             well_formed (Aiortc.MkDesc s "answer") ->
             exists msg,
               WebRTC.handle_answer setRD pc (WebRTC.answer data) st
               = (inl (Aiortc.InvalidStateError msg), st)
               /\ WebRTC.receive_webrtc_answer setRD data st
                  = (WebRTC.ErrorResponse msg, st)).
Proof.
  intros setRD well_formed Hgate st data. split.
  - intros Hnone.
    unfold WebRTC.receive_webrtc_answer, WebRTC.receive_webrtc_answer_try.
    rewrite Hnone. reflexivity.
  - intros pc o d s Hpc Ho Hstate Hans Hsdp Hty Hwf.
    destruct (Hgate o (Aiortc.MkDesc s "answer") Hwf eq_refl Hstate)
      as [msg Hmsg].
    exists msg.
    assert (Hh : WebRTC.handle_answer setRD pc (WebRTC.answer data) st
                 = (inl (Aiortc.InvalidStateError msg), st)).
    { unfold WebRTC.handle_answer. rewrite Hans, Hsdp, Hty, Ho, Hmsg.
      reflexivity. }
    split; [exact Hh|].
    unfold WebRTC.receive_webrtc_answer, WebRTC.receive_webrtc_answer_try.
    rewrite Hpc, Hh. reflexivity.
Qed.

(** NVENC is listed by ffmpeg but fails its smoke test: asking for it is an
    error and the software encoder stays selected. *)
Lemma select_encoder_unavailable_witness :
  HardwareEncoderManager.select_encoder "h264_nvenc"
    (HardwareEncoderManager.init Examples.nvenc_broken)
  = (HardwareEncoderManager.Error "Encoder not available: h264_nvenc",
     HardwareEncoderManager.init Examples.nvenc_broken).
Proof.
  apply (proj1 (select_encoder_unavailable
                  (HardwareEncoderManager.init Examples.nvenc_broken)
                  "h264_nvenc" Examples.nvenc_broken [])).
  intros e Hin Hname. vm_compute in Hin.
  destruct Hin as [<- | [<- | []]]; [discriminate Hname | reflexivity].
Defined.

(** The reference library performs the state check assumed of the library. *)
Lemma reference_gate :
  forall o d,
    True -> Aiortc.type d = "answer" ->
    Aiortc.signalingState o <> Aiortc.have_local_offer ->
    exists msg,
      Aiortc.reference_setRemoteDescription o d
      = inl (Aiortc.InvalidStateError msg).
Proof.
  intros o d _ Hty Hst. unfold Aiortc.reference_setRemoteDescription.
  rewrite Hty. simpl.
  destruct (Aiortc.signalingState o); try congruence; eauto.
Qed.

(** An answer for the closed connection is rejected and an answer for an id
    never issued is refused, the server unchanged in both cases. *)
Lemma answer_rejected_without_state_change_witness :
  WebRTC.receive_webrtc_answer Aiortc.reference_setRemoteDescription
    Examples.unknown_request Examples.closed_server
  = (WebRTC.ErrorResponse "Invalid pc_id", Examples.closed_server)
  /\ exists msg,
      WebRTC.receive_webrtc_answer Aiortc.reference_setRemoteDescription
        Examples.closed_request Examples.closed_server
      = (WebRTC.ErrorResponse msg, Examples.closed_server).
Proof.
  destruct (answer_rejected_without_state_change
              Aiortc.reference_setRemoteDescription (fun _ => True)
              reference_gate Examples.closed_server Examples.unknown_request)
    as [Hunknown _].
  destruct (answer_rejected_without_state_change
              Aiortc.reference_setRemoteDescription (fun _ => True)
              reference_gate Examples.closed_server Examples.closed_request)
    as [_ Hclosed].
  split.
  - apply Hunknown. reflexivity.
  - destruct (Hclosed 1%N (Aiortc.MkPC Aiortc.closed None)
                Examples.answer_dict "v=0")
      as (msg & _ & Hmsg); try reflexivity; try exact I.
    + discriminate.
    + exists msg. exact Hmsg.
Defined.

(** A connection id the server does not know is not an invalid-state
    failure: the body of the endpoint returns the error response
    "Invalid pc_id" normally and no [InvalidStateError] is raised. *)
Lemma unknown_connection_is_not_invalid_state :
  WebRTC.lookup_pc Examples.unknown_request Examples.closed_server = None
  /\ WebRTC.receive_webrtc_answer_try Aiortc.reference_setRemoteDescription
       Examples.unknown_request Examples.closed_server
     = (inr (WebRTC.ErrorResponse "Invalid pc_id"), Examples.closed_server)
  /\ ~ exists msg,
        fst (WebRTC.receive_webrtc_answer_try
               Aiortc.reference_setRemoteDescription
               Examples.unknown_request Examples.closed_server)
        = inl (Aiortc.InvalidStateError msg).
Proof.
  assert (H : WebRTC.lookup_pc Examples.unknown_request Examples.closed_server
              = None) by reflexivity.
  split; [exact H|].
  unfold WebRTC.receive_webrtc_answer_try. rewrite H.
  split; [reflexivity|]. intros [msg Hmsg]. discriminate Hmsg.
Qed.

(** ** Monitor selection *)

Section MonitorFacts.
Import ScreenCapture.

Lemma refresh_length mons sc :
  length (_monitors_info (_refresh_monitors mons sc)) = length mons.
Proof. unfold _refresh_monitors. simpl. apply length_imap. Qed.

Lemma refresh_keeps mons sc :
  _monitor_index (_refresh_monitors mons sc) = _monitor_index sc
  /\ monitor (_refresh_monitors mons sc) = monitor sc
  /\ sc_width (_refresh_monitors mons sc) = sc_width sc
  /\ sc_height (_refresh_monitors mons sc) = sc_height sc.
Proof. repeat split. Qed.

End MonitorFacts.

(** C10.  An index that is negative or not below the number of enumerated
    monitors is answered by an error, and the selected index, the capture
    region and the recorded width and height are what they were.  An index
    in range is answered by ok, and the capture region becomes the bounding
    rectangle of that monitor, with its width and height recorded. *)
Theorem select_monitor_spec :
  forall (sct_monitors : list ScreenCapture.Rect) (monitor_index : Z)
         (sc : ScreenCapture.t),
    ((monitor_index < 0
      \/ Z.of_nat (length sct_monitors) <= monitor_index)%Z ->
     exists msg sc',
       ScreenCapture.select_monitor sct_monitors monitor_index sc
       = Some (ScreenCapture.Error msg, sc')
       /\ ScreenCapture._monitor_index sc' = ScreenCapture._monitor_index sc
       /\ ScreenCapture.monitor sc' = ScreenCapture.monitor sc
       /\ ScreenCapture.sc_width sc' = ScreenCapture.sc_width sc
       /\ ScreenCapture.sc_height sc' = ScreenCapture.sc_height sc)
    /\ ((0 <= monitor_index < Z.of_nat (length sct_monitors))%Z ->
        exists r nm sc',
          sct_monitors !! Z.to_nat monitor_index = Some r
          /\ ScreenCapture.select_monitor sct_monitors monitor_index sc
             = Some (ScreenCapture.Ok monitor_index nm
                       (ScreenCapture.width r) (ScreenCapture.height r), sc')
          /\ ScreenCapture._monitor_index sc' = monitor_index
          /\ ScreenCapture.monitor sc' = Some r
          /\ ScreenCapture.sc_width sc' = Some (ScreenCapture.width r)
          /\ ScreenCapture.sc_height sc' = Some (ScreenCapture.height r)).
Proof.
  intros mons idx sc. split.
  - intros Hout. unfold ScreenCapture.select_monitor.
    rewrite refresh_length.
    assert (E : (idx <? 0)%Z || (Z.of_nat (length mons) <=? idx)%Z = true).
    { apply orb_true_iff. destruct Hout; [left|right]; lia. }
    rewrite E. eexists. eexists. split; [reflexivity|].
    apply refresh_keeps.
  - intros Hin. unfold ScreenCapture.select_monitor.
    rewrite refresh_length.
    assert (E : (idx <? 0)%Z || (Z.of_nat (length mons) <=? idx)%Z = false).
    { apply orb_false_iff. split; lia. }
    rewrite E.
    destruct (lookup_lt_is_Some_2 mons (Z.to_nat idx)) as [r Hr]; [lia|].
    exists r. unfold ScreenCapture._refresh_monitors.
    cbn [ScreenCapture._monitors_info].
    rewrite list_lookup_imap, Hr. cbn [fmap option_fmap option_map].
    cbn [mbind option_bind]. destruct r as [l t w h].
    eexists. eexists. repeat split; reflexivity.
Qed.

(** With two monitors behind the virtual desktop, index 3 is refused and
    index 2 selects the second monitor. *)
Lemma select_monitor_spec_witness :
  (exists msg sc',
      ScreenCapture.select_monitor Examples.two_monitors 3
        Examples.on_primary
      = Some (ScreenCapture.Error msg, sc')
      /\ ScreenCapture.monitor sc'
         = Some (ScreenCapture.MkRect 0 0 2560 1440))
  /\ (exists nm sc',
         ScreenCapture.select_monitor Examples.two_monitors 2
           Examples.on_primary
         = Some (ScreenCapture.Ok 2 nm 1920 1080, sc')
         /\ ScreenCapture.monitor sc'
            = Some (ScreenCapture.MkRect 2560 0 1920 1080)).
Proof.
  destruct (select_monitor_spec Examples.two_monitors 3 Examples.on_primary)
    as [Hout _].
  destruct (select_monitor_spec Examples.two_monitors 2 Examples.on_primary)
    as [_ Hin].
  split.
  - destruct Hout as (msg & sc' & Hsel & _ & Hmon & _).
    + right. simpl. lia.
    + exists msg, sc'. split; [exact Hsel | exact Hmon].
  - destruct Hin as (r & nm & sc' & Hr & Hsel & _ & Hmon & _).
    + simpl. lia.
    + injection Hr as <-. exists nm, sc'. split; [exact Hsel | exact Hmon].
Defined.

(** ** Presets and the optimizer facade *)

Section PresetFacts.
Import Py AdaptiveBitrate Reference NetworkOptimizer OptimizerInvariant.

Lemma gt_true a b : gt a b = true <-> b < a.
Proof. unfold gt. apply (lt_true b a). Qed.

Lemma gt_false a b : gt a b = false <-> a <= b.
Proof. unfold gt. apply (lt_false b a). Qed.

(** The row of the threshold table that fires, as inequalities. *)
Lemma select_tier_cases l b :
  (select_tier tier_table l b = "480p" /\ (150 < l \/ b < 1000))
  \/ (select_tier tier_table l b = "720p"
      /\ l <= 150 /\ 1000 <= b /\ (100 < l \/ b < 2000))
  \/ (select_tier tier_table l b = "1080p"
      /\ l <= 100 /\ 2000 <= b /\ (50 < l \/ b < 5000))
  \/ (select_tier tier_table l b = "1440p"
      /\ l <= 50 /\ 5000 <= b /\ (20 < l \/ b < 10000))
  \/ (select_tier tier_table l b = "4k" /\ l <= 20 /\ 10000 <= b).
Proof.
  unfold select_tier, tier_table.
  destruct (gt l 150) eqn:L1; [apply gt_true in L1; left; auto|].
  destruct (lt b 1000) eqn:B1; [apply lt_true in B1; left; auto|].
  apply gt_false in L1. apply lt_false in B1. simpl. right.
  destruct (gt l 100) eqn:L2; [apply gt_true in L2; left; auto 6|].
  destruct (lt b 2000) eqn:B2; [apply lt_true in B2; left; auto 6|].
  apply gt_false in L2. apply lt_false in B2. simpl. right.
  destruct (gt l 50) eqn:L3; [apply gt_true in L3; left; auto 6|].
  destruct (lt b 5000) eqn:B3; [apply lt_true in B3; left; auto 6|].
  apply gt_false in L3. apply lt_false in B3. simpl. right.
  destruct (gt l 20) eqn:L4; [apply gt_true in L4; left; auto 6|].
  destruct (lt b 10000) eqn:B4; [apply lt_true in B4; left; auto 6|].
  apply gt_false in L4. apply lt_false in B4. simpl. right. auto.
Qed.

Lemma select_tier_selectable l b :
  In (select_tier tier_table l b) selectable_tiers.
Proof.
  unfold selectable_tiers.
  destruct (select_tier_cases l b)
    as [[-> _]|[[-> _]|[[-> _]|[[-> _]|[-> _]]]]]; simpl; tauto.
Qed.

(** What a tier selection returns: the tier of the new state, which is
    either the old state or the old state moved to a table tier. *)
Lemma calculate_quality_result now_check now_adjust ab :
  exists p ab',
    calculate_quality now_check now_adjust ab = Some (p, ab')
    /\ current_preset ab' = p
    /\ latency_history ab' = latency_history ab
    /\ bandwidth_history ab' = bandwidth_history ab
    /\ (ab' = ab \/ exists l b, p = select_tier tier_table l b).
Proof.
  unfold calculate_quality, len.
  destruct (Nat.ltb_spec (length (items (latency_history ab))) 3) as [Hn|Hn];
    [exists (current_preset ab), ab; auto 6|].
  destruct (lt (now_check - last_adjustment ab) (adjustment_cooldown ab));
    [exists (current_preset ab), ab; auto 6|].
  destruct (mean_nonempty (items (latency_history ab))) as [ml ->].
  { intros E. rewrite E in Hn. simpl in Hn. lia. }
  assert (exists mb, match items (bandwidth_history ab) with
                     | [] => Some 5000
                     | _ :: _ => mean (items (bandwidth_history ab))
                     end = Some mb) as [mb Hmb].
  { destruct (items (bandwidth_history ab)); eexists; reflexivity. }
  cbn [mbind option_bind].
  replace (match items (bandwidth_history ab) with
           | [] => Some 5000
           | q :: l => mean (q :: l)
           end) with (Some mb).
  2:{ rewrite <- Hmb. destruct (items (bandwidth_history ab)); reflexivity. }
  cbn [mbind option_bind]. rewrite target_is_table_lookup.
  destruct (String.eqb (select_tier tier_table ml mb) (current_preset ab));
    cbn [negb].
  - exists (current_preset ab), ab. auto 6.
  - eexists. eexists. split; [reflexivity|]. simpl. eauto 8.
Qed.

Lemma calculate_quality_selectable now_check now_adjust ab p ab' :
  selectable ab ->
  calculate_quality now_check now_adjust ab = Some (p, ab') ->
  selectable ab'.
Proof.
  intros Hsel Hcq.
  destruct (calculate_quality_result now_check now_adjust ab)
    as (p0 & ab0 & Hcq0 & Hp & _ & _ & Hor).
  rewrite Hcq in Hcq0. injection Hcq0 as <- <-.
  destruct Hor as [-> | (l & b & Hlb)]; [exact Hsel|].
  unfold selectable. rewrite Hp, Hlb. apply select_tier_selectable.
Qed.

Lemma run_selectable evs : forall ab changes ab',
  selectable ab -> BitrateRun.run evs ab = Some (changes, ab') ->
  selectable ab'.
Proof.
  induction evs as [|[l b|c a] evs IH]; intros ab changes ab' Hsel Hrun.
  - injection Hrun as _ <-. exact Hsel.
  - simpl in Hrun. eapply IH; [|exact Hrun]. exact Hsel.
  - cbn [BitrateRun.run] in Hrun.
    destruct (calculate_quality c a ab) as [[p ab1]|] eqn:Hcq;
      [|discriminate].
    cbn [mbind option_bind fst snd] in Hrun.
    destruct (BitrateRun.run evs ab1) as [[ch ab2]|] eqn:Hrest;
      [|discriminate].
    cbn [mbind option_bind fst snd] in Hrun. injection Hrun as _ <-.
    eapply IH; [|exact Hrest].
    eapply calculate_quality_selectable; eassumption.
Qed.

Lemma selectable_lookup p :
  In p selectable_tiers ->
  exists r, QUALITY_PRESETS !! p = Some r.
Proof.
  unfold selectable_tiers. simpl.
  intros [<-|[<-|[<-|[<-|[<-|[]]]]]]; eexists; reflexivity.
Qed.

Lemma get_settings_selectable now_check now_adjust ab :
  selectable ab ->
  exists s ab',
    get_settings now_check now_adjust ab = Some (s, ab')
    /\ In (preset s) selectable_tiers
    /\ QUALITY_PRESETS !! preset s = Some (row s)
    /\ current_preset ab' = preset s
    /\ selectable ab'.
Proof.
  intros Hsel. unfold get_settings.
  destruct (calculate_quality_result now_check now_adjust ab)
    as (p & ab' & Hcq & Hp & _ & _ & _).
  pose proof (calculate_quality_selectable _ _ _ _ _ Hsel Hcq) as Hsel'.
  rewrite Hcq. cbn [mbind option_bind fst snd].
  assert (Hin : In p selectable_tiers)
    by (rewrite <- Hp; exact Hsel').
  destruct (selectable_lookup p Hin) as [r Hr]. rewrite Hr.
  cbn [mbind option_bind]. exists (MkSettings p r), ab'. simpl. auto.
Qed.

End PresetFacts.

Section TierOrderFacts.
Import Py AdaptiveBitrate Reference NetworkOptimizer OptimizerInvariant.

(** With enough samples and the cooldown elapsed, the selection returns the
    table tier of the two means. *)
Lemma calculate_quality_elapsed now_check now_adjust ab l b :
  (3 <= len (latency_history ab))%nat ->
  adjustment_cooldown ab <= now_check - last_adjustment ab ->
  mean (items (latency_history ab)) = Some l ->
  mean (items (bandwidth_history ab)) = Some b ->
  exists ab',
    calculate_quality now_check now_adjust ab
    = Some (select_tier tier_table l b, ab').
Proof.
  intros Hn Hcool Hl Hb. unfold calculate_quality.
  destruct (Nat.ltb_spec (len (latency_history ab)) 3); [lia|].
  apply lt_false in Hcool. rewrite Hcool, Hl. cbn [mbind option_bind].
  replace (match items (bandwidth_history ab) with
           | [] => Some 5000
           | q :: l0 => mean (q :: l0)
           end) with (Some b).
  2:{ rewrite <- Hb. destruct (items (bandwidth_history ab));
        [discriminate Hb | reflexivity]. }
  cbn [mbind option_bind]. rewrite target_is_table_lookup.
  destruct (String.eqb (select_tier tier_table l b) (current_preset ab))
    eqn:E; cbn [negb].
  - apply String.eqb_eq in E. rewrite <- E. eauto.
  - eauto.
Qed.

Lemma get_settings_elapsed now_check now_adjust ab l b s ab' :
  (3 <= len (latency_history ab))%nat ->
  adjustment_cooldown ab <= now_check - last_adjustment ab ->
  mean (items (latency_history ab)) = Some l ->
  mean (items (bandwidth_history ab)) = Some b ->
  get_settings now_check now_adjust ab = Some (s, ab') ->
  preset s = select_tier tier_table l b
  /\ QUALITY_PRESETS !! select_tier tier_table l b = Some (row s).
Proof.
  intros Hn Hcool Hl Hb Hget. unfold get_settings in Hget.
  destruct (calculate_quality_elapsed now_check now_adjust ab l b
              Hn Hcool Hl Hb) as [ab0 Hcq].
  rewrite Hcq in Hget. cbn [mbind option_bind fst snd] in Hget.
  destruct (QUALITY_PRESETS !! select_tier tier_table l b) as [r|];
    [|discriminate].
  cbn [mbind option_bind] in Hget. injection Hget as <- _. auto.
Qed.

Lemma preset_rows :
  QUALITY_PRESETS !! "480p" = Some (MkPreset 854 480 1000 30)
  /\ QUALITY_PRESETS !! "720p" = Some (MkPreset 1280 720 2500 30)
  /\ QUALITY_PRESETS !! "1080p" = Some (MkPreset 1920 1080 5000 60)
  /\ QUALITY_PRESETS !! "1440p" = Some (MkPreset 2560 1440 8000 60)
  /\ QUALITY_PRESETS !! "4k" = Some (MkPreset 3840 2160 15000 60).
Proof. repeat split. Qed.

End TierOrderFacts.

(** X1.  After any run of metric updates and tier selections on a new
    controller, [get_settings] does not raise: the tier it reports is one
    of the five the table can produce, never 360p, and it comes with its
    row of the preset table. *)
Theorem get_settings_never_fails :
  forall (t0 : Q) (evs : list BitrateRun.event) (changes : list Q)
         (ab : AdaptiveBitrate.t) (now_check now_adjust : Q),
    BitrateRun.run evs (AdaptiveBitrate.init t0) = Some (changes, ab) ->
    exists s ab',
      NetworkOptimizer.get_settings now_check now_adjust ab = Some (s, ab')
      /\ In (NetworkOptimizer.preset s) OptimizerInvariant.selectable_tiers
      /\ NetworkOptimizer.preset s <> "360p"
      /\ NetworkOptimizer.QUALITY_PRESETS !! NetworkOptimizer.preset s
         = Some (NetworkOptimizer.row s).
Proof.
  intros t0 evs changes ab c a Hrun.
  assert (Hsel : OptimizerInvariant.selectable ab).
  { eapply run_selectable; [|exact Hrun].
    unfold OptimizerInvariant.selectable,
      OptimizerInvariant.selectable_tiers. simpl. tauto. }
  destruct (get_settings_selectable c a ab Hsel)
    as (s & ab' & Hget & Hin & Hrow & _).
  exists s, ab'. repeat split; try assumption.
  intros E. rewrite E in Hin.
  unfold OptimizerInvariant.selectable_tiers in Hin. simpl in Hin.
  repeat (destruct Hin as [Hin|Hin]; [discriminate Hin|]). exact Hin.
Qed.

(** Three bad samples on a new controller: the settings are still there. *)
Lemma get_settings_never_fails_witness :
  exists s ab',
    NetworkOptimizer.get_settings 3 3
      (Invariants.update_all [(200, 5000); (200, 5000); (200, 5000)]
         (AdaptiveBitrate.init 0)) = Some (s, ab')
    /\ NetworkOptimizer.preset s <> "360p".
Proof.
  destruct (get_settings_never_fails 0
              [BitrateRun.Update 200 5000; BitrateRun.Update 200 5000;
               BitrateRun.Update 200 5000] []
              (Invariants.update_all [(200, 5000); (200, 5000); (200, 5000)]
                 (AdaptiveBitrate.init 0)) 3 3 eq_refl)
    as (s & ab' & Hget & _ & Hne & _).
  exists s, ab'. split; [exact Hget | exact Hne].
Defined.

(** X2.  Tier selection is monotone: of two controllers past their
    cooldown with at least three samples, the one whose mean latency is
    not lower and whose mean bandwidth is not higher gets settings with no
    higher bitrate, width, height or frame rate. *)
Theorem worse_network_never_better_settings :
  forall (ab1 ab2 : AdaptiveBitrate.t) (c1 a1 c2 a2 l1 b1 l2 b2 : Q)
         (s1 s2 : NetworkOptimizer.Settings) (ab1' ab2' : AdaptiveBitrate.t),
    (3 <= Py.len (AdaptiveBitrate.latency_history ab1))%nat ->
    (3 <= Py.len (AdaptiveBitrate.latency_history ab2))%nat ->
    AdaptiveBitrate.adjustment_cooldown ab1
    <= c1 - AdaptiveBitrate.last_adjustment ab1 ->
    AdaptiveBitrate.adjustment_cooldown ab2
    <= c2 - AdaptiveBitrate.last_adjustment ab2 ->
    Py.mean (Py.items (AdaptiveBitrate.latency_history ab1)) = Some l1 ->
    Py.mean (Py.items (AdaptiveBitrate.bandwidth_history ab1)) = Some b1 ->
    Py.mean (Py.items (AdaptiveBitrate.latency_history ab2)) = Some l2 ->
    Py.mean (Py.items (AdaptiveBitrate.bandwidth_history ab2)) = Some b2 ->
    l2 <= l1 -> b1 <= b2 ->
    NetworkOptimizer.get_settings c1 a1 ab1 = Some (s1, ab1') ->
    NetworkOptimizer.get_settings c2 a2 ab2 = Some (s2, ab2') ->
    (NetworkOptimizer.bitrate (NetworkOptimizer.row s1)
     <= NetworkOptimizer.bitrate (NetworkOptimizer.row s2))%Z
    /\ (NetworkOptimizer.width (NetworkOptimizer.row s1)
        <= NetworkOptimizer.width (NetworkOptimizer.row s2))%Z
    /\ (NetworkOptimizer.height (NetworkOptimizer.row s1)
        <= NetworkOptimizer.height (NetworkOptimizer.row s2))%Z
    /\ (NetworkOptimizer.fps (NetworkOptimizer.row s1)
        <= NetworkOptimizer.fps (NetworkOptimizer.row s2))%Z.
Proof.
  intros ab1 ab2 c1 a1 c2 a2 l1 b1 l2 b2 s1 s2 ab1' ab2'
         Hn1 Hn2 Hc1 Hc2 Hl1 Hb1 Hl2 Hb2 Hl Hb Hg1 Hg2.
  destruct (get_settings_elapsed _ _ _ _ _ _ _ Hn1 Hc1 Hl1 Hb1 Hg1)
    as [_ Hr1].
  destruct (get_settings_elapsed _ _ _ _ _ _ _ Hn2 Hc2 Hl2 Hb2 Hg2)
    as [_ Hr2].
  destruct preset_rows as (R480 & R720 & R1080 & R1440 & R4k).
  destruct (select_tier_cases l1 b1)
    as [[E1 H1]|[[E1 H1]|[[E1 H1]|[[E1 H1]|[E1 H1]]]]];
    rewrite E1 in Hr1;
    rewrite ?R480, ?R720, ?R1080, ?R1440, ?R4k in Hr1;
    injection Hr1 as <-;
    destruct (select_tier_cases l2 b2)
      as [[E2 H2]|[[E2 H2]|[[E2 H2]|[[E2 H2]|[E2 H2]]]]];
    rewrite E2 in Hr2;
    rewrite ?R480, ?R720, ?R1080, ?R1440, ?R4k in Hr2;
    injection Hr2 as <-;
    simpl; try (repeat split; lia); exfalso;
    repeat match goal with
           | H : _ /\ _ |- _ => destruct H
           end;
    repeat match goal with
           | H : _ \/ _ |- _ => destruct H
           end; lra.
Qed.

(** A congested and a clean link, three samples each, three seconds in:
    480p settings against 4k settings. *)
Lemma worse_network_never_better_settings_witness :
  match
    NetworkOptimizer.get_settings 3 3
      (Invariants.update_all [(200, 5000); (200, 5000); (200, 5000)]
         (AdaptiveBitrate.init 0)),
    NetworkOptimizer.get_settings 3 3
      (Invariants.update_all [(10, 20000); (10, 20000); (10, 20000)]
         (AdaptiveBitrate.init 0))
  with
  | Some (s1, _), Some (s2, _) =>
      (NetworkOptimizer.bitrate (NetworkOptimizer.row s1)
       <= NetworkOptimizer.bitrate (NetworkOptimizer.row s2))%Z
  | _, _ => False
  end.
Proof.
  destruct (NetworkOptimizer.get_settings 3 3
              (Invariants.update_all [(200, 5000); (200, 5000); (200, 5000)]
                 (AdaptiveBitrate.init 0)))
    as [[s1 ab1']|] eqn:E1; [|vm_compute in E1; discriminate E1].
  destruct (NetworkOptimizer.get_settings 3 3
              (Invariants.update_all [(10, 20000); (10, 20000); (10, 20000)]
                 (AdaptiveBitrate.init 0)))
    as [[s2 ab2']|] eqn:E2; [|vm_compute in E2; discriminate E2].
  apply (worse_network_never_better_settings
           (Invariants.update_all [(200, 5000); (200, 5000); (200, 5000)]
              (AdaptiveBitrate.init 0))
           (Invariants.update_all [(10, 20000); (10, 20000); (10, 20000)]
              (AdaptiveBitrate.init 0))
           3 3 3 3
           (Py.Qsum [200; 200; 200] / inject_Z 3)
           (Py.Qsum [5000; 5000; 5000] / inject_Z 3)
           (Py.Qsum [10; 10; 10] / inject_Z 3)
           (Py.Qsum [20000; 20000; 20000] / inject_Z 3)
           s1 s2 ab1' ab2');
    try reflexivity; try assumption;
    try (unfold Py.len; simpl; lia);
    unfold Qle; simpl; lia.
Defined.

Section ScoreFacts.
Import Py NetworkOptimizer.









End ScoreFacts.



Section RecommendationFacts.
Import Py NetworkOptimizer OptimizerInvariant.
Variable sqrt : Q -> Q.




End RecommendationFacts.


(** ** The capture queue *)

Section QueueFacts.
Import Np AudioCaptureTrack.

Lemma audio_callback_queue indata tr :
  maxsize (_audio_queue tr) = 50%nat ->
  maxsize (_audio_queue (audio_callback indata tr)) = 50%nat
  /\ queue (_audio_queue (audio_callback indata tr))
     = queue (_audio_queue tr)
       ++ (if (length (queue (_audio_queue tr)) <? 50)%nat
           then [indata] else [])
  /\ ((50 <= length (queue (_audio_queue tr)))%nat ->
      audio_callback indata tr = tr).
Proof.
  intros Hm. unfold audio_callback, full. rewrite Hm.
  change (0 <? 50)%nat with true. cbn [andb].
  destruct (Nat.leb_spec 50 (length (queue (_audio_queue tr)))) as [H|H];
    destruct (Nat.ltb_spec (length (queue (_audio_queue tr))) 50);
    try lia; cbn [negb].
  - rewrite app_nil_r. auto.
  - cbn [_audio_queue put maxsize queue]. repeat split; auto. lia.
Qed.

Lemma step_queue_bound e tr :
  maxsize (_audio_queue tr) = 50%nat ->
  (length (queue (_audio_queue tr)) <= 50)%nat ->
  maxsize (_audio_queue (snd (step e tr))) = 50%nat
  /\ (length (queue (_audio_queue (snd (step e tr)))) <= 50)%nat.
Proof.
  intros Hm Hlen. destruct e as [b| | |m|v|]; try (split; assumption).
  - cbn [step snd].
    destruct (audio_callback_queue b tr Hm) as (Hm' & Hq & _).
    split; [exact Hm'|]. rewrite Hq, length_app.
    destruct (Nat.ltb_spec (length (queue (_audio_queue tr))) 50);
      simpl; lia.
  - simpl. unfold recv, get_nowait.
    destruct (queue (_audio_queue tr)) as [|b rest] eqn:E; simpl.
    + rewrite E. split; [exact Hm | simpl; lia].
    + split; [exact Hm | simpl in Hlen; lia].
Qed.

Lemma run_queue_bound evs : forall tr,
  maxsize (_audio_queue tr) = 50%nat ->
  (length (queue (_audio_queue tr)) <= 50)%nat ->
  maxsize (_audio_queue (snd (run evs tr))) = 50%nat
  /\ (length (queue (_audio_queue (snd (run evs tr)))) <= 50)%nat.
Proof.
  induction evs as [|e evs IH]; intros tr Hm Hlen; [auto|].
  rewrite run_cons. cbn [snd].
  destruct (step_queue_bound e tr Hm Hlen) as [Hm' Hlen'].
  apply IH; assumption.
Qed.

End QueueFacts.

(** X5.  Along any run of a constructed track the capture queue never
    holds more than 50 blocks, and a block delivered while it holds 50 is
    dropped: the track is left exactly as it was. *)
Theorem capture_queue_bounded :
  forall (backend : option AudioCaptureTrack.Backend) (sr : Z) (ch : nat)
         (evs : list AudioCaptureTrack.event) (indata : Np.ndarray Q),
    let tr :=
      snd (AudioCaptureTrack.run evs (AudioCaptureTrack.init backend sr ch)) in
    (length (AudioCaptureTrack.queue (AudioCaptureTrack._audio_queue tr))
     <= 50)%nat
    /\ (length (AudioCaptureTrack.queue (AudioCaptureTrack._audio_queue tr))
        = 50%nat ->
        AudioCaptureTrack.audio_callback indata tr = tr)
    /\ ((length (AudioCaptureTrack.queue (AudioCaptureTrack._audio_queue tr))
         < 50)%nat ->
        AudioCaptureTrack.queue
          (AudioCaptureTrack._audio_queue
             (AudioCaptureTrack.audio_callback indata tr))
        = AudioCaptureTrack.queue (AudioCaptureTrack._audio_queue tr)
          ++ [indata]).
Proof.
  intros backend sr ch evs indata tr.
  destruct (run_queue_bound evs (AudioCaptureTrack.init backend sr ch))
    as [Hm Hlen]; [reflexivity | simpl; lia |].
  fold tr in Hm, Hlen.
  destruct (audio_callback_queue indata tr Hm) as (_ & Hq & Hfull).
  split; [exact Hlen|]. split.
  - intros H. apply Hfull. lia.
  - intros H. rewrite Hq.
    destruct (Nat.ltb_spec
                (length (AudioCaptureTrack.queue
                           (AudioCaptureTrack._audio_queue tr))) 50);
      [reflexivity | lia].
Qed.

(** On a new track the first captured block is queued. *)
Lemma capture_queue_bounded_witness :
  AudioCaptureTrack.queue
    (AudioCaptureTrack._audio_queue
       (AudioCaptureTrack.audio_callback Examples.half_block
          (AudioCaptureTrack.init (Some AudioCaptureTrack.pyaudio) 48000 1)))
  = [Examples.half_block].
Proof.
  apply (proj2 (proj2 (capture_queue_bounded
                         (Some AudioCaptureTrack.pyaudio) 48000 1 []
                         Examples.half_block))).
  simpl. lia.
Defined.

Section FifoFacts.
Import Np AudioCaptureTrack.

Lemma run_app evs1 : forall evs2 tr,
  run (evs1 ++ evs2) tr
  = (fst (run evs1 tr) ++ fst (run evs2 (snd (run evs1 tr))),
     snd (run evs2 (snd (run evs1 tr)))).
Proof.
  induction evs1 as [|e evs1 IH]; intros evs2 tr.
  - simpl. destruct (run evs2 tr). reflexivity.
  - change ((e :: evs1) ++ evs2) with (e :: (evs1 ++ evs2)).
    rewrite !run_cons, IH. cbn [fst snd]. rewrite app_assoc. reflexivity.
Qed.

(** Delivering blocks emits no frame, fills the queue up to 50 and touches
    nothing else. *)
Lemma run_captures bs : forall tr,
  maxsize (_audio_queue tr) = 50%nat ->
  fst (run (map Captured bs) tr) = []
  /\ queue (_audio_queue (snd (run (map Captured bs) tr)))
     = queue (_audio_queue tr)
       ++ take (50 - length (queue (_audio_queue tr))) bs
  /\ maxsize (_audio_queue (snd (run (map Captured bs) tr))) = 50%nat
  /\ _muted (snd (run (map Captured bs) tr)) = _muted tr
  /\ _volume (snd (run (map Captured bs) tr)) = _volume tr
  /\ _samples_per_frame (snd (run (map Captured bs) tr))
     = _samples_per_frame tr
  /\ channels (snd (run (map Captured bs) tr)) = channels tr.
Proof.
  induction bs as [|b bs IH]; intros tr Hm.
  - simpl. rewrite take_nil, app_nil_r. auto 10.
  - change (map Captured (b :: bs)) with (Captured b :: map Captured bs).
    rewrite run_cons. cbn [step fst snd app].
    destruct (audio_callback_queue b tr Hm) as (Hm' & Hq & _).
    destruct (IH (audio_callback b tr) Hm')
      as (Hf & Hq' & Hm'' & Hmu & Hvol & Hspf & Hch).
    rewrite Hf, Hq', Hm'', Hmu, Hvol, Hspf, Hch, Hq.
    assert (Hrest : _muted (audio_callback b tr) = _muted tr
                    /\ _volume (audio_callback b tr) = _volume tr
                    /\ _samples_per_frame (audio_callback b tr)
                       = _samples_per_frame tr
                    /\ channels (audio_callback b tr) = channels tr).
    { unfold audio_callback. destruct (negb _); auto. }
    destruct Hrest as (-> & -> & -> & ->).
    repeat split; try reflexivity.
    rewrite length_app.
    destruct (Nat.ltb_spec (length (queue (_audio_queue tr))) 50) as [H|H].
    + simpl length.
      replace (50 - length (queue (_audio_queue tr)))%nat
        with (S (50 - (length (queue (_audio_queue tr)) + 1))) by lia.
      rewrite <- app_assoc. reflexivity.
    + simpl length. rewrite app_nil_r.
      replace (50 - (length (queue (_audio_queue tr)) + 0))%nat
        with 0%nat by lia.
      replace (50 - length (queue (_audio_queue tr)))%nat
        with 0%nat by lia.
      reflexivity.
Qed.

(** Pulls on an unmuted track deliver the queued blocks in order, then
    silence. *)
Lemma run_pulls n : forall tr,
  _muted tr = false ->
  map plane (fst (run (replicate n Pull) tr))
  = map (fun b => Array (shape b)
                    (map (fun x => int16 (x * _volume tr * 32767)) (data b)))
        (take n (queue (_audio_queue tr)))
    ++ replicate (n - length (queue (_audio_queue tr)))
         (Array (_samples_per_frame tr, channels tr)
                (replicate (_samples_per_frame tr * channels tr) 0%Z)).
Proof.
  induction n as [|n IH]; intros tr Hmu; [reflexivity|].
  change (replicate (S n) Pull) with (Pull :: replicate n Pull).
  rewrite run_cons.
  assert (Hstep : step Pull tr = ([fst (recv tr)], snd (recv tr)))
    by (simpl; destruct (recv tr); reflexivity).
  rewrite Hstep. cbn [fst snd app map].
  assert (Hkeep : _muted (snd (recv tr)) = false
                  /\ _volume (snd (recv tr)) = _volume tr
                  /\ _samples_per_frame (snd (recv tr))
                     = _samples_per_frame tr
                  /\ channels (snd (recv tr)) = channels tr).
  { unfold recv. destruct (get_nowait _) as [[? ?]|]; simpl; auto. }
  destruct Hkeep as (Hmu' & Hvol & Hspf & Hch).
  rewrite (IH (snd (recv tr)) Hmu'), Hvol, Hspf, Hch.
  destruct (queue (_audio_queue tr)) as [|b rest] eqn:Hq.
  - destruct (recv_empty tr Hq) as [-> _].
    assert (Hq' : queue (_audio_queue (snd (recv tr))) = []).
    { unfold recv, get_nowait. rewrite Hq. simpl. exact Hq. }
    rewrite Hq'. rewrite !take_nil. simpl length.
    rewrite !Nat.sub_0_r. reflexivity.
  - destruct (recv_block tr b rest Hq) as [-> _]. rewrite Hmu.
    assert (Hq' : queue (_audio_queue (snd (recv tr))) = rest).
    { unfold recv, get_nowait. rewrite Hq. reflexivity. }
    rewrite Hq'. simpl. reflexivity.
Qed.

End FifoFacts.

(** X6.  Blocks are played in the order they were captured.  When blocks
    [bs] are delivered to a new track and [n] pulls follow, the frames
    carry the first 50 blocks of [bs] in order, each sample multiplied by
    the initial volume 1 and by 32767 and converted to 16 bits; blocks
    past the 50th were dropped, and once the queue is empty every further
    pull carries 960 rows of zeros. *)
Theorem pulls_follow_capture_order :
  forall (backend : option AudioCaptureTrack.Backend) (sr : Z) (ch : nat)
         (bs : list (Np.ndarray Q)) (n : nat),
    map AudioCaptureTrack.plane
        (fst (AudioCaptureTrack.run
                (map AudioCaptureTrack.Captured bs
                 ++ replicate n AudioCaptureTrack.Pull)
                (AudioCaptureTrack.init backend sr ch)))
    = map (fun b => Np.Array (Np.shape b)
                      (map (fun x => Np.int16 (x * 1 * 32767)) (Np.data b)))
          (take n (take 50 bs))
      ++ replicate (n - length (take 50 bs))
           (Np.Array (960%nat, ch) (replicate (960 * ch) 0%Z)).
Proof.
  intros backend sr ch bs n. rewrite run_app. cbn [fst].
  destruct (run_captures bs (AudioCaptureTrack.init backend sr ch) eq_refl)
    as (Hf & Hq & _ & Hmu & Hvol & Hspf & Hch).
  rewrite Hf. cbn [app].
  rewrite run_pulls by (rewrite Hmu; reflexivity).
  rewrite Hq, Hvol, Hspf, Hch. reflexivity.
Qed.

(** ** The audio manager and its tracks *)

Section ManagerFacts.
Import AudioManager.

Lemma set_volume_clamped v tr :
  AudioCaptureTrack._volume (AudioCaptureTrack.set_volume v tr) = clamped v.
Proof. reflexivity. Qed.

Lemma step_keeps_settings e tr :
  (forall b, e <> AudioCaptureTrack.SetMuted b) ->
  (forall v, e <> AudioCaptureTrack.SetVolume v) ->
  AudioCaptureTrack._muted (snd (AudioCaptureTrack.step e tr))
  = AudioCaptureTrack._muted tr
  /\ AudioCaptureTrack._volume (snd (AudioCaptureTrack.step e tr))
     = AudioCaptureTrack._volume tr.
Proof.
  intros Hm Hv. destruct e as [b| | |m|v|]; simpl; auto.
  - unfold AudioCaptureTrack.audio_callback. destruct (negb _); auto.
  - destruct (Hm m eq_refl).
  - destruct (Hv v eq_refl).
  - unfold AudioCaptureTrack.recv.
    destruct (AudioCaptureTrack.get_nowait _) as [[? ?]|]; auto.
Qed.

Lemma on_track_follows i e m :
  (forall b, e <> AudioCaptureTrack.SetMuted b) ->
  (forall v, e <> AudioCaptureTrack.SetVolume v) ->
  Forall (fun tr => AudioCaptureTrack._muted tr = muted m
                    /\ AudioCaptureTrack._volume tr = clamped (volume m))
         (active_tracks m) ->
  Forall (fun tr => AudioCaptureTrack._muted tr = muted (on_track i e m)
                    /\ AudioCaptureTrack._volume tr
                       = clamped (volume (on_track i e m)))
         (active_tracks (on_track i e m)).
Proof.
  intros Hm Hv Hall. unfold on_track. simpl.
  apply Forall_alter; [exact Hall|].
  intros tr _ [H1 H2].
  destruct (step_keeps_settings e tr Hm Hv) as [-> ->]. auto.
Qed.

Lemma apply_follows o m :
  Forall (fun tr => AudioCaptureTrack._muted tr = muted m
                    /\ AudioCaptureTrack._volume tr = clamped (volume m))
         (active_tracks m) ->
  Forall (fun tr => AudioCaptureTrack._muted tr = muted (apply o m)
                    /\ AudioCaptureTrack._volume tr
                       = clamped (volume (apply o m)))
         (active_tracks (apply o m)).
Proof.
  intros Hall. destruct o as [backend|rm rv|i b|i|i].
  - simpl. apply Forall_app. split; [exact Hall|].
    constructor; [|constructor]. split; reflexivity.
  - unfold apply, update_audio_settings. cbn [snd].
    assert (H1 : Forall
              (fun tr => AudioCaptureTrack._muted tr
                         = muted (match rm with
                                  | Some b => set_muted b m | None => m end)
                         /\ AudioCaptureTrack._volume tr
                            = clamped (volume (match rm with
                                               | Some b => set_muted b m
                                               | None => m end)))
              (active_tracks (match rm with
                              | Some b => set_muted b m | None => m end))).
    { destruct rm as [b|]; [|exact Hall]. simpl.
      apply List.Forall_map. eapply Forall_impl; [exact Hall|].
      simpl. intros tr [_ H]. auto. }
    destruct rv as [v|]; [|exact H1]. simpl.
    apply List.Forall_map. eapply Forall_impl; [exact H1|].
    simpl. intros tr [H _]. auto.
  - apply on_track_follows; [discriminate | discriminate | exact Hall].
  - apply on_track_follows; [discriminate | discriminate | exact Hall].
  - apply on_track_follows; [discriminate | discriminate | exact Hall].
Qed.

Lemma apply_all_follows ops : forall m,
  Forall (fun tr => AudioCaptureTrack._muted tr = muted m
                    /\ AudioCaptureTrack._volume tr = clamped (volume m))
         (active_tracks m) ->
  Forall (fun tr => AudioCaptureTrack._muted tr = muted (apply_all ops m)
                    /\ AudioCaptureTrack._volume tr
                       = clamped (volume (apply_all ops m)))
         (active_tracks (apply_all ops m)).
Proof.
  induction ops as [|o ops IH]; intros m H; [exact H|].
  simpl. apply IH, apply_follows, H.
Qed.

Lemma clamped_range v :
  0 <= clamped v /\ clamped v <= 1
  /\ (0 <= v -> v <= 1 -> clamped v == v)
  /\ (1 <= v -> clamped v = 1)
  /\ (v <= 0 -> clamped v = 0).
Proof.
  unfold clamped, AudioCaptureTrack.set_volume. simpl.
  destruct (Py.lt v 1) eqn:E1.
  - apply lt_true in E1. destruct (Py.gt v 0) eqn:E2.
    + apply gt_true in E2.
      repeat split; intros; first [lra | reflexivity | exfalso; lra].
    + apply gt_false in E2.
      repeat split; intros; first [lra | reflexivity | exfalso; lra].
  - apply lt_false in E1. simpl.
    repeat split; intros; first [lra | reflexivity | exfalso; lra].
Qed.

End ManagerFacts.

(** X7.  Whatever the sequence of manager calls (track creation, settings
    requests) and of captures and pulls on its tracks, every active track
    has the manager's mute flag, and its volume is the manager's volume
    clamped into [[0, 1]]: equal to it inside the interval, 1 above, 0
    below.  The manager itself keeps, and the settings request reports,
    the volume as it was passed. *)
Theorem tracks_follow_manager :
  forall (ops : list AudioManager.op) (tr : AudioCaptureTrack.t)
         (b : option bool) (v : Q),
    let m := AudioManager.apply_all ops AudioManager.init in
    (In tr (AudioManager.active_tracks m) ->
     AudioCaptureTrack._muted tr = AudioManager.muted m
     /\ AudioCaptureTrack._volume tr
        = AudioManager.clamped (AudioManager.volume m)
     /\ 0 <= AudioCaptureTrack._volume tr
     /\ AudioCaptureTrack._volume tr <= 1
     /\ (0 <= AudioManager.volume m -> AudioManager.volume m <= 1 ->
         AudioCaptureTrack._volume tr == AudioManager.volume m)
     /\ (1 <= AudioManager.volume m -> AudioCaptureTrack._volume tr = 1)
     /\ (AudioManager.volume m <= 0 -> AudioCaptureTrack._volume tr = 0))
    /\ snd (fst (AudioManager.update_audio_settings b (Some v) m)) = v
    /\ AudioManager.volume
         (snd (AudioManager.update_audio_settings b (Some v) m)) = v.
Proof.
  intros ops tr b v m. split.
  - intros Hin.
    assert (Hall := apply_all_follows ops AudioManager.init
                      (List.Forall_nil _)).
    fold m in Hall. rewrite List.Forall_forall in Hall.
    destruct (Hall tr Hin) as [Hm Hv]. rewrite Hv.
    destruct (clamped_range (AudioManager.volume m))
      as (H0 & H1 & H2 & H3 & H4).
    auto 10.
  - unfold AudioManager.update_audio_settings. destruct b; auto.
Qed.

(** A request for volume 5 on a manager with one track: the track plays at
    volume 1. *)
Lemma tracks_follow_manager_witness :
  Forall (fun tr => AudioCaptureTrack._volume tr = 1)
         (AudioManager.active_tracks
            (AudioManager.apply_all
               [AudioManager.CreateTrack None;
                AudioManager.UpdateSettings None (Some 5)]
               AudioManager.init)).
Proof.
  apply List.Forall_forall. intros tr Hin.
  destruct (tracks_follow_manager
              [AudioManager.CreateTrack None;
               AudioManager.UpdateSettings None (Some 5)] tr None 0)
    as [H _].
  destruct (H Hin) as (_ & _ & _ & _ & _ & H1 & _).
  apply H1. unfold Qle. simpl. lia.
Defined.

(** ** Monitor queries *)

Section MonitorQueryFacts.
Import ScreenCapture ScreenCaptureQueries.

Lemma refresh_lookup mons sc i r :
  mons !! i = Some r ->
  _monitors_info (_refresh_monitors mons sc) !! i
  = Some (MkMon i (left r) (top r) (width r) (height r) (i =? 0)%nat
                (if (i =? 0)%nat then "All Monitors"
                 else "Monitor " +:+ pretty i)).
Proof.
  intros H. unfold _refresh_monitors. cbn [_monitors_info].
  rewrite list_lookup_imap, H. reflexivity.
Qed.

(** The two outcomes of a selection. *)
Lemma select_monitor_cases mons idx sc :
  ((idx < 0 \/ Z.of_nat (length mons) <= idx)%Z
   /\ select_monitor mons idx sc
      = Some (Error ("Invalid monitor index: " +:+ pretty idx),
              _refresh_monitors mons sc))
  \/ ((0 <= idx < Z.of_nat (length mons))%Z
      /\ exists r,
          mons !! Z.to_nat idx = Some r
          /\ select_monitor mons idx sc
             = Some (Ok idx
                        (if (Z.to_nat idx =? 0)%nat then "All Monitors"
                         else "Monitor " +:+ pretty (Z.to_nat idx))
                        (width r) (height r),
                     Make idx (_monitors_info (_refresh_monitors mons sc))
                          (Some r) (Some (width r)) (Some (height r)))).
Proof.
  unfold select_monitor. rewrite refresh_length.
  destruct (Z.ltb_spec idx 0) as [H0|H0];
    [left; split; [lia|reflexivity]|].
  destruct (Z.leb_spec (Z.of_nat (length mons)) idx) as [H1|H1];
    [left; split; [lia|reflexivity]|].
  right. split; [lia|]. cbn [orb].
  destruct (lookup_lt_is_Some_2 mons (Z.to_nat idx)) as [r Hr]; [lia|].
  exists r. split; [exact Hr|].
  rewrite (refresh_lookup mons sc _ r Hr). cbn [mbind option_bind].
  cbn [name mon_width mon_height mon_left mon_top].
  destruct r; reflexivity.
Qed.

Lemma py_index_nonneg {A} (l : list A) (i : Z) :
  (0 <= i)%Z -> py_index l i = l !! Z.to_nat i.
Proof.
  intros H. unfold py_index.
  destruct (Z.leb_spec 0 i); [reflexivity|lia].
Qed.

End MonitorQueryFacts.

(** X8.  Selecting a monitor and asking for the current one agree: after
    a selection with an index in range, [get_current_monitor] reports that
    index with the name, width and height of the monitor enumerated at
    that position, [get_frame] grabs its rectangle, and the name is
    "All Monitors" for index 0 and "Monitor i" otherwise. *)
Theorem select_then_current_monitor :
  forall (sct_monitors : list ScreenCapture.Rect) (monitor_index : Z)
         (sc : ScreenCapture.t),
    (0 <= monitor_index < Z.of_nat (length sct_monitors))%Z ->
    exists r nm sc',
      sct_monitors !! Z.to_nat monitor_index = Some r
      /\ ScreenCapture.select_monitor sct_monitors monitor_index sc
         = Some (ScreenCapture.Ok monitor_index nm
                   (ScreenCapture.width r) (ScreenCapture.height r), sc')
      /\ ScreenCaptureQueries.get_current_monitor sc'
         = Some (ScreenCaptureQueries.MkCurrent monitor_index nm
                   (ScreenCapture.width r) (ScreenCapture.height r))
      /\ ScreenCaptureQueries.get_frame_region sc' = Some r
      /\ nm = (if (monitor_index =? 0)%Z then "All Monitors"
               else "Monitor " +:+ pretty (Z.to_nat monitor_index)).
Proof.
  intros mons idx sc Hin.
  destruct (select_monitor_cases mons idx sc)
    as [[Hout _]|[_ (r & Hr & Hsel)]]; [lia|].
  exists r. eexists. eexists. split; [exact Hr|]. split; [exact Hsel|].
  split; [|split; [reflexivity|]].
  - unfold ScreenCaptureQueries.get_current_monitor.
    cbn [ScreenCapture._monitor_index ScreenCapture._monitors_info].
    rewrite refresh_length.
    destruct (Z.ltb_spec idx (Z.of_nat (length mons))); [|lia].
    rewrite py_index_nonneg by lia.
    rewrite (refresh_lookup mons sc _ r Hr). cbn [mbind option_bind].
    cbn [ScreenCapture.index ScreenCapture.name ScreenCapture.mon_width
         ScreenCapture.mon_height].
    rewrite Z2Nat.id by lia. reflexivity.
  - destruct (Z.eqb_spec idx 0) as [->|Hne]; [reflexivity|].
    destruct (Nat.eqb_spec (Z.to_nat idx) 0); [lia|reflexivity].
Qed.

(** Selecting the second monitor of two behind the virtual desktop. *)
Lemma select_then_current_monitor_witness :
  exists sc',
    ScreenCapture.select_monitor Examples.two_monitors 2 Examples.on_primary
    = Some (ScreenCapture.Ok 2 "Monitor 2" 1920 1080, sc')
    /\ ScreenCaptureQueries.get_current_monitor sc'
       = Some (ScreenCaptureQueries.MkCurrent 2 "Monitor 2" 1920 1080).
Proof.
  destruct (select_then_current_monitor Examples.two_monitors 2
              Examples.on_primary)
    as (r & nm & sc' & Hr & Hsel & Hcur & _ & Hnm).
  - simpl. lia.
  - injection Hr as <-. simpl in Hnm. subst nm.
    exists sc'. split; [exact Hsel | exact Hcur].
Defined.

(** X9.  [enumerate_monitors] lists the monitors as enumerated, one entry
    each and in order: entry [i] carries index [i] and the size and
    position of monitor [i]; it is flagged as the virtual desktop exactly
    for [i = 0], as primary exactly for [i = 1], and as selected exactly
    when [i] is the selected index.  The monitor count afterwards is the
    number of monitors less the virtual desktop. *)
Theorem enumerate_monitors_entries :
  forall (sct_monitors : list ScreenCapture.Rect) (sc : ScreenCapture.t),
    let entries :=
      fst (ScreenCaptureQueries.enumerate_monitors sct_monitors sc) in
    let sc' :=
      snd (ScreenCaptureQueries.enumerate_monitors sct_monitors sc) in
    length entries = length sct_monitors
    /\ ScreenCaptureQueries.monitor_count sc'
       = Z.max 0 (Z.of_nat (length sct_monitors) - 1)
    /\ forall i e,
        entries !! i = Some e ->
        exists r,
          sct_monitors !! i = Some r
          /\ ScreenCaptureQueries.e_index e = i
          /\ ScreenCaptureQueries.e_width e = ScreenCapture.width r
          /\ ScreenCaptureQueries.e_height e = ScreenCapture.height r
          /\ ScreenCaptureQueries.e_position e
             = (ScreenCapture.left r, ScreenCapture.top r)
          /\ (ScreenCaptureQueries.is_virtual_desktop e = true <-> i = 0%nat)
          /\ (ScreenCaptureQueries.is_primary e = true <-> i = 1%nat)
          /\ (ScreenCaptureQueries.selected e = true
              <-> Z.of_nat i = ScreenCapture._monitor_index sc).
Proof.
  intros mons sc entries sc'. subst entries sc'.
  unfold ScreenCaptureQueries.enumerate_monitors. cbn [fst snd].
  split; [rewrite length_map; apply refresh_length|].
  split; [unfold ScreenCaptureQueries.monitor_count;
          rewrite refresh_length; reflexivity|].
  intros i e He.
  change (map ?f ?l) with (f <$> l) in He.
  rewrite list_lookup_fmap in He.
  destruct (ScreenCapture._monitors_info
              (ScreenCapture._refresh_monitors mons sc) !! i)
    as [m|] eqn:Hm; [|discriminate].
  injection He as <-.
  assert (Hlt : (i < length mons)%nat).
  { apply lookup_lt_Some in Hm. rewrite refresh_length in Hm. exact Hm. }
  destruct (lookup_lt_is_Some_2 mons i Hlt) as [r Hr].
  rewrite (refresh_lookup mons sc i r Hr) in Hm. injection Hm as <-.
  exists r. cbn. split; [exact Hr|].
  repeat split; try reflexivity.
  - apply Nat.eqb_eq.
  - apply Nat.eqb_eq.
  - apply Nat.eqb_eq.
  - apply Nat.eqb_eq.
  - apply Z.eqb_eq.
  - apply Z.eqb_eq.
Qed.

(** With the primary monitor selected, the second entry is the one
    flagged. *)
Lemma enumerate_monitors_entries_witness :
  exists e,
    fst (ScreenCaptureQueries.enumerate_monitors Examples.two_monitors
           Examples.on_primary) !! 1%nat = Some e
    /\ ScreenCaptureQueries.selected e = true
    /\ ScreenCaptureQueries.is_primary e = true.
Proof.
  destruct (enumerate_monitors_entries Examples.two_monitors
              Examples.on_primary) as (_ & _ & H).
  eexists. split; [reflexivity|].
  edestruct (H 1%nat) as (r & _ & _ & _ & _ & _ & _ & Hprim & Hsel);
    [reflexivity|].
  split; [apply Hsel | apply Hprim]; reflexivity.
Defined.

Section CaptureInvariantFacts.
Import ScreenCapture ScreenCaptureQueries.

Lemma select_keeps_region mons idx sc r sc' :
  select_monitor mons idx sc = Some (r, sc') ->
  (region_recorded sc /\ (0 <= _monitor_index sc)%Z) ->
  region_recorded sc' /\ (0 <= _monitor_index sc')%Z.
Proof.
  intros Hsel [Hreg Hidx].
  destruct (select_monitor_cases mons idx sc)
    as [[_ Herr]|[Hin (m & _ & Hok)]];
    rewrite Hsel in *.
  - injection Herr as _ ->. split; [exact Hreg | exact Hidx].
  - injection Hok as _ ->. split; [|simpl; lia].
    exists m. simpl. auto.
Qed.

Lemma select_all_keeps requests : forall sc,
  region_recorded sc /\ (0 <= _monitor_index sc)%Z ->
  exists sc', select_all requests sc = Some sc'
              /\ region_recorded sc' /\ (0 <= _monitor_index sc')%Z.
Proof.
  induction requests as [|[mons i] rest IH]; intros sc H.
  - exists sc. split; [reflexivity | exact H].
  - cbn [select_all].
    destruct (select_monitor mons i sc) as [[r sc1]|] eqn:Hsel.
    + cbn [mbind option_bind snd]. apply IH.
      eapply select_keeps_region; eassumption.
    + destruct (select_monitor_cases mons i sc)
        as [[_ Herr]|[_ (m & _ & Hok)]]; congruence.
Qed.

Lemma current_monitor_total sc :
  (0 <= _monitor_index sc)%Z -> is_Some (get_current_monitor sc).
Proof.
  intros H. unfold get_current_monitor.
  destruct (Z.ltb_spec (_monitor_index sc)
              (Z.of_nat (length (_monitors_info sc)))) as [Hlt|Hge];
    [|eexists; reflexivity].
  rewrite py_index_nonneg by exact H.
  destruct (lookup_lt_is_Some_2 (_monitors_info sc)
              (Z.to_nat (_monitor_index sc))) as [m ->]; [lia|].
  eexists. reflexivity.
Qed.

End CaptureInvariantFacts.

(** X10.  A capture constructed with an index in range has its region
    set, and through any later selection requests, accepted or refused,
    whatever monitors are enumerated at each, the region stays set, the
    recorded width and height are those of the region, and
    [get_current_monitor] does not raise.  A capture constructed with an
    index out of range keeps that index but has no region: [get_frame]
    would fail until a selection succeeds. *)
Theorem capture_region_invariant :
  forall (enumerated sct_monitors : list ScreenCapture.Rect)
         (monitor_index : Z)
         (requests : list (list ScreenCapture.Rect * Z)),
    ((0 <= monitor_index < Z.of_nat (length sct_monitors))%Z ->
     exists sc sc' r,
       ScreenCaptureQueries.init enumerated sct_monitors monitor_index
       = Some sc
       /\ ScreenCaptureQueries.select_all requests sc = Some sc'
       /\ ScreenCaptureQueries.get_frame_region sc' = Some r
       /\ ScreenCapture.sc_width sc' = Some (ScreenCapture.width r)
       /\ ScreenCapture.sc_height sc' = Some (ScreenCapture.height r)
       /\ is_Some (ScreenCaptureQueries.get_current_monitor sc'))
    /\ ((monitor_index < 0
         \/ Z.of_nat (length sct_monitors) <= monitor_index)%Z ->
        exists sc,
          ScreenCaptureQueries.init enumerated sct_monitors monitor_index
          = Some sc
          /\ ScreenCapture._monitor_index sc = monitor_index
          /\ ScreenCaptureQueries.get_frame_region sc = None).
Proof.
  intros enumerated mons idx requests.
  unfold ScreenCaptureQueries.init.
  set (sc0 := ScreenCapture._refresh_monitors enumerated
                (ScreenCapture.Make idx [] None None None)).
  split.
  - intros Hin.
    destruct (select_monitor_cases mons idx sc0)
      as [[Hout _]|[_ (r & Hr & Hsel)]]; [lia|].
    rewrite Hsel. cbn [mbind option_bind snd].
    eexists.
    edestruct (select_all_keeps requests) as (sc' & Hall & Hreg & Hidx);
      [|exists sc'].
    2:{ destruct Hreg as (r' & Hm & Hw & Hh). exists r'.
        split; [reflexivity|]. split; [exact Hall|].
        split; [exact Hm|]. split; [exact Hw|]. split; [exact Hh|].
        apply current_monitor_total. exact Hidx. }
    split; [exists r; simpl; auto | simpl; lia].
  - intros Hout.
    destruct (select_monitor_cases mons idx sc0)
      as [[_ Herr]|[Hin _]]; [|lia].
    rewrite Herr. cbn [mbind option_bind snd].
    eexists. split; [reflexivity|]. split; reflexivity.
Qed.

(** A capture on the primary monitor survives a refused request for
    monitor 7; a capture constructed on monitor 7 has no region. *)
Lemma capture_region_invariant_witness :
  (exists sc sc',
      ScreenCaptureQueries.init Examples.two_monitors Examples.two_monitors 1
      = Some sc
      /\ ScreenCaptureQueries.select_all [(Examples.two_monitors, 7%Z)] sc
         = Some sc'
      /\ ScreenCaptureQueries.get_frame_region sc'
         = Some (ScreenCapture.MkRect 0 0 2560 1440))
  /\ (exists sc,
         ScreenCaptureQueries.init Examples.two_monitors
           Examples.two_monitors 7 = Some sc
         /\ ScreenCaptureQueries.get_frame_region sc = None).
Proof.
  destruct (capture_region_invariant Examples.two_monitors
              Examples.two_monitors 1 [(Examples.two_monitors, 7%Z)])
    as [Hin _].
  destruct (capture_region_invariant Examples.two_monitors
              Examples.two_monitors 7 [])
    as [_ Hout].
  split.
  - destruct Hin as (sc & sc' & r & Hinit & Hall & Hreg & _);
      [simpl; lia|].
    exists sc, sc'. split; [exact Hinit|]. split; [exact Hall|].
    injection Hinit as <-. injection Hall as <-. exact eq_refl.
  - destruct Hout as (sc & Hinit & _ & Hreg); [right; simpl; lia|].
    exists sc. split; [exact Hinit | exact Hreg].
Defined.

(** ** Encoder queries *)

Section EncoderQueryFacts.
Import HardwareEncoderManager EncoderQueries.

Lemma find_first_some {A} (f : A -> bool) l x :
  In x l -> f x = true -> exists y, List.find f l = Some y.
Proof.
  intros Hin Hf. destruct (List.find f l) as [y|] eqn:E; [eauto|].
  rewrite (List.find_none _ _ E x Hin) in Hf. discriminate.
Qed.

(** The automatic choice is of the best rank among the entries that
    passed their smoke test. *)
Lemma select_best_rank m e' :
  In e' (_available_encoders m) -> available e' = true ->
  exists s,
    _selected_encoder (_select_best_encoder m) = Some s
    /\ (rank (encoder_type s) <= rank (encoder_type e'))%nat.
Proof.
  intros Hin Hav. unfold _select_best_encoder, _select_by_priority.
  assert (Hnone : forall ty,
             List.find (fun encoder =>
                          EncoderType_eqb (encoder_type encoder) ty
                          && available encoder) (_available_encoders m)
             = None -> encoder_type e' <> ty).
  { intros ty E Hty. apply (List.find_none _ _ E) in Hin.
    rewrite Hty, EncoderType_eqb_refl, Hav in Hin. discriminate. }
  assert (Hsome : forall ty s,
             List.find (fun encoder =>
                          EncoderType_eqb (encoder_type encoder) ty
                          && available encoder) (_available_encoders m)
             = Some s -> encoder_type s = ty).
  { intros ty s E. apply List.find_some in E as [_ E].
    apply andb_true_iff in E as [E _].
    destruct (encoder_type s), ty; simpl in E; congruence. }
  destruct (List.find _ (_available_encoders m)) as [s|] eqn:E1.
  { exists s. split; [reflexivity|]. rewrite (Hsome _ _ E1). simpl. lia. }
  destruct (List.find _ (_available_encoders m)) as [s|] eqn:E2 in |- *.
  { exists s. split; [reflexivity|]. rewrite (Hsome _ _ E2).
    pose proof (Hnone _ E1). destruct (encoder_type e'); simpl; try lia.
    congruence. }
  destruct (List.find _ (_available_encoders m)) as [s|] eqn:E3 in |- *.
  { exists s. split; [reflexivity|]. rewrite (Hsome _ _ E3).
    pose proof (Hnone _ E1). pose proof (Hnone _ E2).
    destruct (encoder_type e'); simpl; try lia; congruence. }
  destruct (List.find _ (_available_encoders m)) as [s|] eqn:E4 in |- *.
  { exists s. split; [reflexivity|]. rewrite (Hsome _ _ E4).
    pose proof (Hnone _ E1). pose proof (Hnone _ E2).
    pose proof (Hnone _ E3).
    destruct (encoder_type e'); simpl; try lia; congruence. }
  destruct (List.find _ (_available_encoders m)) as [s|] eqn:E5 in |- *.
  { exists s. split; [reflexivity|]. rewrite (Hsome _ _ E5).
    pose proof (Hnone _ E1). pose proof (Hnone _ E2).
    pose proof (Hnone _ E3). pose proof (Hnone _ E4).
    destruct (encoder_type e'); simpl; try lia; congruence. }
  exfalso.
  pose proof (Hnone _ E1). pose proof (Hnone _ E2).
  pose proof (Hnone _ E3). pose proof (Hnone _ E4). pose proof (Hnone _ E5).
  destruct (encoder_type e'); congruence.
Qed.

Lemma select_best_keeps_list m :
  _available_encoders (_select_best_encoder m) = _available_encoders m.
Proof.
  unfold _select_best_encoder.
  destruct (_select_by_priority _ _); [reflexivity|].
  destruct (List.find _ _); reflexivity.
Qed.

End EncoderQueryFacts.

(** X11.  [select_encoder] succeeds exactly when the list has an entry of
    that name that passed its smoke test.  It then selects the first such
    entry: the answer names it, [get_selected_encoder] reports it, and the
    list of encoders is unchanged.  The endpoint refuses a missing or
    empty name with "No encoder specified" and changes nothing. *)
Theorem select_encoder_selects :
  forall (m : HardwareEncoderManager.t) (encoder_name : string),
    ((exists e, In e (HardwareEncoderManager._available_encoders m)
                /\ HardwareEncoderManager.name e = encoder_name
                /\ HardwareEncoderManager.available e = true)
     <-> (forall msg,
             fst (HardwareEncoderManager.select_encoder encoder_name m)
             <> HardwareEncoderManager.Error msg))
    /\ ((exists e, In e (HardwareEncoderManager._available_encoders m)
                   /\ HardwareEncoderManager.name e = encoder_name
                   /\ HardwareEncoderManager.available e = true) ->
        exists e m',
          HardwareEncoderManager.select_encoder encoder_name m
          = (HardwareEncoderManager.Ok encoder_name
               ("Selected encoder: "
                +:+ HardwareEncoderManager.description e), m')
          /\ In e (HardwareEncoderManager._available_encoders m)
          /\ HardwareEncoderManager.name e = encoder_name
          /\ HardwareEncoderManager.available e = true
          /\ HardwareEncoderManager._selected_encoder m' = Some e
          /\ HardwareEncoderManager._available_encoders m'
             = HardwareEncoderManager._available_encoders m
          /\ EncoderQueries.s_name
               <$> EncoderQueries.get_selected_encoder m'
             = Some encoder_name)
    /\ EncoderQueries.set_encoder None m
       = (HardwareEncoderManager.Error "No encoder specified", m)
    /\ EncoderQueries.set_encoder (Some "") m
       = (HardwareEncoderManager.Error "No encoder specified", m).
Proof.
  intros m n.
  assert (Hfwd : (exists e, In e (HardwareEncoderManager._available_encoders m)
                   /\ HardwareEncoderManager.name e = n
                   /\ HardwareEncoderManager.available e = true) ->
        exists e m',
          HardwareEncoderManager.select_encoder n m
          = (HardwareEncoderManager.Ok n
               ("Selected encoder: "
                +:+ HardwareEncoderManager.description e), m')
          /\ In e (HardwareEncoderManager._available_encoders m)
          /\ HardwareEncoderManager.name e = n
          /\ HardwareEncoderManager.available e = true
          /\ HardwareEncoderManager._selected_encoder m' = Some e
          /\ HardwareEncoderManager._available_encoders m'
             = HardwareEncoderManager._available_encoders m
          /\ EncoderQueries.s_name
               <$> EncoderQueries.get_selected_encoder m'
             = Some n).
  { intros (e & Hin & Hname & Hav).
    unfold HardwareEncoderManager.select_encoder.
    destruct (find_first_some
                (fun encoder =>
                   String.eqb (HardwareEncoderManager.name encoder) n
                   && HardwareEncoderManager.available encoder)
                (HardwareEncoderManager._available_encoders m) e Hin)
      as [y Hy].
    { rewrite Hname, String.eqb_refl, Hav. reflexivity. }
    rewrite Hy. apply List.find_some in Hy as [Hyin Hy].
    apply andb_true_iff in Hy as [Hyn Hyav].
    apply String.eqb_eq in Hyn.
    exists y. eexists. rewrite Hyn. split; [reflexivity|].
    unfold EncoderQueries.get_selected_encoder. simpl. rewrite Hyn.
    auto 10. }
  split; [|split; [exact Hfwd|split; reflexivity]].
  split.
  - intros Hex msg. destruct (Hfwd Hex) as (e & m' & -> & _). discriminate.
  - intros Hne. unfold HardwareEncoderManager.select_encoder in Hne.
    destruct (List.find _ (HardwareEncoderManager._available_encoders m))
      as [y|] eqn:Hy.
    + apply List.find_some in Hy as [Hyin Hy].
      apply andb_true_iff in Hy as [Hyn Hyav].
      apply String.eqb_eq in Hyn. eauto.
    + exfalso. eapply Hne. reflexivity.
Qed.

(** The software encoder is always there to be selected. *)
Lemma select_encoder_selects_witness :
  exists e m',
    HardwareEncoderManager.select_encoder "libx264"
      (HardwareEncoderManager.init Examples.nvenc_broken)
    = (HardwareEncoderManager.Ok "libx264"
         ("Selected encoder: " +:+ HardwareEncoderManager.description e), m')
    /\ HardwareEncoderManager._selected_encoder m' = Some e.
Proof.
  destruct (proj1 (proj2 (select_encoder_selects
                            (HardwareEncoderManager.init Examples.nvenc_broken)
                            "libx264")))
    as (e & m' & Hsel & _ & _ & _ & Hm' & _).
  - exists EncoderQueries.software. split; [vm_compute; left; reflexivity|].
    split; reflexivity.
  - exists e, m'. split; [exact Hsel | exact Hm'].
Defined.

(** X12.  The automatic selection after detection is of the best rank
    (NVENC, QuickSync, AMF, VideoToolbox, software, in this order) among
    the listed encoders that passed their smoke test: the software encoder
    is selected only when no hardware encoder passed. *)
Theorem best_encoder_has_best_rank :
  forall (h : HardwareEncoderManager.Host)
         (e' : HardwareEncoderManager.EncoderInfo),
    In e' (HardwareEncoderManager._available_encoders
             (HardwareEncoderManager.init h)) ->
    HardwareEncoderManager.available e' = true ->
    exists s,
      HardwareEncoderManager._selected_encoder (HardwareEncoderManager.init h)
      = Some s
      /\ HardwareEncoderManager.available s = true
      /\ (EncoderQueries.rank (HardwareEncoderManager.encoder_type s)
          <= EncoderQueries.rank (HardwareEncoderManager.encoder_type e'))%nat.
Proof.
  intros h e' Hin Hav.
  destruct (init_selected_available h) as (s0 & Hs0 & Hav0 & _).
  revert Hin Hs0. unfold HardwareEncoderManager.init,
    HardwareEncoderManager._detect_encoders.
  destruct (HardwareEncoderManager.which_ffmpeg h) as [[|c path]|].
  - simpl. intros [<-|[]] _. eexists. split; [reflexivity|].
    split; [reflexivity|simpl; lia].
  - intros Hin Hs0. rewrite select_best_keeps_list in Hin.
    destruct (select_best_rank _ e' Hin Hav) as (s & Hs & Hrank).
    exists s. split; [exact Hs|]. split; [|exact Hrank].
    rewrite Hs in Hs0. injection Hs0 as ->. exact Hav0.
  - simpl. intros [<-|[]] _. eexists. split; [reflexivity|].
    split; [reflexivity|simpl; lia].
Qed.

(** On a host whose NVENC fails its smoke test the software encoder is
    the selected one. *)
Lemma best_encoder_has_best_rank_witness :
  exists s,
    HardwareEncoderManager._selected_encoder
      (HardwareEncoderManager.init Examples.nvenc_broken) = Some s
    /\ (EncoderQueries.rank (HardwareEncoderManager.encoder_type s) <= 4)%nat.
Proof.
  destruct (best_encoder_has_best_rank Examples.nvenc_broken
              EncoderQueries.software)
    as (s & Hs & _ & Hrank).
  - vm_compute. left. reflexivity.
  - reflexivity.
  - exists s. split; [exact Hs | exact Hrank].
Defined.

Section DetectionFacts.
Import HardwareEncoderManager EncoderQueries.

Lemma probe_in h path listing ty nm cdc descr encoders e :
  In e (probe h path listing ty nm cdc descr encoders) ->
  In e encoders
  \/ (e = MkInfo ty nm cdc (_test_encoder h path nm) descr
      /\ PyStr.contains nm listing = true).
Proof.
  unfold probe. destruct (PyStr.contains nm listing); [|auto].
  intros H. apply in_app_or in H as [H|[<-|[]]]; auto.
Qed.

Lemma probe_names h path listing ty nm cdc descr encoders x :
  In x (map name (probe h path listing ty nm cdc descr encoders)) ->
  x = nm \/ In x (map name encoders).
Proof.
  unfold probe. destruct (PyStr.contains nm listing); [|auto].
  rewrite map_app. intros H. apply in_app_or in H as [H|[<-|[]]]; auto.
Qed.

Lemma probe_nodup h path listing ty nm cdc descr encoders :
  List.NoDup (map name encoders) -> ~ In nm (map name encoders) ->
  List.NoDup (map name (probe h path listing ty nm cdc descr encoders)).
Proof.
  intros Hnd Hnin. unfold probe.
  destruct (PyStr.contains nm listing); [|exact Hnd].
  rewrite map_app. simpl. apply List.NoDup_app.
  - exact Hnd.
  - repeat constructor. simpl. tauto.
  - intros x Hx [<-|[]]. exact (Hnin Hx).
Qed.

Lemma probe_head h path listing ty nm cdc descr encoders e :
  encoders !! 0%nat = Some e ->
  probe h path listing ty nm cdc descr encoders !! 0%nat = Some e.
Proof.
  unfold probe. destruct (PyStr.contains nm listing); [|auto].
  destruct encoders; [discriminate|auto].
Qed.

Lemma probe_length h path listing ty nm cdc descr encoders :
  (length (probe h path listing ty nm cdc descr encoders)
   <= S (length encoders))%nat.
Proof.
  unfold probe. destruct (PyStr.contains nm listing); [|lia].
  rewrite length_app. simpl. lia.
Qed.

(** The list built by detection, whatever the host. *)
Lemma detected_list h :
  _available_encoders (init h) = [software]
  \/ exists c path stdout,
      which_ffmpeg h = Some (String c path)
      /\ encoders_stdout h = Some stdout
      /\ _available_encoders (init h)
         = probe h (Some (String c path)) (PyStr.lower stdout)
             VIDEOTOOLBOX "h264_videotoolbox" "h264"
             "Apple VideoToolbox H.264 encoder"
             (probe h (Some (String c path)) (PyStr.lower stdout)
                AMF "h264_amf" "h264" "AMD AMF H.264 encoder"
                (probe h (Some (String c path)) (PyStr.lower stdout)
                   QUICKSYNC "h264_qsv" "h264"
                   "Intel QuickSync H.264 encoder"
                   (probe h (Some (String c path)) (PyStr.lower stdout)
                      NVENC "hevc_nvenc" "hevc" "NVIDIA NVENC HEVC encoder"
                      (probe h (Some (String c path)) (PyStr.lower stdout)
                         NVENC "h264_nvenc" "h264"
                         "NVIDIA NVENC H.264 encoder" [software])))).
Proof.
  unfold init, _detect_encoders.
  destruct (which_ffmpeg h) as [[|c path]|]; try (left; reflexivity).
  rewrite select_best_keeps_list. cbn [_available_encoders].
  destruct (encoders_stdout h) as [stdout|]; [|left; reflexivity].
  right. exists c, path, stdout. auto.
Qed.

Lemma detected_entry h e :
  In e (_available_encoders (init h)) ->
  e = software \/ (encoder_type e <> SOFTWARE /\ probed h e).
Proof.
  destruct (detected_list h) as [->|(c & path & stdout & Hw & Hs & ->)].
  - intros [<-|[]]. auto.
  - intros H.
    repeat (apply probe_in in H as [H|[-> Hc]];
            [|right; split; [discriminate|];
              exists (String c path), stdout; auto]).
    destruct H as [<-|[]]. auto.
Qed.

End DetectionFacts.

(** X13.  The list detection builds starts with the software encoder
    libx264, marked available, and has at most six entries with pairwise
    different names.  Every other entry is a hardware encoder whose name
    occurs in the lower-cased output of [ffmpeg -encoders] and whose
    availability is the outcome of its smoke test.  Without ffmpeg, or
    when listing the encoders fails, the software encoder is the only
    entry. *)
Theorem detected_encoders_structure :
  forall (h : HardwareEncoderManager.Host),
    let encoders :=
      HardwareEncoderManager._available_encoders
        (HardwareEncoderManager.init h) in
    encoders !! 0%nat = Some EncoderQueries.software
    /\ List.NoDup (map HardwareEncoderManager.name encoders)
    /\ (length encoders <= 6)%nat
    /\ (forall e, In e encoders ->
                  e = EncoderQueries.software
                  \/ (HardwareEncoderManager.encoder_type e
                      <> HardwareEncoderManager.SOFTWARE
                      /\ EncoderQueries.probed h e))
    /\ (HardwareEncoderManager.which_ffmpeg h = None
        \/ HardwareEncoderManager.encoders_stdout h = None ->
        encoders = [EncoderQueries.software]).
Proof.
  intros h encoders. subst encoders.
  split; [|split; [|split; [|split]]].
  - destruct (detected_list h) as [->|(c & path & stdout & _ & _ & ->)];
      [reflexivity|].
    repeat apply probe_head. reflexivity.
  - destruct (detected_list h) as [->|(c & path & stdout & _ & _ & ->)].
    + repeat constructor. simpl. tauto.
    + repeat (apply probe_nodup;
              [|intros Hin;
                repeat (apply probe_names in Hin as [Hin|Hin];
                        [discriminate Hin|]);
                destruct Hin as [Hin|[]]; discriminate Hin]).
      repeat constructor. simpl. tauto.
  - destruct (detected_list h) as [->|(c & path & stdout & _ & _ & ->)];
      [simpl; lia|].
    repeat (etransitivity; [apply probe_length|apply le_n_S]).
    simpl. lia.
  - apply detected_entry.
  - intros Hnone.
    destruct (detected_list h) as [->|(c & path & stdout & Hw & Hs & _)];
      [reflexivity|].
    destruct Hnone; congruence.
Qed.

(** On the host with a broken NVENC, the NVENC entry is listed, named in
    the listing and marked by its failed smoke test. *)
Lemma detected_encoders_structure_witness :
  EncoderQueries.probed Examples.nvenc_broken
    (HardwareEncoderManager.MkInfo HardwareEncoderManager.NVENC
       "h264_nvenc" "h264" false "NVIDIA NVENC H.264 encoder").
Proof.
  destruct (detected_encoders_structure Examples.nvenc_broken)
    as (_ & _ & _ & H & _).
  destruct (H (HardwareEncoderManager.MkInfo HardwareEncoderManager.NVENC
                 "h264_nvenc" "h264" false "NVIDIA NVENC H.264 encoder"))
    as [Hs|[_ Hp]].
  - vm_compute. right. left. reflexivity.
  - discriminate Hs.
  - exact Hp.
Defined.

Section ArgsFacts.
Import HardwareEncoderManager EncoderQueries EncoderInvariant.

Lemma select_encoders_list requests : forall m,
  _available_encoders (select_encoders requests m) = _available_encoders m.
Proof.
  induction requests as [|r rest IH]; intros m; [reflexivity|].
  simpl. rewrite IH. unfold select_encoder.
  destruct (List.find _ _); reflexivity.
Qed.

Lemma quality_bitrate quality :
  In (fst (default ("3000k", "fast") (quality_map !! quality)))
     ["1000k"; "3000k"; "6000k"; "10000k"].
Proof.
  destruct (quality_map !! quality) as [p|] eqn:E; [|simpl; tauto].
  apply elem_of_list_to_map_2 in E.
  repeat (apply elem_of_cons in E as [E|E];
          [injection E as _ ->; simpl; tauto|]).
  apply elem_of_nil in E. destruct E.
Qed.

Lemma quality_unknown quality :
  quality <> "low" -> quality <> "medium" -> quality <> "high" ->
  quality <> "ultra" -> quality_map !! quality = None.
Proof.
  intros H1 H2 H3 H4. apply not_elem_of_list_to_map_1. simpl.
  intros E.
  repeat (apply elem_of_cons in E as [E|E]; [congruence|]).
  apply elem_of_nil in E. exact E.
Qed.

End ArgsFacts.

(** X14.  After detection and any selection requests, the encoder
    arguments are never the no-encoder fallback: they start with "-c:v"
    and the name of the selected encoder, and carry "-b:v" followed by the
    bitrate of the quality, one of 1000k, 3000k, 6000k and 10000k.  A
    quality other than low, medium, high and ultra gives the arguments of
    medium. *)
Theorem ffmpeg_args_name_selected_encoder :
  forall (h : HardwareEncoderManager.Host) (requests : list string)
         (quality : string),
    let m := HardwareEncoderManager.select_encoders requests
               (HardwareEncoderManager.init h) in
    (exists s pre post bitrate,
        HardwareEncoderManager._selected_encoder m = Some s
        /\ EncoderQueries.get_ffmpeg_encoder_args quality m
           = "-c:v" :: HardwareEncoderManager.name s
             :: pre ++ "-b:v" :: bitrate :: post
        /\ In bitrate ["1000k"; "3000k"; "6000k"; "10000k"])
    /\ (quality <> "low" -> quality <> "medium" -> quality <> "high" ->
        quality <> "ultra" ->
        EncoderQueries.get_ffmpeg_encoder_args quality m
        = EncoderQueries.get_ffmpeg_encoder_args "medium" m).
Proof.
  intros h requests quality m. split.
  - destruct (select_encoders_keep requests (HardwareEncoderManager.init h)
                (init_selected_available h)) as (s & Hs & _ & Hin).
    fold m in Hs, Hin. unfold m in Hin.
    rewrite select_encoders_list in Hin.
    pose proof (quality_bitrate quality) as Hb.
    exists s. unfold EncoderQueries.get_ffmpeg_encoder_args. rewrite Hs.
    destruct (detected_entry h s Hin) as [->|[Hty _]].
    + exists ["-preset";
              snd (default ("3000k", "fast")
                     (EncoderQueries.quality_map !! quality));
              "-tune"; "zerolatency"], [].
      eexists. split; [reflexivity|]. split; [reflexivity | exact Hb].
    + destruct (HardwareEncoderManager.encoder_type s); [congruence| | | |].
      * exists ["-preset"; "p4"; "-tune"; "ll"], ["-rc"; "cbr"].
        eexists. split; [reflexivity|]. split; [reflexivity | exact Hb].
      * exists ["-preset"; "faster"], [].
        eexists. split; [reflexivity|]. split; [reflexivity | exact Hb].
      * exists ["-quality"; "speed"], [].
        eexists. split; [reflexivity|]. split; [reflexivity | exact Hb].
      * exists [], [].
        eexists. split; [reflexivity|]. split; [reflexivity | exact Hb].
  - intros H1 H2 H3 H4. unfold EncoderQueries.get_ffmpeg_encoder_args.
    rewrite (quality_unknown quality H1 H2 H3 H4). reflexivity.
Qed.

(** A quality nobody defined is treated as medium. *)
Lemma ffmpeg_args_name_selected_encoder_witness :
  EncoderQueries.get_ffmpeg_encoder_args "best"
    (HardwareEncoderManager.select_encoders []
       (HardwareEncoderManager.init Examples.nvenc_broken))
  = EncoderQueries.get_ffmpeg_encoder_args "medium"
      (HardwareEncoderManager.select_encoders []
         (HardwareEncoderManager.init Examples.nvenc_broken)).
Proof.
  apply (proj2 (ffmpeg_args_name_selected_encoder Examples.nvenc_broken []
                  "best")); discriminate.
Defined.

(** ** Video settings: the settings endpoint, the control channel, the tracks *)

Section VideoFacts.
Import VideoSettings.

(** A track takes values that are not zero. *)
Lemma track_takes_nonzero (f w : Z) (tr : ScreenVideoTrack) :
  f <> 0%Z -> w <> 0%Z ->
  track_update_settings (Some f) (Some w) tr = MkTrack f w.
Proof.
  intros Hf Hw. unfold track_update_settings.
  destruct (Z.eqb_spec f 0); [contradiction|].
  destruct (Z.eqb_spec w 0); [contradiction|]. reflexivity.
Qed.

(** With values that are not zero, [update_settings] leaves every track
    with the manager's values. *)
Lemma update_settings_syncs (avail : bool) (nf nw : option Z)
    (na : option bool) (m : Manager) :
  let m' := update_settings avail nf nw na m in
  m_fps m' <> 0%Z -> m_max_width m' <> 0%Z ->
  Forall (fun tr => fps tr = m_fps m' /\ max_width tr = m_max_width m')
         (video_tracks m').
Proof.
  unfold update_settings. cbn [m_fps m_max_width video_tracks].
  intros Hf Hw. apply Forall_forall. intros tr Hin.
  apply list_elem_of_fmap in Hin as [tr0 [-> _]].
  rewrite (track_takes_nonzero _ _ tr0 Hf Hw). split; reflexivity.
Qed.

End VideoFacts.

(** X15. [POST /settings/video] stores an fps in [5, 60], a quality in
    [10, 100] and a width in [640, 3840]: a requested value inside its
    range is kept, one outside is replaced by the nearer bound.  The
    manager and every video track of a live connection end with the stored
    fps and width; the number of tracks and the audio switch do not
    change. *)
Theorem video_settings_clamped_to_tracks (avail : bool)
    (req_fps req_quality req_max_width : Z) (m : VideoSettings.Manager) :
  let r := VideoSettings.update_video_settings avail req_fps req_quality
             req_max_width m in
  let s := fst r in
  let m' := snd r in
  ((5 <= VideoSettings.s_fps s <= 60)%Z /\
   (10 <= VideoSettings.s_quality s <= 100)%Z /\
   (640 <= VideoSettings.s_max_width s <= 3840)%Z) /\
  ((VideoSettings.s_fps s = req_fps \/
    (req_fps < 5 /\ VideoSettings.s_fps s = 5)%Z \/
    (60 < req_fps /\ VideoSettings.s_fps s = 60)%Z) /\
   (VideoSettings.s_quality s = req_quality \/
    (req_quality < 10 /\ VideoSettings.s_quality s = 10)%Z \/
    (100 < req_quality /\ VideoSettings.s_quality s = 100)%Z) /\
   (VideoSettings.s_max_width s = req_max_width \/
    (req_max_width < 640 /\ VideoSettings.s_max_width s = 640)%Z \/
    (3840 < req_max_width /\ VideoSettings.s_max_width s = 3840)%Z)) /\
  VideoSettings.m_fps m' = VideoSettings.s_fps s /\
  VideoSettings.m_max_width m' = VideoSettings.s_max_width s /\
  Forall (fun tr =>
            VideoSettings.fps tr = VideoSettings.s_fps s /\
            VideoSettings.max_width tr = VideoSettings.s_max_width s)
         (VideoSettings.video_tracks m') /\
  length (VideoSettings.video_tracks m')
  = length (VideoSettings.video_tracks m) /\
  VideoSettings.audio_enabled m' = VideoSettings.audio_enabled m.
Proof.
  intros r s m'. subst r s m'.
  unfold VideoSettings.update_video_settings.
  cbn [fst snd VideoSettings.s_fps VideoSettings.s_quality
       VideoSettings.s_max_width].
  split; [lia|]. split; [lia|].
  split; [reflexivity|]. split; [reflexivity|].
  split.
  - apply (update_settings_syncs avail
             (Some (Z.max 5 (Z.min 60 req_fps)))
             (Some (Z.max 640 (Z.min 3840 req_max_width))) None m).
    + cbn [VideoSettings.update_settings VideoSettings.m_fps]. lia.
    + cbn [VideoSettings.update_settings VideoSettings.m_max_width]. lia.
  - split.
    + unfold VideoSettings.update_settings.
      cbn [VideoSettings.video_tracks]. apply length_fmap.
    + reflexivity.
Qed.

Section VideoRuns.
Import VideoSettings VideoInvariant.

(** One request that carries no zero keeps the tracks with the manager. *)
Lemma serve_keeps_sync (avail : bool) (r : request) (m : Manager) :
  carries_zero r = false ->
  in_sync m -> m_fps m <> 0%Z -> m_max_width m <> 0%Z ->
  in_sync (serve avail r m) /\
  m_fps (serve avail r m) <> 0%Z /\
  m_max_width (serve avail r m) <> 0%Z /\
  length (video_tracks (serve avail r m))
  = (length (video_tracks m) + opened [r])%nat.
Proof.
  intros Hz Hs Hf Hw. destruct r as [f q w|f w|].
  - cbn [serve update_video_settings snd].
    assert (H1 : m_fps (update_settings avail
                          (Some (Z.max 5 (Z.min 60 f)))
                          (Some (Z.max 640 (Z.min 3840 w))) None m) <> 0%Z)
      by (cbn [update_settings m_fps]; lia).
    assert (H2 : m_max_width (update_settings avail
                          (Some (Z.max 5 (Z.min 60 f)))
                          (Some (Z.max 640 (Z.min 3840 w))) None m) <> 0%Z)
      by (cbn [update_settings m_max_width]; lia).
    split; [exact (update_settings_syncs _ _ _ _ _ H1 H2)|].
    split; [exact H1|]. split; [exact H2|].
    unfold update_settings, opened. cbn [video_tracks List.filter length].
    rewrite List.length_map. lia.
  - cbn [serve on_config_message].
    assert (H1 : m_fps (update_settings avail f w None m) <> 0%Z).
    { cbn [update_settings m_fps]. destruct f as [f|]; [|exact Hf].
      intros ->. cbn in Hz. discriminate. }
    assert (H2 : m_max_width (update_settings avail f w None m) <> 0%Z).
    { cbn [update_settings m_max_width]. destruct w as [w|]; [|exact Hw].
      intros ->. cbn in Hz. rewrite orb_true_r in Hz. discriminate. }
    split; [exact (update_settings_syncs _ _ _ _ _ H1 H2)|].
    split; [exact H1|]. split; [exact H2|].
    unfold on_config_message, update_settings, opened.
    cbn [video_tracks List.filter length].
    rewrite List.length_map. lia.
  - cbn [serve]. unfold in_sync, add_connection, opened.
    cbn [m_fps m_max_width video_tracks List.filter length].
    split.
    + apply Forall_app. split; [exact Hs|].
      apply Forall_cons. split; [split; reflexivity | apply List.Forall_nil].
    + split; [exact Hf|]. split; [exact Hw|]. rewrite length_app. reflexivity.
Qed.

Lemma opened_cons (r : request) (rs : list request) :
  opened (r :: rs) = (opened [r] + opened rs)%nat.
Proof. unfold opened. destruct r; reflexivity. Qed.

Lemma serve_all_keeps_sync (avail : bool) (rs : list request) :
  forall m,
  Forall (fun r => carries_zero r = false) rs ->
  in_sync m -> m_fps m <> 0%Z -> m_max_width m <> 0%Z ->
  in_sync (serve_all avail rs m) /\
  m_fps (serve_all avail rs m) <> 0%Z /\
  m_max_width (serve_all avail rs m) <> 0%Z /\
  length (video_tracks (serve_all avail rs m))
  = (length (video_tracks m) + opened rs)%nat.
Proof.
  induction rs as [|r rs IH]; intros m Hrs Hs Hf Hw.
  - unfold serve_all, opened. cbn [foldl List.filter length].
    split; [exact Hs|]. split; [exact Hf|]. split; [exact Hw|].
    rewrite Nat.add_0_r. reflexivity.
  - apply Forall_cons in Hrs as [Hr Hrs].
    destruct (serve_keeps_sync avail r m Hr Hs Hf Hw)
      as (Hs' & Hf' & Hw' & Hl').
    destruct (IH _ Hrs Hs' Hf' Hw') as (Hs2 & Hf2 & Hw2 & Hl2).
    unfold serve_all in *. cbn [foldl].
    split; [exact Hs2|]. split; [exact Hf2|]. split; [exact Hw2|].
    rewrite (opened_cons r rs), Hl2, Hl'. lia.
Qed.

End VideoRuns.

(** X16. Starting from a fresh manager, after any mix of settings
    requests, control-channel config messages and new connections in which
    no config message carries the value 0, every live video track runs with
    the manager's current fps and width, neither of which is 0, and there
    is one track per connection opened. *)
Theorem tracks_in_sync_with_manager (avail : bool)
    (rs : list VideoSettings.request) :
  Forall (fun r => VideoInvariant.carries_zero r = false) rs ->
  let m := VideoSettings.serve_all avail rs (VideoSettings.init avail) in
  VideoInvariant.in_sync m /\
  VideoSettings.m_fps m <> 0%Z /\
  VideoSettings.m_max_width m <> 0%Z /\
  length (VideoSettings.video_tracks m) = VideoInvariant.opened rs.
Proof.
  intros Hrs m. subst m.
  destruct (serve_all_keeps_sync avail rs (VideoSettings.init avail) Hrs)
    as (H1 & H2 & H3 & H4).
  - apply List.Forall_nil.
  - discriminate.
  - discriminate.
  - repeat split; assumption.
Qed.

(** The example session ends with two tracks at 60 fps and width 640. *)
Lemma tracks_in_sync_with_manager_witness :
  VideoInvariant.in_sync
    (VideoSettings.serve_all true VideoExamples.session
       (VideoSettings.init true)) /\
  VideoSettings.m_fps
    (VideoSettings.serve_all true VideoExamples.session
       (VideoSettings.init true)) <> 0%Z /\
  VideoSettings.m_max_width
    (VideoSettings.serve_all true VideoExamples.session
       (VideoSettings.init true)) <> 0%Z /\
  length (VideoSettings.video_tracks
            (VideoSettings.serve_all true VideoExamples.session
               (VideoSettings.init true)))
  = VideoInvariant.opened VideoExamples.session.
Proof.
  apply (tracks_in_sync_with_manager true VideoExamples.session).
  repeat (apply Forall_cons; split; [reflexivity|]). apply List.Forall_nil.
Defined.

(** X17. A config message with fps 0 is not clamped: the manager stores
    0 as its fps, the live tracks ignore the value and keep the fps they
    had, and the track of the next connection is created with fps 0. *)
Theorem config_zero_fps_splits_tracks (avail : bool) (w : option Z)
    (m : VideoSettings.Manager) :
  let m' := VideoSettings.on_config_message avail (Some 0%Z) w m in
  VideoSettings.m_fps m' = 0%Z /\
  map VideoSettings.fps (VideoSettings.video_tracks m')
  = map VideoSettings.fps (VideoSettings.video_tracks m) /\
  exists tr,
    VideoSettings.video_tracks (VideoSettings.add_connection m')
    = VideoSettings.video_tracks m' ++ [tr] /\
    VideoSettings.fps tr = 0%Z.
Proof.
  intros m'. subst m'.
  unfold VideoSettings.on_config_message, VideoSettings.update_settings.
  cbn [VideoSettings.m_fps VideoSettings.video_tracks].
  split; [reflexivity|]. split.
  - rewrite List.map_map. apply List.map_ext. intros tr. reflexivity.
  - eexists. unfold VideoSettings.add_connection.
    cbn [VideoSettings.video_tracks VideoSettings.m_fps]. split; reflexivity.
Qed.

(** ** The size of a streamed frame *)

Section ResizeFacts.

(** The scale factor of a resize lies between 0 and 1. *)
Lemma scale_factor_range (new_width width : Z) :
  (0 < new_width <= width)%Z ->
  0 <= inject_Z new_width / inject_Z width /\
  inject_Z new_width / inject_Z width <= 1.
Proof.
  intros [H0 H1].
  assert (Hw : 0 < inject_Z width)
    by (change 0 with (inject_Z 0); rewrite <- Zlt_Qlt; lia).
  assert (Hn : 0 <= inject_Z new_width)
    by (change 0 with (inject_Z 0); rewrite <- Zle_Qle; lia).
  assert (Hle : inject_Z new_width <= inject_Z width)
    by (rewrite <- Zle_Qle; lia).
  split.
  - apply Qle_shift_div_l; [exact Hw|]. lra.
  - apply Qle_shift_div_r; [exact Hw|]. lra.
Qed.

End ResizeFacts.

(** X18. [ScreenVideoTrack.recv] never enlarges a frame: for a frame of
    positive width and a positive [max_width], the new width is positive
    and at most both the frame's width and [max_width], the new height is
    between 0 and the frame's height, and a frame no wider than
    [max_width] keeps its size. *)
Theorem resize_never_upscales (max_width width height : Z) :
  (0 < width)%Z -> (0 <= height)%Z -> (0 < max_width)%Z ->
  let r := VideoSettings.resized max_width width height in
  (0 < fst r <= width)%Z /\ (fst r <= max_width)%Z /\
  (0 <= snd r <= height)%Z /\
  ((width <= max_width)%Z -> r = (width, height)).
Proof.
  intros Hw Hh Hm r. subst r. unfold VideoSettings.resized.
  cbn [fst snd].
  assert (Hh' : 0 <= inject_Z height)
    by (change 0 with (inject_Z 0); rewrite <- Zle_Qle; lia).
  split; [lia|]. split; [lia|]. split.
  - destruct (scale_factor_range (Z.min max_width width) width)
      as [H0 H1]; [lia|].
    apply int_bounds.
    + change (inject_Z 0) with 0. nra.
    + nra.
  - intros Hle. rewrite Z.min_r by lia. f_equal.
    assert (Heq : inject_Z height * (inject_Z width / inject_Z width)
                  == inject_Z height).
    { field. intros H. change 0 with (inject_Z 0) in H.
      apply (proj1 (inject_Z_injective width 0)) in H. lia. }
    assert (Hb : (height
                  <= Py.int (inject_Z height
                             * (inject_Z width / inject_Z width))
                  <= height)%Z).
    { apply int_bounds; rewrite Heq; apply Qle_refl. }
    lia.
Qed.

(** A 1920x1080 frame at the default width 1280 becomes 1280x720; a
    1024x768 frame is left alone. *)
Lemma resize_never_upscales_witness :
  ((0 < fst (VideoSettings.resized 1280 1024 768) <= 1024)%Z /\
   (fst (VideoSettings.resized 1280 1024 768) <= 1280)%Z /\
   (0 <= snd (VideoSettings.resized 1280 1024 768) <= 768)%Z /\
   ((1024 <= 1280)%Z ->
    VideoSettings.resized 1280 1024 768 = (1024, 768)%Z)) /\
  VideoSettings.resized 1280 1920 1080 = (1280, 720)%Z.
Proof.
  split; [|reflexivity].
  apply (resize_never_upscales 1280 1024 768); lia.
Defined.

(** ** Cleaning up a peer connection *)

Section CleanupFacts.
Import WebRTC Cleanup.
Variable close : Aiortc.RTCPeerConnection -> Aiortc.RTCPeerConnection.

(** After a cleanup the connection is not in the manager's set. *)
Lemma cleanup_removes (pc : N) (st : Server) :
  pc ∉ peer_connections (cleanup_peer_connection close pc st).
Proof.
  unfold cleanup_peer_connection.
  destruct (decide (pc ∈ peer_connections st)) as [Hin|Hout].
  - cbn [peer_connections]. rewrite elem_of_difference, elem_of_singleton.
    intros [_ Hne]. apply Hne. reflexivity.
  - exact Hout.
Qed.

(** A cleanup of a connection outside the set does nothing. *)
Lemma cleanup_not_live (pc : N) (st : Server) :
  pc ∉ peer_connections st -> cleanup_peer_connection close pc st = st.
Proof.
  intros Hout. unfold cleanup_peer_connection.
  destruct (decide (pc ∈ peer_connections st)); [contradiction|reflexivity].
Qed.

(** The server's table is out of the manager's reach. *)
Lemma cleanup_active_pcs (pc : N) (st : Server) :
  active_pcs (cleanup_peer_connection close pc st) = active_pcs st.
Proof.
  unfold cleanup_peer_connection.
  destruct (decide (pc ∈ peer_connections st)); reflexivity.
Qed.

(** The answer endpoint never says "Invalid pc_id" for a connection the
    server's table names. *)
Lemma known_pc_not_invalid
    (setRemoteDescription :
       Aiortc.RTCPeerConnection -> Aiortc.RTCSessionDescription ->
       Aiortc.Exception + Aiortc.RTCPeerConnection)
    (data : AnswerRequest) (st : Server) (pc : N) :
  lookup_pc data st = Some pc ->
  fst (receive_webrtc_answer_try setRemoteDescription data st)
  <> inr (ErrorResponse "Invalid pc_id").
Proof.
  intros Hl. unfold receive_webrtc_answer_try. rewrite Hl.
  destruct (handle_answer setRemoteDescription pc (answer data) st)
    as [[e|u] st']; cbn [fst]; discriminate.
Qed.

End CleanupFacts.

(** X19. [cleanup_peer_connection] takes the connection out of the
    manager's set and closes it once: a second cleanup of the same
    connection changes nothing, other connections keep their state and
    their membership, and a connection that was not in the set is not
    closed.  The server's table of connection ids is untouched, so an
    answer posted for the id of a cleaned-up connection is still passed to
    the connection and never answered with "Invalid pc_id". *)
Theorem cleanup_once_and_id_stays_known
    (close : Aiortc.RTCPeerConnection -> Aiortc.RTCPeerConnection)
    (pc : N) (st : WebRTC.Server) :
  let st' := Cleanup.cleanup_peer_connection close pc st in
  (pc ∉ WebRTC.peer_connections st') /\
  Cleanup.cleanup_peer_connection close pc st' = st' /\
  WebRTC.heap st' !! pc
  = (if decide (pc ∈ WebRTC.peer_connections st)
     then close <$> WebRTC.heap st !! pc
     else WebRTC.heap st !! pc) /\
  (forall other, other <> pc ->
     WebRTC.heap st' !! other = WebRTC.heap st !! other /\
     (other ∈ WebRTC.peer_connections st'
      <-> other ∈ WebRTC.peer_connections st)) /\
  (forall data, WebRTC.lookup_pc data st' = WebRTC.lookup_pc data st) /\
  (forall setRemoteDescription data,
     WebRTC.lookup_pc data st = Some pc ->
     fst (WebRTC.receive_webrtc_answer_try setRemoteDescription data st')
     <> inr (WebRTC.ErrorResponse "Invalid pc_id")).
Proof.
  intros st'.
  assert (Hact : WebRTC.active_pcs st' = WebRTC.active_pcs st)
    by apply cleanup_active_pcs.
  assert (Hlook : forall data,
             WebRTC.lookup_pc data st' = WebRTC.lookup_pc data st).
  { intros data. unfold WebRTC.lookup_pc. rewrite Hact. reflexivity. }
  split; [apply cleanup_removes|].
  split; [apply cleanup_not_live, cleanup_removes|].
  split; [|split; [|split]].
  - subst st'. unfold Cleanup.cleanup_peer_connection.
    destruct (decide (pc ∈ WebRTC.peer_connections st)).
    + cbn [WebRTC.heap]. apply lookup_alter_eq.
    + reflexivity.
  - intros other Hne. subst st'. unfold Cleanup.cleanup_peer_connection.
    destruct (decide (pc ∈ WebRTC.peer_connections st)).
    + cbn [WebRTC.heap WebRTC.peer_connections]. split.
      * apply lookup_alter_ne. congruence.
      * rewrite elem_of_difference, elem_of_singleton.
        split; [intros [H _]; exact H | intros H; split; [exact H|exact Hne]].
    + split; reflexivity.
  - exact Hlook.
  - intros sRD data Hl. apply (known_pc_not_invalid sRD data st' pc).
    rewrite Hlook. exact Hl.
Qed.

(** Of two live connections the first is cleaned up: the second stays
    live, and an answer for the first is still handed to it (and refused
    by the closed connection, not by the endpoint). *)
Lemma cleanup_once_and_id_stays_known_witness :
  (2%N ∈ WebRTC.peer_connections
           (Cleanup.cleanup_peer_connection Cleanup.reference_close 1%N
              CleanupExamples.two_live)
   <-> 2%N ∈ WebRTC.peer_connections CleanupExamples.two_live) /\
  fst (WebRTC.receive_webrtc_answer_try
         Aiortc.reference_setRemoteDescription Examples.closed_request
         (Cleanup.cleanup_peer_connection Cleanup.reference_close 1%N
            CleanupExamples.two_live))
  <> inr (WebRTC.ErrorResponse "Invalid pc_id").
Proof.
  destruct (cleanup_once_and_id_stays_known Cleanup.reference_close 1%N
              CleanupExamples.two_live) as (_ & _ & _ & H4 & _ & H6).
  split.
  - apply (H4 2%N). discriminate.
  - apply H6. reflexivity.
Defined.
